(** * TOON codec of [scripts/droid_toon_integration.py]

    A shallow embedding of [TOONEncoder], [TOONDecoder] and the format
    selector [DroidTOONIntegration], and the properties of the codec
    that the specification states about them.

    Python [str] values are modelled as [string]; a character stands for
    a code point below 256.  Python [int] is [Z]; the limit that an
    interpreter may put on the length of a decimal conversion is not
    modelled.  binary64 numbers are kept abstract: their printing and the
    value of a parsed literal are services of the interpreter, gathered
    in [PyRuntime] together with the [json] calls and [str()] of a
    container.  A Python exception is a [Raise] result.

    Two lines of the file are not valid Python as they stand, and the
    model reads them repaired.  In [_encode_tabular_object] the header
    is written by an f-string whose replacement field holds the closing
    bracket, [{len(array_value)]}]; the model reads
    [{len(array_value)}]], the form that [_encode_uniform_array] has for
    its own header.  The class statement of the selector has a space in
    the class name; the model reads [DroidTOONIntegration], the name
    under which [droid_dna_integration.py] calls it.  The statements
    below that evaluate the header of a keyed table rest on the first
    repair.  *)

From Stdlib Require Import String Ascii List ZArith Bool Lia.
From Stdlib Require Import DecimalString DecimalZ.
Import ListNotations.
Open Scope string_scope.

(** ** Python [str] builtins used by the module *)

Module PyStr.

Definition NL : ascii := "010"%char.
Definition TAB : ascii := "009"%char.
Definition DQ : ascii := "034"%char.
Definition BSL : ascii := "\"%char.

Definition str1 (c : ascii) : string := String c EmptyString.

Definition code (c : ascii) : nat := nat_of_ascii c.

Definition between (lo hi : nat) (c : ascii) : bool :=
  (lo <=? code c)%nat && (code c <=? hi)%nat.

(** [c.isspace()], which is also what [strip()] removes. *)
Definition isspace_char (c : ascii) : bool :=
  between 9 13 c || between 28 32 c
  || (code c =? 133)%nat || (code c =? 160)%nat.

(** The characters [re]'s [\d] and [int()] accept. *)
Definition isdecimal_char (c : ascii) : bool := between 48 57 c.

(** [c.isdigit()]: the decimal digits and the superscripts 1, 2, 3. *)
Definition isdigit_char (c : ascii) : bool :=
  isdecimal_char c
  || (code c =? 178)%nat || (code c =? 179)%nat || (code c =? 185)%nat.

Definition lower_char (c : ascii) : ascii :=
  if between 65 90 c
     || (between 192 222 c && negb (code c =? 215)%nat)
  then ascii_of_nat (code c + 32)
  else c.

Fixpoint map_chars (f : ascii -> ascii) (s : string) : string :=
  match s with
  | EmptyString => EmptyString
  | String c s' => String (f c) (map_chars f s')
  end.

Fixpoint all_chars (p : ascii -> bool) (s : string) : bool :=
  match s with
  | EmptyString => true
  | String c s' => p c && all_chars p s'
  end.

Definition is_empty (s : string) : bool :=
  match s with EmptyString => true | _ => false end.

(** [s.lower()] *)
Definition lower (s : string) : string := map_chars lower_char s.

(** [s.isdigit()]: false on the empty string. *)
Definition isdigit (s : string) : bool :=
  negb (is_empty s) && all_chars isdigit_char s.

(** [c in s] for a one-character [c]. *)
Fixpoint contains (c : ascii) (s : string) : bool :=
  match s with
  | EmptyString => false
  | String x s' => Ascii.eqb x c || contains c s'
  end.

(** [s.startswith(p)] *)
Definition startswith (s p : string) : bool := String.prefix p s.

(** [s.endswith(c)] for a one-character [c]. *)
Fixpoint endswith_char (s : string) (c : ascii) : bool :=
  match s with
  | EmptyString => false
  | String x EmptyString => Ascii.eqb x c
  | String _ s' => endswith_char s' c
  end.

Fixpoint lstrip (s : string) : string :=
  match s with
  | EmptyString => EmptyString
  | String c s' => if isspace_char c then lstrip s' else s
  end.

Fixpoint rstrip (s : string) : string :=
  match s with
  | EmptyString => EmptyString
  | String c s' =>
      match rstrip s' with
      | EmptyString => if isspace_char c then EmptyString else str1 c
      | r => String c r
      end
  end.

Definition strip (s : string) : string := lstrip (rstrip s).

(** [s.split(c)] for a one-character separator: never the empty list. *)
Fixpoint split (c : ascii) (s : string) : list string :=
  match s with
  | EmptyString => [EmptyString]
  | String x s' =>
      if Ascii.eqb x c then EmptyString :: split c s'
      else match split c s' with
           | h :: t => String x h :: t
           | [] => [str1 x]
           end
  end.

(** [s.split(c, 1)] on a string that contains [c]: the text before the
    first [c] and the text after it. *)
Fixpoint split_once (c : ascii) (s : string) : string * string :=
  match s with
  | EmptyString => (EmptyString, EmptyString)
  | String x s' =>
      if Ascii.eqb x c then (EmptyString, s')
      else let (h, t) := split_once c s' in (String x h, t)
  end.

(** [sep.join(l)] *)
Definition join (sep : string) (l : list string) : string :=
  String.concat sep l.

(** [s.replace(old, new)] for a non-empty [old]: the occurrences are
    taken from the left and do not overlap; [skip] counts the characters
    of a matched occurrence still to be passed over. *)
Fixpoint replace_from (old new : string) (skip : nat) (s : string)
  : string :=
  match s with
  | EmptyString => EmptyString
  | String c s' =>
      match skip with
      | S k => replace_from old new k s'
      | O =>
          if String.prefix old s
          then new ++ replace_from old new (String.length old - 1) s'
          else String c (replace_from old new 0 s')
      end
  end.

Definition replace (old new s : string) : string :=
  replace_from old new 0 s.

(** [s[1:-1]] *)
Fixpoint drop_last (s : string) : string :=
  match s with
  | EmptyString => EmptyString
  | String _ EmptyString => EmptyString
  | String c s' => String c (drop_last s')
  end.

Definition slice_1_m1 (s : string) : string :=
  match s with
  | EmptyString => EmptyString
  | String _ s' => drop_last s'
  end.

(** [" " * n] *)
Fixpoint spaces (n : nat) : string :=
  match n with
  | O => EmptyString
  | S k => String " "%char (spaces k)
  end.

(** [str(n)] for an [int]. *)
Definition str_int (n : Z) : string := NilZero.string_of_int (Z.to_int n).

(** [int(s)] on a string for which [s.isdigit()] holds: the superscript
    digits are refused ([None] stands for [ValueError]).  The limit an
    interpreter may put on the number of digits is not modelled. *)
Definition int_of_digits (s : string) : option Z :=
  if negb (is_empty s) && all_chars isdecimal_char s
  then option_map Z.of_uint (NilEmpty.uint_of_string s)
  else None.

(** Whether [float(s)] accepts [s], for a string made of digits, dots
    and dashes only (the strings on which the decoder calls [float]):
    an optional sign, then digits with an optional dot and digits, or a
    dot and at least one digit. *)
Fixpoint span_decimal (s : string) : string * string :=
  match s with
  | EmptyString => (EmptyString, EmptyString)
  | String c s' =>
      if isdecimal_char c
      then let (d, r) := span_decimal s' in (String c d, r)
      else (EmptyString, s)
  end.

Definition unsigned_float_ok (s : string) : bool :=
  let (whole, r) := span_decimal s in
  match r with
  | EmptyString => negb (is_empty whole)
  | String c r' =>
      Ascii.eqb c "."%char
      && all_chars isdecimal_char r'
      && negb (is_empty whole && is_empty r')
  end.

Definition float_literal_ok (s : string) : bool :=
  match s with
  | String "-"%char s' => unsigned_float_ok s'
  | _ => unsigned_float_ok s
  end.

End PyStr.
Import PyStr.

(** ** Values, interpreter services, errors *)

(** The JSON-like values the codec exchanges.  An [Object] is a Python
    [dict] with string keys, kept as the list of its entries in insertion
    order; [F] is the carrier of binary64 numbers. *)
#[local] Set Warnings "-register-all".
Inductive Value (F : Type) : Type :=
| Null
| Bool (b : bool)
| Int (n : Z)
| Float (x : F)
| Str (s : string)
| Object (entries : list (string * Value F))
| Array (items : list (Value F)).

Arguments Null {F}.
Arguments Bool {F} b.
Arguments Int {F} n.
Arguments Float {F} x.
Arguments Str {F} s.
Arguments Object {F} entries.
Arguments Array {F} items.

(** What the module asks of the interpreter and of [json], and which is
    not modelled further. *)
Record PyRuntime (F : Type) : Type := {
  (** [str(x)] for a float [x] *)
  float_str : F -> string;
  (** the value of [float(s)] when [s] is an accepted literal *)
  float_val : string -> F;
  (** [str(v)] for a [dict] or a [list] *)
  container_str : Value F -> string;
  (** [json.dumps(v)] *)
  json_dumps : Value F -> string;
  (** [json.JSONEncoder(indent=2).encode(v)] *)
  json_encode : Value F -> string;
  (** [json.loads(s)]; [None] stands for [json.JSONDecodeError] *)
  json_loads : string -> option (Value F)
}.

Arguments float_str {F} _ _.
Arguments float_val {F} _ _.
Arguments container_str {F} _ _.
Arguments json_dumps {F} _ _.
Arguments json_encode {F} _ _.
Arguments json_loads {F} _ _.

Inductive PyExn : Type := ValueError.

Inductive Result (A : Type) : Type :=
| Ok (a : A)
| Raise (e : PyExn).

Arguments Ok {A} a.
Arguments Raise {A} e.

Definition bind {A B : Type} (r : Result A) (k : A -> Result B) : Result B :=
  match r with
  | Ok a => k a
  | Raise e => Raise e
  end.

Notation "x <- r ;; k" := (bind r (fun x => k))
  (at level 61, r at next level, right associativity).

(** ** Python [dict] operations on entry lists *)

Section Dict.
Context {V : Type}.

(** [d.get(k, default)] *)
Fixpoint dict_get (k : string) (default : V) (d : list (string * V)) : V :=
  match d with
  | [] => default
  | (k', v) :: d' => if String.eqb k' k then v else dict_get k default d'
  end.

(** [d[k] = v]: an existing key keeps its place. *)
Fixpoint dict_set (k : string) (v : V) (d : list (string * V))
  : list (string * V) :=
  match d with
  | [] => [(k, v)]
  | (k', v') :: d' =>
      if String.eqb k' k then (k, v) :: d' else (k', v') :: dict_set k v d'
  end.

(** [dict(pairs)] *)
Definition dict_of (pairs : list (string * V)) : list (string * V) :=
  fold_left (fun d kv => dict_set (fst kv) (snd kv) d) pairs [].

(** [list(d.keys())] *)
Definition keys (d : list (string * V)) : list string := map fst d.

(** [list(d.values())] *)
Definition values (d : list (string * V)) : list V := map snd d.
End Dict.

Definition is_nil {A : Type} (l : list A) : bool :=
  match l with [] => true | _ => false end.

(** [set(a) == set(b)] for two lists of keys. *)
Definition subset_keys (a b : list string) : bool :=
  forallb (fun k => existsb (String.eqb k) b) a.

Definition same_key_set (a b : list string) : bool :=
  subset_keys a b && subset_keys b a.

Section Enumerate.
Context {A B : Type} (f : nat -> A -> B).

(** [[f(i, x) for i, x in enumerate(l, start)]] *)
Fixpoint map_enumerate (start : nat) (l : list A) : list B :=
  match l with
  | [] => []
  | x :: l' => f start x :: map_enumerate (S start) l'
  end.
End Enumerate.

(** ** [TOONConfig] *)

Record TOONConfig : Type := {
  indent_size : Z;
  use_commas : bool;
  compact_strings : bool;
  max_nesting_depth : Z;
  prefer_arrays : bool
}.

Definition default_config : TOONConfig := {|
  indent_size := 2;
  use_commas := true;
  compact_strings := false;
  max_nesting_depth := 3;
  prefer_arrays := true
|}.

(** ** [TOONEncoder] *)

Section Encoder.
Context {F : Type} (py : PyRuntime F) (config : TOONConfig).

Definition is_dict (v : Value F) : bool :=
  match v with Object _ => true | _ => false end.

Definition is_list (v : Value F) : bool :=
  match v with Array _ => true | _ => false end.

(** [str(v)] *)
Definition py_str (v : Value F) : string :=
  match v with
  | Null => "None"
  | Bool true => "True"
  | Bool false => "False"
  | Int n => str_int n
  | Float x => float_str py x
  | Str s => s
  | Object _ | Array _ => container_str py v
  end.

(** The escaping of a string: every double quote is doubled, then
    every newline becomes a backslash followed by the letter n. *)
Definition escape (value : string) : string :=
  replace (str1 NL) (String BSL "n")
    (replace (str1 DQ) (String DQ (str1 DQ)) value).

Definition quoted (s : string) : string := String DQ s ++ str1 DQ.

Definition _encode_string (value : string) : string :=
  if compact_strings config
     && negb (existsb (fun c => contains c value)
                [","%char; NL; ":"%char; " "%char])
  then value
  else quoted (escape value).

Definition _encode_simple_value (value : Value F) : string :=
  match value with
  | Null => "null"
  | Bool b => lower (py_str (Bool b))
  | Int _ | Float _ => py_str value
  | Str s => _encode_string s
  | Object _ | Array _ => json_dumps py value
  end.

Definition _is_tabular (obj : list (string * Value F)) : bool :=
  match values obj with
  | [Array _] => true
  | _ => false
  end.

Definition _is_uniform_array (arr : list (Value F)) : bool :=
  if (length arr <=? 1)%nat then false
  else
    match arr with
    | Object first :: rest =>
        let first_keys := keys first in
        forallb (fun item =>
                   match item with
                   | Object o => same_key_set (keys o) first_keys
                   | _ => false
                   end) rest
    | _ => false
    end.

(** One field of a row of [_encode_uniform_array]. *)
Definition uniform_field (val : Value F) : string :=
  match val with
  | Str s =>
      if contains ","%char s || contains NL s
      then quoted (escape s)
      else py_str val
  | Null => "null"
  | _ => py_str val
  end.

(** Only reached with [arr] accepted by [_is_uniform_array], hence with
    dictionaries only; on another element the source would fail. *)
Definition _encode_uniform_array (arr : list (Value F)) : string :=
  match arr with
  | [] => "[]"
  | first :: _ =>
      let columns :=
        match first with Object o => keys o | _ => [] end in
      let header :=
        "[" ++ str_int (Z.of_nat (length arr)) ++ "]{"
            ++ join "," columns ++ "}:" in
      let rows :=
        map (fun item =>
               let fields := match item with Object o => o | _ => [] end in
               "  " ++ join ","
                 (map (fun col => uniform_field (dict_get col (Str "") fields))
                    columns))
          arr in
      header ++ str1 NL ++ join (str1 NL) rows
  end.

(** One field of a row of [_encode_tabular_object]. *)
Definition tabular_field (val : Value F) : string :=
  match val with
  | Str s =>
      if contains ","%char s || contains " "%char s
      then quoted s
      else s
  | _ => py_str val
  end.

(** The first entry of [obj] whose value is a non-empty list. *)
Fixpoint find_array (obj : list (string * Value F))
  : option (string * list (Value F)) :=
  match obj with
  | [] => None
  | (key, Array (x :: l)) :: _ => Some (key, x :: l)
  | _ :: obj' => find_array obj'
  end.

(** The recursive calls of the encoder go through [rec], which [encode]
    below instantiates with itself. *)
Section Open.
Variable rec : Value F -> string.

Definition _encode_simple_object (obj : list (string * Value F))
  : string :=
  let indent := spaces (Z.to_nat (indent_size config)) in
  join (str1 NL)
    (map (fun kv : string * Value F =>
            let (key, value) := kv in
            match value with
            | Object o =>
                if negb (is_nil o) && (0 <? max_nesting_depth config)%Z
                then key ++ ":" ++ str1 NL ++ indent ++ rec value
                else key ++ ": " ++ json_dumps py value
            | Array a =>
                if negb (is_nil a) && (0 <? max_nesting_depth config)%Z
                then key ++ ":" ++ str1 NL ++ indent ++ rec value
                else key ++ ": " ++ json_dumps py value
            | _ => key ++ ": " ++ _encode_simple_value value
            end)
       obj).

(** The [header] below is the repaired one: the f-string of the source
    closes the bracket of the count inside the replacement field and
    does not parse. *)
Definition _encode_tabular_object (obj : list (string * Value F))
  : string :=
  match find_array obj with
  | None => _encode_simple_object obj
  | Some (array_key, array_value) =>
      match array_value with
      | Object first :: _ =>
          let columns := keys first in
          let header :=
            array_key ++ "[" ++ str_int (Z.of_nat (length array_value))
                      ++ "]{" ++ join "," columns ++ "}:" in
          let rows :=
            flat_map
              (fun item =>
                 match item with
                 | Object o =>
                     ["  " ++ join ","
                        (map (fun col =>
                                tabular_field (dict_get col (Str "") o))
                           columns)]
                 | _ => []
                 end)
              array_value in
          header ++ str1 NL ++ join (str1 NL) rows
      | _ => _encode_simple_object obj
      end
  end.

Definition _encode_object (obj : list (string * Value F)) : string :=
  if is_nil obj then "{}"
  else if _is_tabular obj then _encode_tabular_object obj
  else _encode_simple_object obj.

Definition _encode_array (arr : list (Value F)) : string :=
  if is_nil arr then "[]"
  else if _is_uniform_array arr then _encode_uniform_array arr
  else
    join (str1 NL)
      (map_enumerate
         (fun i item => str_int (Z.of_nat i) ++ ": " ++ rec item)
         0 arr).
End Open.

Fixpoint encode (data : Value F) : string :=
  match data with
  | Null => "null"
  | Object obj => _encode_object encode obj
  | Array arr => _encode_array encode arr
  | Str s => _encode_string s
  | Bool _ | Int _ | Float _ => py_str data
  end.

End Encoder.

(** ** The header pattern of [_decode_tabular]

    [re.match(r'^(.+)\[(\d+)\]\{(.+)\}:', header)]: both [(.+)] are
    greedy, so the matcher tries the splits of the text from the longest
    first part to the shortest; [.] is any character but a newline and
    [\d+] the longest run of decimal digits. *)

Module HeaderPattern.

(** The ways to cut [s] in two, the longest first part first. *)
Fixpoint splits (s : string) : list (string * string) :=
  match s with
  | EmptyString => [(EmptyString, EmptyString)]
  | String c s' =>
      (map (fun pt : string * string => (String c (fst pt), snd pt))
         (splits s')
       ++ [(EmptyString, s)])%list
  end.

(** [.+] *)
Definition dot_plus (s : string) : bool :=
  negb (is_empty s) && negb (contains NL s).

Fixpoint first_some {A B : Type} (f : A -> option B) (l : list A)
  : option B :=
  match l with
  | [] => None
  | x :: l' =>
      match f x with
      | Some b => Some b
      | None => first_some f l'
      end
  end.

(** [(.+)] followed by what [rest] accepts; the result is the group and
    what [rest] returns. *)
Definition greedy {B : Type} (rest : string -> option B) (s : string)
  : option (string * B) :=
  first_some
    (fun pt : string * string =>
       if dot_plus (fst pt)
       then option_map (pair (fst pt)) (rest (snd pt))
       else None)
    (splits s).

(** [\}:] *)
Definition close_colon (t : string) : option unit :=
  if String.prefix "}:" t then Some tt else None.

(** [\[(\d+)\]\{(.+)\}:], giving the third group. *)
Definition count_columns (t : string) : option string :=
  match t with
  | String "["%char t1 =>
      let (count, t2) := span_decimal t1 in
      if is_empty count then None
      else
        match t2 with
        | String "]"%char (String "{"%char t3) =>
            option_map fst (greedy close_colon t3)
        | _ => None
        end
  | _ => None
  end.

(** The groups [key] and [columns_str] of a match, [None] without one. *)
Definition match_header (header : string) : option (string * string) :=
  greedy count_columns header.

End HeaderPattern.

(** ** [TOONDecoder] *)

Section Decoder.
Context {F : Type} (py : PyRuntime F).

Definition _is_tabular_format (first_line : string) : bool :=
  contains "["%char first_line && contains "]"%char first_line
  && contains "{"%char first_line && contains "}"%char first_line
  && endswith_char first_line ":"%char.

Definition _parse_csv_line (line : string) : list string :=
  let fix scan (line : string) (values : list string) (current : string)
        (in_quotes : bool) : list string :=
    match line with
    | EmptyString => (values ++ [current])%list
    | String char line' =>
        if in_quotes then
          if Ascii.eqb char DQ then scan line' values current false
          else scan line' values (current ++ str1 char) true
        else
          if Ascii.eqb char DQ then scan line' values current true
          else if Ascii.eqb char ","%char
               then scan line' (values ++ [current])%list EmptyString false
               else scan line' values (current ++ str1 char) false
    end
  in scan line [] EmptyString false.

(** The numeric tail shared by [_convert_value] and [_parse_value]. *)
Definition convert_number (value : string) : Result (Value F) :=
  if isdigit value then
    match int_of_digits value with
    | Some n => Ok (Int n)
    | None => Raise ValueError
    end
  else if isdigit (replace "-" "" (replace "." "" value)) then
    if float_literal_ok value then Ok (Float (float_val py value))
    else Raise ValueError
  else Ok (Str value).

Definition convert_keyword (value : string) : Result (Value F) :=
  if String.eqb (lower value) "null" then Ok Null
  else if String.eqb (lower value) "true" then Ok (Bool true)
  else if String.eqb (lower value) "false" then Ok (Bool false)
  else convert_number value.

Definition _convert_value (value : string) : Result (Value F) :=
  convert_keyword value.

(** The inverse of the escaping, as [_parse_value] writes it. *)
Definition unescape (s : string) : string :=
  replace (String BSL "n") (str1 NL)
    (replace (String DQ (str1 DQ)) (str1 DQ) s).

Definition _parse_value (value_list : list string) : Result (Value F) :=
  match value_list with
  | [] => Ok (Str "")
  | [value] =>
      if startswith value (str1 DQ) && endswith_char value DQ
      then Ok (Str (unescape (slice_1_m1 value)))
      else convert_keyword value
  | _ => Ok (Str (join " " value_list))
  end.

(** The local variables of [_decode_key_value]. *)
Record KVState : Type := {
  result : list (string * Value F);
  current_key : option string;
  current_value : list string;
  in_multiline : bool
}.

Definition kv_init : KVState := {|
  result := [];
  current_key := None;
  current_value := [];
  in_multiline := false
|}.

(** [if current_key is not None: result[current_key] = ...] *)
Definition kv_save (st : KVState) : Result (list (string * Value F)) :=
  match current_key st with
  | Some k =>
      v <- _parse_value (current_value st) ;;
      Ok (dict_set k v (result st))
  | None => Ok (result st)
  end.

(** One turn of the loop of [_decode_key_value]. *)
Definition kv_step (st : KVState) (line : string) : Result KVState :=
  let line := rstrip line in
  if is_empty line then
    if in_multiline st
    then Ok {| result := result st;
               current_key := current_key st;
               current_value := (current_value st ++ [""])%list;
               in_multiline := in_multiline st |}
    else Ok st
  else if contains ":"%char line
          && negb (startswith line "  ")
          && negb (startswith line (str1 TAB))
  then
    res <- kv_save st ;;
    let (key_part, rest) := split_once ":"%char line in
    let value_part := strip rest in
    if negb (is_empty value_part)
    then Ok {| result := res;
               current_key := Some (strip key_part);
               current_value := [value_part];
               in_multiline := false |}
    else Ok {| result := res;
               current_key := Some (strip key_part);
               current_value := [];
               in_multiline := true |}
  else
    Ok {| result := result st;
          current_key := current_key st;
          current_value := (current_value st ++ [lstrip line])%list;
          in_multiline := in_multiline st |}.

Fixpoint kv_loop (st : KVState) (lines : list string) : Result KVState :=
  match lines with
  | [] => Ok st
  | line :: lines' =>
      st' <- kv_step st line ;;
      kv_loop st' lines'
  end.

Definition _decode_key_value (lines : list string) : Result (Value F) :=
  st <- kv_loop kv_init lines ;;
  res <- kv_save st ;;
  Ok (Object res).

(** [for k, v in obj.items(): obj[k] = self._convert_value(v)] *)
Fixpoint convert_fields (obj : list (string * string))
  : Result (list (string * Value F)) :=
  match obj with
  | [] => Ok []
  | (k, v) :: obj' =>
      v' <- _convert_value v ;;
      rest <- convert_fields obj' ;;
      Ok ((k, v') :: rest)
  end.

(** The loop over the data rows of [_decode_tabular]. *)
Fixpoint decode_rows (columns : list string) (lines : list string)
  : Result (list (Value F)) :=
  match lines with
  | [] => Ok []
  | line :: lines' =>
      let line := strip line in
      if is_empty line then decode_rows columns lines'
      else
        let values := _parse_csv_line line in
        obj <- convert_fields (dict_of (combine columns values)) ;;
        data <- decode_rows columns lines' ;;
        Ok (Object obj :: data)
  end.

Definition _decode_tabular (lines : list string) : Result (Value F) :=
  match lines with
  | [] => Ok (Object [])
  | header :: rows =>
      match HeaderPattern.match_header header with
      | None => _decode_key_value lines
      | Some (key, columns_str) =>
          let columns := map strip (split ","%char columns_str) in
          data <- decode_rows columns rows ;;
          Ok (Object [(strip key, Array data)])
      end
  end.

Definition decode (toon_str : string) : Result (Value F) :=
  let lines := split NL (strip toon_str) in
  match lines with
  | [] => Ok Null
  | first_line :: _ =>
      if _is_tabular_format first_line
      then _decode_tabular lines
      else _decode_key_value lines
  end.

End Decoder.

(** ** [DroidTOONIntegration]

    The class statement of the source reads [class Droid TOONIntegration:];
    the methods below are modelled under the name without the space. *)

Section Integration.
Context {F : Type} (py : PyRuntime F) (config : TOONConfig).

(** The token every TOON output starts with, and the whole first line
    that [_format_toon] writes. *)
Definition marker : string := "// TOON format".
Definition marker_line : string := "// TOON format - 30-60% token reduction".

Definition _is_toon_suitable (data : Value F) : bool :=
  match data with
  | Array items =>
      (1 <? length items)%nat && forallb is_dict (firstn 3 items)
  | Object entries =>
      let tabular_values :=
        length (filter (fun v => match v with
                                 | Array l => (1 <? length l)%nat
                                 | _ => false
                                 end)
                  (values entries)) in
      (0 <? tabular_values)%nat
  | _ => false
  end.

(** The loop of [_should_use_toon] over [data.values()]: it answers at
    the first list longer than two. *)
Fixpoint first_long_list (vals : list (Value F)) : option (Value F) :=
  match vals with
  | [] => None
  | Array l :: vals' =>
      if (2 <? length l)%nat then Some (Array l) else first_long_list vals'
  | _ :: vals' => first_long_list vals'
  end.

Definition _should_use_toon (data : Value F) (context : string) : bool :=
  if String.eqb context "tool_result" then _is_toon_suitable data
  else
    match data with
    | Object entries =>
        match first_long_list (values entries) with
        | Some value => _is_toon_suitable value
        | None => false
        end
    | _ => false
    end.

Definition _format_toon (data : Value F) : string :=
  marker_line ++ str1 NL ++ encode py config data.

Definition _format_json (data : Value F) : string := json_encode py data.

Definition format_for_droid (data : Value F) (context : string) : string :=
  if _should_use_toon data context then _format_toon data
  else _format_json data.

(** What [parse_droid_response] hands back: the result of the TOON
    decoder, or what the JSON branch gives. *)
Inductive Parsed : Type :=
| ViaTOON (r : Result (Value F))
| ViaJSON (v : Value F).

Definition parse_droid_response (response : string) : Parsed :=
  if startswith (strip response) marker then
    let lines := tl (split NL response) in
    let toon_str := join (str1 NL) lines in
    ViaTOON (decode py toon_str)
  else
    match json_loads py response with
    | Some v => ViaJSON v
    | None => ViaJSON (Str response)
    end.

End Integration.

(** [optimize_tool_result]; the [metadata] it builds is not used. *)
Section ToolResult.
Context {F : Type} (py : PyRuntime F) (config : TOONConfig).

Definition optimize_tool_result (tool_name : string) (result_data : Value F)
  : string :=
  let formatted_result := format_for_droid py config result_data "tool_result" in
  if _should_use_toon result_data "tool_result"
  then "// Tool: " ++ tool_name ++ " | Format: TOON" ++ str1 NL
         ++ formatted_result
  else formatted_result.

End ToolResult.

(** ** An interpreter for the closed examples

    The examples at the end run the model on concrete inputs.  They use
    this interpreter, which keeps a float as the literal that denotes it
    and answers the container and [json] calls with a fixed text; each
    example is an instance of a statement proved for every interpreter. *)

Definition py_literal : PyRuntime string := {|
  float_str := fun x => x;
  float_val := fun s => s;
  container_str := fun _ => "{}";
  json_dumps := fun _ => "null";
  json_encode := fun _ => "null";
  json_loads := fun _ => None
|}.

(** The array of the specification's header example. *)
Definition two_users {F : Type} : list (Value F) :=
  [Object [("id", Int 1); ("name", Str "Alice")];
   Object [("id", Int 2); ("name", Str "Bob")]].

(** [pat in s] *)
Fixpoint occurs (pat s : string) : bool :=
  String.prefix pat s
  || match s with
     | EmptyString => false
     | String _ s' => occurs pat s'
     end.

(** Replacing a single character, one character at a time. *)
Fixpoint subst_char (a : ascii) (new s : string) : string :=
  match s with
  | EmptyString => EmptyString
  | String c s' =>
      (if Ascii.eqb c a then new else str1 c) ++ subst_char a new s'
  end.

(** The escaping, one character at a time. *)
Definition escape_char (c : ascii) : string :=
  if Ascii.eqb c DQ then String DQ (str1 DQ)
  else if Ascii.eqb c NL then String BSL "n"
  else str1 c.

(** The scalars whose text the value parser reads back: [None], the
    Booleans, the integers from zero up, and the strings in which no
    backslash stands before the letter n. *)
Definition plain_scalar {F : Type} (v : Value F) : Prop :=
  match v with
  | Null | Bool _ => True
  | Int n => (0 <= n)%Z
  | Str s => occurs (String BSL "n") s = false
  | Float _ | Object _ | Array _ => False
  end.

(** A run of decimal digits that is not empty. *)
Definition decimal_digits (s : string) : bool :=
  negb (is_empty s) && all_chars isdecimal_char s.

(** The floats whose text the value parser reads back: [str] writes them
    in plain decimal notation, that is a minus sign or none, digits, a dot
    and digits, and [float] of that text is the number itself. *)
Definition decimal_float {F : Type} (py : PyRuntime F) (v : Value F)
  : Prop :=
  match v with
  | Float x =>
      float_val py (float_str py x) = x
      /\ exists sign whole frac,
           float_str py x = sign ++ whole ++ "." ++ frac
           /\ (sign = "" \/ sign = "-")
           /\ decimal_digits whole = true
           /\ decimal_digits frac = true
  | _ => False
  end.



(** Field values that exercise the quoting: a quote alone, a comma with a
    quote, a comma with a newline. *)
Definition quote_only : string := String "a" (String DQ "b").
Definition comma_quote : string := "x," ++ String DQ "y".
Definition comma_newline : string := "a,b" ++ String NL "c".

(** The texts of the header example: with the key [items], and bare. *)
Definition keyed_text : string :=
  "items[2]{id,name}:" ++ String NL "  1,Alice" ++ String NL "  2,Bob".
Definition bare_text : string :=
  "[2]{id,name}:" ++ String NL "  1,Alice" ++ String NL "  2,Bob".


(** ** Vocabulary of the further properties *)

(** The loop of [_parse_csv_line], under a name. *)
Fixpoint csv_scan (line : string) (values : list string) (current : string)
  (in_quotes : bool) : list string :=
  match line with
  | EmptyString => (values ++ [current])%list
  | String char line' =>
      if in_quotes then
        if Ascii.eqb char DQ then csv_scan line' values current false
        else csv_scan line' values (current ++ str1 char) true
      else
        if Ascii.eqb char DQ then csv_scan line' values current true
        else if Ascii.eqb char ","%char
             then csv_scan line' (values ++ [current])%list EmptyString false
             else csv_scan line' values (current ++ str1 char) false
  end.

(** A field text [text] that the row parser reads as [raw], whatever
    comes after it and whatever was read before. *)
Definition csv_reads (text raw : string) : Prop :=
  forall rest values current,
    csv_scan (text ++ rest) values current false
    = csv_scan rest values (current ++ raw) false.

Definition starts_space (s : string) : bool :=
  match s with
  | EmptyString => false
  | String c _ => isspace_char c
  end.

Fixpoint ends_space (s : string) : bool :=
  match s with
  | EmptyString => false
  | String c EmptyString => isspace_char c
  | String _ s' => ends_space s'
  end.

(** A text that is not empty and neither begins nor ends with white
    space. *)
Definition tight (s : string) : bool :=
  negb (is_empty s) && negb (starts_space s) && negb (ends_space s).

Definition no_space (s : string) : bool :=
  all_chars (fun c => negb (isspace_char c)) s.

(** A column name that the header carries unchanged. *)
Definition column_ok (col : string) : bool :=
  tight col && negb (contains NL col) && negb (contains ","%char col)
  && negb (contains "["%char col).

(** The values of a row that the keyed table carries unchanged: the
    integers from zero up, the Booleans, and the strings without quote and
    newline that are either wrapped (they hold a comma or a space) or hold
    no white space and are left as strings by the decoder. *)
Definition table_field {F : Type} (py : PyRuntime F) (v : Value F) : Prop :=
  match v with
  | Int n => (0 <= n)%Z
  | Bool _ => True
  | Str s =>
      contains DQ s = false /\ contains NL s = false
      /\ (contains ","%char s || contains " "%char s = true
          \/ (s <> "" /\ no_space s = true
              /\ _convert_value py s = Ok (Str s)))
  | Null | Float _ | Object _ | Array _ => False
  end.

Definition is_scalar {F : Type} (v : Value F) : bool :=
  match v with
  | Object _ | Array _ => false
  | _ => true
  end.

(** The search of [HeaderPattern.greedy] when [pre] has already been put
    in the group. *)
Definition greedy_from {B : Type} (rest : string -> option B)
  (pre s : string) : option (string * B) :=
  HeaderPattern.first_some
    (fun pt : string * string =>
       if HeaderPattern.dot_plus (pre ++ fst pt)
       then option_map (pair (pre ++ fst pt)) (rest (snd pt))
       else None)
    (HeaderPattern.splits s).

(** What follows the key in a header: the count between brackets and the
    columns between braces. *)
Definition header_tail (count cols : string) : string :=
  "[" ++ count ++ "]{" ++ cols ++ "}:".

(** The rows of a table given by its columns and, row by row, the values
    under them. *)
Definition table_rows {F : Type} (columns : list string)
  (table : list (list (Value F))) : list (Value F) :=
  map (fun vals => Object (combine columns vals)) table.

(** The line that the keyed table writes for a row of values. *)
Definition row_line {F : Type} (py : PyRuntime F) (vals : list (Value F))
  : string :=
  "  " ++ join "," (map (tabular_field py) vals).

(** A value as the decoder builds them: a scalar, or an Array of Objects
    whose values are scalars. *)
Definition flat_value {F : Type} (v : Value F) : Prop :=
  is_scalar v = true
  \/ exists rows,
       v = Array rows
       /\ Forall (fun row =>
                    exists fields,
                      row = Object fields
                      /\ Forall (fun x => is_scalar x = true) (values fields))
            rows.

(** A key that a key/value line carries unchanged. *)
Definition key_ok (k : string) : bool :=
  tight k && negb (contains NL k) && negb (contains ":"%char k).

(** The text of a value on a key/value line: one line, no white space
    around it, no colon at its end. *)
Definition text_ok (t : string) : bool :=
  tight t && negb (contains NL t) && negb (endswith_char t ":"%char).

(** The entries that the decoder returns for the indexed lines of an
    array: the index, in decimal, mapped to the element. *)
Definition indexed_entries {F : Type} (start : nat) (arr : list (Value F))
  : list (string * Value F) :=
  map_enumerate (fun i item => (str_int (Z.of_nat i), item)) start arr.

(** The key/value line of an entry, [txt] giving the text of a value, and
    what makes the decoder read the entry back from it. *)
Definition kv_line {F : Type} (txt : Value F -> string)
  (kv : string * Value F) : string :=
  fst kv ++ ": " ++ txt (snd kv).

Definition entry_ok {F : Type} (py : PyRuntime F) (txt : Value F -> string)
  (kv : string * Value F) : Prop :=
  key_ok (fst kv) = true
  /\ text_ok (txt (snd kv)) = true
  /\ _parse_value py [txt (snd kv)] = Ok (snd kv).

(** The values of a row that the bare table writes on one line without
    white space around them: the null value, the Booleans, the integers from
    zero up, and the strings that are wrapped (they hold a comma or a
    newline) or that neither begin nor end with white space. *)
Definition uniform_cell {F : Type} (v : Value F) : Prop :=
  match v with
  | Null | Bool _ => True
  | Int n => (0 <= n)%Z
  | Str s => contains ","%char s || contains NL s = true \/ tight s = true
  | Float _ | Object _ | Array _ => False
  end.

(** What the bare table writes for a row of values, without the two
    spaces in front. *)
Definition uniform_row {F : Type} (py : PyRuntime F) (vals : list (Value F))
  : string :=
  join "," (map (uniform_field py) vals).

(** The key under which the decoder puts what follows a bare header. *)
Definition bare_key (count cols : string) : string :=
  "[" ++ count ++ "]{" ++ cols ++ "}".

(** * Properties *)

(** ** Strings *)

Lemma append_nil_r (s : string) : s ++ "" = s.
Proof. induction s as [|c s IH]; simpl; [reflexivity | now rewrite IH]. Qed.

Lemma append_assoc (a b c : string) : (a ++ b) ++ c = a ++ (b ++ c).
Proof. induction a as [|x a IH]; simpl; [reflexivity | now rewrite IH]. Qed.

Lemma prefix_nil (s : string) : String.prefix "" s = true.
Proof. now destruct s. Qed.

Lemma prefix_cons (a c : ascii) (p s : string) :
  String.prefix (String a p) (String c s)
  = Ascii.eqb a c && String.prefix p s.
Proof.
  simpl. destruct (ascii_dec a c) as [->|Hne].
  - now rewrite Ascii.eqb_refl.
  - now rewrite (proj2 (Ascii.eqb_neq a c) Hne).
Qed.

Lemma prefix_cons_nil (a : ascii) (p : string) :
  String.prefix (String a p) "" = false.
Proof. reflexivity. Qed.

Lemma replace_from_0 (old new : string) (c : ascii) (s : string) :
  replace_from old new 0 (String c s)
  = if String.prefix old (String c s)
    then new ++ replace_from old new (String.length old - 1) s
    else String c (replace_from old new 0 s).
Proof. reflexivity. Qed.

Lemma replace_from_S (old new : string) (k : nat) (c : ascii) (s : string) :
  replace_from old new (S k) (String c s) = replace_from old new k s.
Proof. reflexivity. Qed.

Lemma replace_single (a : ascii) (new s : string) :
  replace (str1 a) new s = subst_char a new s.
Proof.
  unfold replace. induction s as [|c s IH]; [reflexivity|].
  rewrite replace_from_0. unfold str1 at 1. rewrite prefix_cons, prefix_nil.
  rewrite andb_true_r, Ascii.eqb_sym. cbn [subst_char].
  destruct (Ascii.eqb c a); cbn [String.length str1 Nat.sub]; rewrite IH;
    reflexivity.
Qed.

Lemma subst_char_app (a : ascii) (new x y : string) :
  subst_char a new (x ++ y) = subst_char a new x ++ subst_char a new y.
Proof.
  induction x as [|c x IH]; simpl; [reflexivity|].
  now rewrite IH, append_assoc.
Qed.

Lemma escape_cons (c : ascii) (s : string) :
  escape (String c s) = escape_char c ++ escape s.
Proof.
  unfold escape. rewrite !replace_single. cbn [subst_char].
  rewrite subst_char_app. f_equal.
  unfold escape_char.
  destruct (Ascii.eqb c DQ) eqn:Hq.
  - reflexivity.
  - cbn [subst_char str1]. destruct (Ascii.eqb c NL); reflexivity.
Qed.

(** Undoubling the quotes of an escaped string leaves the string with its
    newlines still written as backslash, n. *)
Lemma undouble_escape (s : string) :
  replace (String DQ (str1 DQ)) (str1 DQ) (escape s)
  = subst_char NL (String BSL "n") s.
Proof.
  unfold replace. induction s as [|c s IH]; [reflexivity|].
  rewrite escape_cons. unfold escape_char. cbn [subst_char].
  unfold str1 in *.
  destruct (Ascii.eqb c DQ) eqn:Hq.
  - apply Ascii.eqb_eq in Hq. subst c.
    change (Ascii.eqb DQ NL) with false.
    cbn [append]. rewrite replace_from_0.
    rewrite !prefix_cons, prefix_nil, !Ascii.eqb_refl.
    cbn [andb String.length Nat.sub append].
    rewrite replace_from_S, IH. reflexivity.
  - destruct (Ascii.eqb c NL) eqn:Hn.
    + cbn [append]. rewrite replace_from_0, prefix_cons.
      change (Ascii.eqb DQ BSL) with false. cbn [andb].
      rewrite replace_from_0, prefix_cons.
      change (Ascii.eqb DQ "n") with false. cbn [andb].
      rewrite IH. reflexivity.
    + cbn [append]. rewrite replace_from_0, prefix_cons.
      rewrite Ascii.eqb_sym, Hq. cbn [andb]. rewrite IH. reflexivity.
Qed.

Lemma subst_nl_head_n (s : string) :
  String.prefix "n" (subst_char NL (String BSL "n") s) = String.prefix "n" s.
Proof.
  destruct s as [|c s]; [reflexivity|]. cbn [subst_char]. unfold str1.
  destruct (Ascii.eqb c NL) eqn:Hn.
  - apply Ascii.eqb_eq in Hn. subst c. cbn [append].
    rewrite !prefix_cons. reflexivity.
  - cbn [append]. rewrite !prefix_cons, !prefix_nil. reflexivity.
Qed.

(** Turning backslash, n back into a newline restores a string in which
    no backslash is followed by the letter n. *)
Lemma renewline_subst (s : string) :
  occurs (String BSL "n") s = false ->
  replace (String BSL "n") (str1 NL) (subst_char NL (String BSL "n") s) = s.
Proof.
  unfold replace. induction s as [|c s IH]; [reflexivity|].
  intros Hocc. cbn [occurs] in Hocc. apply orb_false_iff in Hocc.
  destruct Hocc as [Hpre Hocc]. specialize (IH Hocc).
  cbn [subst_char]. unfold str1 in *. destruct (Ascii.eqb c NL) eqn:Hn.
  - apply Ascii.eqb_eq in Hn. subst c. cbn [append].
    rewrite replace_from_0, !prefix_cons, prefix_nil, !Ascii.eqb_refl.
    cbn [andb String.length Nat.sub append].
    rewrite replace_from_S, IH. reflexivity.
  - cbn [append]. rewrite replace_from_0.
    rewrite prefix_cons in Hpre |- *. rewrite subst_nl_head_n, Hpre, IH.
    reflexivity.
Qed.

Lemma unescape_escape (s : string) :
  occurs (String BSL "n") s = false -> unescape (escape s) = s.
Proof.
  intros H. unfold unescape. rewrite undouble_escape.
  now apply renewline_subst.
Qed.

Lemma endswith_char_app (x : string) (c : ascii) :
  endswith_char (x ++ str1 c) c = true.
Proof.
  induction x as [|a x IH]; cbn.
  - apply Ascii.eqb_refl.
  - destruct (x ++ str1 c) eqn:E; [now destruct x | exact IH].
Qed.

Lemma drop_last_app (x : string) (c : ascii) : drop_last (x ++ str1 c) = x.
Proof.
  induction x as [|a x IH]; cbn; [reflexivity|].
  destruct (x ++ str1 c) eqn:E; [now destruct x | now rewrite IH].
Qed.

Lemma quoted_is_quoted (x : string) :
  startswith (quoted x) (str1 DQ) && endswith_char (quoted x) DQ = true.
Proof.
  unfold startswith, quoted. unfold str1 at 1.
  change (String DQ x ++ str1 DQ) with (String DQ (x ++ str1 DQ)).
  rewrite prefix_cons, prefix_nil, Ascii.eqb_refl.
  change (endswith_char (String DQ (x ++ str1 DQ)) DQ)
    with (endswith_char (str1 DQ ++ (x ++ str1 DQ)) DQ).
  rewrite <- append_assoc. apply endswith_char_app.
Qed.

Lemma slice_quoted (x : string) : slice_1_m1 (quoted x) = x.
Proof. unfold quoted. cbn. apply drop_last_app. Qed.

Lemma contains_app (c : ascii) (a b : string) :
  contains c (a ++ b) = contains c a || contains c b.
Proof.
  induction a as [|x a IH]; cbn; [reflexivity|].
  now rewrite IH, orb_assoc.
Qed.

Lemma all_chars_app (p : ascii -> bool) (a b : string) :
  all_chars p (a ++ b) = all_chars p a && all_chars p b.
Proof.
  induction a as [|x a IH]; cbn; [reflexivity|].
  now rewrite IH, andb_assoc.
Qed.

Lemma all_chars_contains (p : ascii -> bool) (c : ascii) (s : string) :
  all_chars p s = true -> p c = false -> contains c s = false.
Proof.
  intros Hall Hc. induction s as [|x s IH]; cbn in *; [reflexivity|].
  apply andb_true_iff in Hall. destruct Hall as [Hx Hs].
  rewrite (IH Hs), orb_false_r. destruct (Ascii.eqb_spec x c); [|reflexivity].
  congruence.
Qed.

Lemma all_chars_impl (p q : ascii -> bool) (s : string) :
  (forall c, p c = true -> q c = true) ->
  all_chars p s = true -> all_chars q s = true.
Proof.
  intros Hpq. induction s as [|x s IH]; cbn; [reflexivity|].
  intros H. apply andb_true_iff in H. destruct H as [Hx Hs].
  now rewrite (Hpq x Hx), IH.
Qed.

Lemma span_decimal_stop (d rest : string) :
  all_chars isdecimal_char d = true ->
  match rest with
  | EmptyString => True
  | String c _ => isdecimal_char c = false
  end ->
  span_decimal (d ++ rest) = (d, rest).
Proof.
  intros Hd Hr. induction d as [|x d IH].
  - destruct rest as [|c r]; [reflexivity|]. cbn. now rewrite Hr.
  - cbn in Hd. apply andb_true_iff in Hd. destruct Hd as [Hx Hd].
    cbn [append span_decimal]. now rewrite Hx, (IH Hd).
Qed.

(** ** Integers and their decimal text *)

Lemma string_of_uint_decimal (d : Decimal.uint) :
  all_chars isdecimal_char (NilEmpty.string_of_uint d) = true.
Proof. induction d; cbn; auto. Qed.

Lemma string_of_uint_nonempty (d : Decimal.uint) :
  d <> Decimal.Nil -> is_empty (NilEmpty.string_of_uint d) = false.
Proof. destruct d; cbn; congruence. Qed.

Lemma str_int_nonneg (n : Z) :
  (0 <= n)%Z ->
  exists d, d <> Decimal.Nil
            /\ str_int n = NilEmpty.string_of_uint d
            /\ Z.of_uint d = n.
Proof.
  intros Hn. destruct n as [|p|p]; [| |lia].
  - exists (Decimal.D0 Decimal.Nil). repeat split. discriminate.
  - exists (Pos.to_uint p). split; [apply DecimalPos.Unsigned.to_uint_nonnil|].
    split.
    + unfold str_int. cbn [Z.to_int NilZero.string_of_int].
      pose proof (DecimalPos.Unsigned.to_uint_nonnil p) as Hnil.
      unfold NilZero.string_of_uint. now destruct (Pos.to_uint p).
    + unfold Z.of_uint. now rewrite DecimalPos.Unsigned.of_to.
Qed.

Lemma decimal_is_digit (s : string) :
  all_chars isdecimal_char s = true -> all_chars isdigit_char s = true.
Proof.
  induction s as [|c s IH]; cbn; [reflexivity|].
  intros H. apply andb_true_iff in H. destruct H as [Hc Hs].
  rewrite (IH Hs). unfold isdigit_char. now rewrite Hc.
Qed.

Lemma lower_decimal (s : string) :
  all_chars isdecimal_char s = true -> lower s = s.
Proof.
  unfold lower. induction s as [|c s IH]; cbn; [reflexivity|].
  intros H. apply andb_true_iff in H. destruct H as [Hc Hs].
  rewrite (IH Hs). f_equal.
  unfold lower_char, isdecimal_char, between in *.
  apply andb_true_iff in Hc. destruct Hc as [H1 H2].
  apply Nat.leb_le in H1, H2.
  replace (65 <=? code c)%nat with false by (symmetry; apply Nat.leb_gt; lia).
  replace (192 <=? code c)%nat with false
    by (symmetry; apply Nat.leb_gt; lia).
  reflexivity.
Qed.

(** A keyword test is a comparison with a text that has a letter in it. *)
Lemma decimal_not_keyword (s kw : string) :
  all_chars isdecimal_char s = true ->
  all_chars isdecimal_char kw = false ->
  String.eqb (lower s) kw = false.
Proof.
  intros Hs Hkw. rewrite (lower_decimal s Hs).
  apply String.eqb_neq. intros ->. congruence.
Qed.

Lemma int_text_parses (n : Z) :
  (0 <= n)%Z ->
  all_chars isdecimal_char (str_int n) = true
  /\ isdigit (str_int n) = true
  /\ int_of_digits (str_int n) = Some n.
Proof.
  intros Hn. destruct (str_int_nonneg n Hn) as (d & Hd & -> & Hz).
  pose proof (string_of_uint_decimal d) as Hdec.
  pose proof (string_of_uint_nonempty d Hd) as Hne.
  split; [exact Hdec|]. split.
  - unfold isdigit. rewrite Hne. now rewrite decimal_is_digit.
  - unfold int_of_digits. rewrite Hne, Hdec. cbn [negb andb].
    rewrite NilEmpty.usu. cbn. now rewrite Hz.
Qed.

(** ** Decimal notation *)

Lemma subst_char_absent (a : ascii) (new s : string) :
  contains a s = false -> subst_char a new s = s.
Proof.
  induction s as [|c s IH]; cbn [contains subst_char]; intros H;
    [reflexivity|].
  apply orb_false_iff in H. destruct H as [Hc Hs].
  now rewrite Hc, (IH Hs).
Qed.

Lemma lower_char_decimal (c : ascii) :
  isdecimal_char c = true -> lower_char c = c.
Proof.
  intros Hc. pose proof (lower_decimal (str1 c)) as H.
  cbn in H. rewrite Hc in H. specialize (H eq_refl). now injection H.
Qed.

Lemma lower_head_neq (c k : ascii) (r kw : string) :
  lower_char c <> k -> String.eqb (lower (String c r)) (String k kw) = false.
Proof.
  intros Hc. apply String.eqb_neq. unfold lower. cbn [map_chars].
  intros H. injection H as H _. contradiction.
Qed.

Lemma float_literal_ok_unsigned (c : ascii) (s : string) :
  isdecimal_char c = true ->
  float_literal_ok (String c s) = unsigned_float_ok (String c s).
Proof.
  intros Hc. unfold float_literal_ok.
  destruct c as [[] [] [] [] [] [] [] []]; try reflexivity;
    discriminate Hc.
Qed.

Lemma subst_sign_dot (sign x : string) :
  sign = "" \/ sign = "-" ->
  subst_char "-"%char "" (subst_char "."%char "" (sign ++ x))
  = subst_char "-"%char "" (subst_char "."%char "" x).
Proof.
  intros [-> | ->]; [reflexivity|].
  rewrite subst_char_app.
  change (subst_char "."%char "" "-") with "-".
  rewrite subst_char_app. reflexivity.
Qed.

(** What the conversion sees of a text in decimal notation with a dot:
    no quote in front, no keyword, not all digits, all digits once the
    dot and the sign are taken out, and a literal that [float] reads. *)
Lemma decimal_notation_facts (sign whole frac : string) :
  sign = "" \/ sign = "-" ->
  decimal_digits whole = true -> decimal_digits frac = true ->
  let t := sign ++ whole ++ "." ++ frac in
  startswith t (str1 DQ) = false
  /\ (forall k kw, k = "n"%char \/ k = "t"%char \/ k = "f"%char ->
       String.eqb (lower t) (String k kw) = false)
  /\ isdigit t = false
  /\ isdigit (replace "-" "" (replace "." "" t)) = true
  /\ float_literal_ok t = true.
Proof.
  intros Hsign Hw Hf. unfold decimal_digits in Hw, Hf.
  apply andb_true_iff in Hw, Hf.
  destruct Hw as [Hwne Hwd], Hf as [Hfne Hfd].
  destruct whole as [|w whole]; [discriminate|]. clear Hwne.
  pose proof Hwd as Hwd'. cbn [all_chars] in Hwd'.
  apply andb_true_iff in Hwd'. destruct Hwd' as [Hw0 Hw1].
  assert (Hdot : isdecimal_char "."%char = false) by reflexivity.
  assert (Hdash : isdecimal_char "-"%char = false) by reflexivity.
  assert (Hstrip :
    subst_char "-"%char "" (subst_char "."%char "" (String w whole ++ "." ++ frac))
    = String w whole ++ frac).
  { rewrite subst_char_app.
    rewrite (subst_char_absent "."%char "" (String w whole))
      by (now apply (all_chars_contains isdecimal_char)).
    change ("." ++ frac) with (String "."%char frac).
    cbn [subst_char]. rewrite Ascii.eqb_refl. cbn [append].
    rewrite (subst_char_absent "."%char "" frac)
      by (now apply (all_chars_contains isdecimal_char)).
    change (String w (whole ++ frac)) with (String w whole ++ frac).
    rewrite subst_char_app.
    rewrite (subst_char_absent "-"%char "" (String w whole))
      by (now apply (all_chars_contains isdecimal_char)).
    now rewrite (subst_char_absent "-"%char "" frac)
      by (now apply (all_chars_contains isdecimal_char)). }
  assert (Hdigits : isdigit (String w whole ++ frac) = true).
  { unfold isdigit. cbn [append is_empty negb andb].
    change (String w (whole ++ frac)) with (String w whole ++ frac).
    rewrite all_chars_app.
    rewrite (all_chars_impl isdecimal_char isdigit_char _
               (fun c H => eq_trans (f_equal (fun b => b || _ || _ || _) H)
                                    eq_refl) Hwd).
    now rewrite (all_chars_impl isdecimal_char isdigit_char _
               (fun c H => eq_trans (f_equal (fun b => b || _ || _ || _) H)
                                    eq_refl) Hfd). }
  assert (Hunsigned : unsigned_float_ok (String w whole ++ "." ++ frac) = true).
  { unfold unsigned_float_ok.
    change ("." ++ frac) with (String "."%char frac).
    rewrite (span_decimal_stop (String w whole) (String "."%char frac) Hwd Hdot).
    rewrite Ascii.eqb_refl, Hfd. reflexivity. }
  assert (Hnot : isdigit_char "."%char = false) by reflexivity.
  assert (Hbare :
    isdigit (replace "-" ""
               (replace "." "" (sign ++ String w whole ++ "." ++ frac)))
    = true).
  { change (replace "-" ""
              (replace "." "" (sign ++ String w whole ++ "." ++ frac)))
      with (replace (str1 "-"%char) ""
              (replace (str1 "."%char) ""
                 (sign ++ String w whole ++ "." ++ frac))).
    rewrite !replace_single, (subst_sign_dot sign _ Hsign), Hstrip.
    exact Hdigits. }
  cbv zeta. destruct Hsign as [-> | ->].
  - change ("" ++ String w whole ++ "." ++ frac)
      with (String w (whole ++ String "."%char frac)).
    split; [|split; [|split; [|split]]].
    + unfold startswith, str1. rewrite prefix_cons.
      destruct (Ascii.eqb DQ w) eqn:Hq; [|reflexivity].
      apply Ascii.eqb_eq in Hq. subst w. discriminate.
    + intros k kw Hk. apply lower_head_neq.
      rewrite (lower_char_decimal w Hw0). intros ->.
      destruct Hk as [Hk|[Hk|Hk]]; rewrite Hk in Hw0; discriminate.
    + unfold isdigit. cbn [is_empty negb andb all_chars].
      rewrite all_chars_app. cbn [all_chars]. rewrite Hnot.
      now rewrite andb_false_r, andb_false_r.
    + exact Hbare.
    + change (String w (whole ++ String "."%char frac))
        with (String w whole ++ "." ++ frac) in *.
      change (String w whole ++ "." ++ frac)
        with (String w (whole ++ "." ++ frac)) at 1.
      rewrite (float_literal_ok_unsigned w _ Hw0). exact Hunsigned.
  - change ("-" ++ String w whole ++ "." ++ frac)
      with (String "-"%char (String w whole ++ "." ++ frac)).
    split; [|split; [|split; [|split]]].
    + reflexivity.
    + intros k kw Hk. apply lower_head_neq.
      destruct Hk as [Hk|[Hk|Hk]]; rewrite Hk; discriminate.
    + unfold isdigit. cbn [is_empty negb andb all_chars]. reflexivity.
    + exact Hbare.
    + exact Hunsigned.
Qed.

(** ** The codec *)

Section Codec.
Context {F : Type} (py : PyRuntime F) (config : TOONConfig).

Lemma parse_quoted (s : string) :
  occurs (String BSL "n") s = false ->
  _parse_value py [quoted (escape s)] = Ok (Str s).
Proof.
  intros H. unfold _parse_value.
  now rewrite quoted_is_quoted, slice_quoted, unescape_escape.
Qed.

Lemma parse_int_text (n : Z) :
  (0 <= n)%Z -> _parse_value py [str_int n] = Ok (Int n).
Proof.
  intros Hn. destruct (int_text_parses n Hn) as (Hdec & Hdig & Hint).
  unfold _parse_value.
  replace (startswith (str_int n) (str1 DQ)) with false.
  - cbn [andb]. unfold convert_keyword.
    rewrite !(decimal_not_keyword _ _ Hdec) by reflexivity.
    unfold convert_number. now rewrite Hdig, Hint.
  - symmetry. unfold startswith, str1.
    destruct (str_int n) as [|c r] eqn:E; [reflexivity|].
    rewrite prefix_cons. cbn [all_chars] in Hdec.
    apply andb_true_iff in Hdec. destruct Hdec as [Hc _].
    destruct (Ascii.eqb DQ c) eqn:Hq; [|reflexivity].
    apply Ascii.eqb_eq in Hq. subst c. discriminate.
Qed.

Lemma parse_decimal_float (x : F) :
  decimal_float py (Float x) ->
  _parse_value py [float_str py x] = Ok (Float x).
Proof.
  intros (Hval & sign & whole & frac & Htext & Hsign & Hw & Hf).
  destruct (decimal_notation_facts sign whole frac Hsign Hw Hf)
    as (Hq & Hkw & Hd & Hbare & Hlit).
  cbv zeta in Hq, Hkw, Hd, Hbare, Hlit.
  rewrite <- Htext in Hq, Hkw, Hd, Hbare, Hlit.
  unfold _parse_value. rewrite Hq. cbn [andb]. unfold convert_keyword.
  rewrite !Hkw by auto.
  unfold convert_number. now rewrite Hd, Hbare, Hlit, Hval.
Qed.

(** C4, as amended: for a scalar that is [None], a Boolean, an integer
    from zero up, a float that [str] writes in decimal notation with a
    dot or a string in which no backslash stands before the letter n,
    and an encoder that quotes its strings (the default), the value
    parser of the decoder reads the text that [encode] writes for it
    back into the same value of the same type; so it does for the text
    that a key/value line carries. *)
Theorem scalar_text_parses_back (v : Value F) :
  compact_strings config = false ->
  plain_scalar v \/ decimal_float py v ->
  _parse_value py [encode py config v] = Ok v
  /\ _parse_value py [_encode_simple_value py config v] = Ok v.
Proof.
  intros Hq [Hv|Hv].
  - destruct v as [|[|]|n|x|s|o|a]; cbn in Hv; try contradiction.
    + split; reflexivity.
    + split; reflexivity.
    + split; reflexivity.
    + cbn [encode _encode_simple_value py_str].
      split; now apply parse_int_text.
    + cbn [encode _encode_simple_value]. unfold _encode_string.
      rewrite Hq. cbn [andb]. split; now apply parse_quoted.
  - destruct v as [| | |x| | |]; try contradiction.
    cbn [encode _encode_simple_value py_str].
    split; now apply parse_decimal_float.
Qed.

(** What the value parser makes of a negative integer, of a string with
    a backslash before an n and of a float that [str] writes with an
    exponent: the scalars left out above. *)
Lemma exponent_float_parses_as_string (x : F) :
  float_str py x = "1e-05" ->
  _parse_value py [encode py config (Float x)] = Ok (Str "1e-05").
Proof. intros H. cbn [encode py_str]. rewrite H. reflexivity. Qed.

Lemma negative_int_parses_as_float :
  _parse_value py [encode py config (Int (-5))]
  = Ok (Float (float_val py "-5")).
Proof. reflexivity. Qed.

Lemma backslash_n_parses_as_newline :
  compact_strings config = false ->
  _parse_value py [encode py config (Str (String BSL "n"))]
  = Ok (Str (str1 NL)).
Proof.
  intros Hq. cbn [encode]. unfold _encode_string. rewrite Hq. reflexivity.
Qed.

(** C8: at the top level [encode] writes a Boolean with a capital, and
    so do the rows of both tabular forms; a row of the keyed tabular
    form writes [None] for the null value.  Only the nested form writes
    the lowercase words. *)
Theorem encode_capitalises_booleans :
  encode py config (Bool true) = "True"
  /\ encode py config (Bool false) = "False"
  /\ encode py config Null = "null"
  /\ uniform_field py (Bool true) = "True"
  /\ tabular_field py (Bool false) = "False"
  /\ tabular_field py Null = "None"
  /\ _encode_simple_value py config (Bool true) = "true"
  /\ _encode_simple_value py config (Bool false) = "false".
Proof. repeat split; reflexivity. Qed.

(** C1: the uniform array of the two users is written with a bare
    header, which the header pattern does not match, and the decoder
    reads the text as one key with the rows joined into a string. *)
Theorem uniform_array_not_read_back :
  encode py config (Array two_users)
  = "[2]{id,name}:" ++ String NL "  1,Alice" ++ String NL "  2,Bob"
  /\ decode py (encode py config (Array two_users))
     = Ok (Object [("[2]{id,name}", Str "1,Alice 2,Bob")]).
Proof. split; reflexivity. Qed.

(** C3: a field with a quote and no comma is written bare and read
    back without its quote; a field with a comma and a quote is wrapped
    and its quote doubled, and read back without the quote; a newline
    written as backslash, n is read back as these two characters; the
    keyed tabular form wraps a field with a space and escapes nothing. *)
Theorem field_quoting_not_inverted :
  uniform_field py (Str quote_only) = quote_only
  /\ _parse_csv_line quote_only = ["ab"]
  /\ uniform_field py (Str comma_quote) = quoted (escape comma_quote)
  /\ _parse_csv_line (uniform_field py (Str comma_quote)) = ["x,y"]
  /\ _parse_csv_line (uniform_field py (Str comma_newline))
     = ["a,b" ++ String BSL "nc"]
  /\ tabular_field py (Str quote_only) = quote_only
  /\ tabular_field py (Str "a b") = quoted "a b".
Proof. repeat split; reflexivity. Qed.

(** ** The shape of what [decode] returns *)

Lemma _decode_key_value_object (lines : list string) (v : Value F) :
  _decode_key_value py lines = Ok v -> exists entries, v = Object entries.
Proof.
  unfold _decode_key_value.
  destruct (kv_loop py kv_init lines) as [st|e]; cbn; [|discriminate].
  destruct (kv_save py st) as [res|e]; cbn; [|discriminate].
  intros [= <-]. now exists res.
Qed.

Lemma _decode_tabular_object (lines : list string) (v : Value F) :
  _decode_tabular py lines = Ok v -> exists entries, v = Object entries.
Proof.
  unfold _decode_tabular. destruct lines as [|header rows].
  - intros [= <-]. now exists [].
  - destruct (HeaderPattern.match_header header) as [[key cols]|].
    + destruct (decode_rows py _ rows) as [data|e]; cbn; [|discriminate].
      intros [= <-]. eexists. reflexivity.
    + apply _decode_key_value_object.
Qed.

Lemma split_nonempty (c : ascii) (s : string) : split c s <> [].
Proof.
  induction s as [|x s IH]; cbn; [discriminate|].
  destruct (Ascii.eqb x c); [discriminate|].
  destruct (split c s); [contradiction | discriminate].
Qed.

(** C10: whenever [decode] returns, it returns an Object. *)
Theorem decode_returns_object (toon_str : string) (v : Value F) :
  decode py toon_str = Ok v -> exists entries, v = Object entries.
Proof.
  unfold decode.
  destruct (split NL (strip toon_str)) as [|first_line rest] eqn:E.
  - now apply split_nonempty in E.
  - destruct (_is_tabular_format first_line).
    + apply _decode_tabular_object.
    + apply _decode_key_value_object.
Qed.

(** ** What [decode] does instead of failing *)

Lemma not_keyword (value kw : string) :
  lower value <> kw -> String.eqb (lower value) kw = false.
Proof. intros H. now apply String.eqb_neq. Qed.

(** C2, as amended: [decode] has no failure of its own.  The empty
    text decodes to the empty Object; a first line that looks tabular
    and does not match the header pattern sends the whole text to the
    key/value parser; and a field text that is no keyword and that,
    without its dots and dashes, is not made of digits, is returned as
    the string it is. *)
Theorem decode_falls_back :
  decode py "" = Ok (Object [])
  /\ (forall toon_str header rows,
        split NL (strip toon_str) = header :: rows ->
        _is_tabular_format header = true ->
        HeaderPattern.match_header header = None ->
        decode py toon_str = _decode_key_value py (header :: rows))
  /\ (forall value,
        lower value <> "null" ->
        lower value <> "true" ->
        lower value <> "false" ->
        isdigit value = false ->
        isdigit (replace "-" "" (replace "." "" value)) = false ->
        _convert_value py value = Ok (Str value)).
Proof.
  split; [reflexivity|]. split.
  - intros toon_str header rows Hsplit Htab Hmatch.
    unfold decode. rewrite Hsplit, Htab.
    unfold _decode_tabular. now rewrite Hmatch.
  - intros value Hn Ht Hf Hd Hfl.
    unfold _convert_value, convert_keyword.
    rewrite !not_keyword by assumption.
    unfold convert_number. now rewrite Hd, Hfl.
Qed.

(** Digits around a dash pass the test for a float and are refused by
    [float]: the failure that [decode] does let through. *)
Lemma dashed_digits_raise : decode py "k: 1-2" = Raise ValueError.
Proof. reflexivity. Qed.

(** ** The tabular path *)









(** On such a text [decode] does fail at a field that looks like a number
    and is none: a date, or two numbers around a dash. *)
Lemma dashed_field_is_refused :
  decode py ("t[1]{a,b}:" ++ String NL "  x,1-2") = Raise ValueError.
Proof. reflexivity. Qed.

(** The header pattern does not match a header without a key. *)
Lemma bare_header_unmatched :
  HeaderPattern.match_header "[2]{id,name}:" = None.
Proof. reflexivity. Qed.

(** ** The shape classifiers *)

(** C6, as amended: [_is_tabular] holds exactly of an Object with one
    entry whose value is an Array, empty or not; the Object whose only
    value is the empty Array is then written in nested form, as the
    call of [json.dumps] on that Array. *)
Theorem is_tabular_single_array (obj : list (string * Value F)) :
  (_is_tabular obj = true <-> exists key items, obj = [(key, Array items)])
  /\ (forall rec key,
        _encode_tabular_object py config rec [(key, Array [])]
        = _encode_simple_object py config rec [(key, Array [])])
  /\ (forall rec key,
        _encode_object py config rec [(key, Array [])]
        = key ++ ": " ++ json_dumps py (Array [])).
Proof.
  split; [|split].
  - unfold _is_tabular. split.
    + destruct obj as [|[key v] [|e obj]]; cbn; try discriminate.
      * destruct v; try discriminate. intros _. now exists key, items.
      * destruct v; discriminate.
    + intros (key & items & ->). reflexivity.
  - reflexivity.
  - reflexivity.
Qed.






End Codec.

(** ** Lines *)

Lemma prefix_app_self (p x : string) : String.prefix p (p ++ x) = true.
Proof.
  induction p as [|c p IH]; cbn [append]; [apply prefix_nil|].
  now rewrite prefix_cons, Ascii.eqb_refl, IH.
Qed.

Lemma prefix_split (p s : string) :
  String.prefix p s = true -> exists r, s = p ++ r.
Proof.
  revert s. induction p as [|c p IH]; intros s H; [now exists s|].
  destruct s as [|x s]; [discriminate|].
  rewrite prefix_cons in H. apply andb_true_iff in H. destruct H as [Hc Hp].
  apply Ascii.eqb_eq in Hc. subst x. destruct (IH s Hp) as [r ->].
  now exists r.
Qed.

(** Stripping a text that starts with the marker leaves the marker in
    front: it begins and ends with a character that is no space. *)
Lemma strip_marker (r : string) :
  exists r', strip (marker ++ r) = marker ++ r'.
Proof.
  exists (rstrip r). unfold strip, marker. cbn [append rstrip].
  destruct (rstrip r); reflexivity.
Qed.

Lemma split_first_line (line body : string) :
  contains NL line = false ->
  split NL (line ++ String NL body) = line :: split NL body.
Proof.
  induction line as [|c line IH]; cbn [append contains split]; intros H.
  - now rewrite Ascii.eqb_refl.
  - apply orb_false_iff in H. destruct H as [Hc Hl].
    rewrite Hc, (IH Hl). reflexivity.
Qed.

Lemma split_one_line (line : string) :
  contains NL line = false -> split NL line = [line].
Proof.
  induction line as [|c line IH]; cbn [contains split]; intros H;
    [reflexivity|].
  apply orb_false_iff in H. destruct H as [Hc Hl].
  rewrite Hc, (IH Hl). reflexivity.
Qed.

Lemma join_cons_char (sep : string) (c : ascii) (h : string)
  (t : list string) :
  join sep (String c h :: t) = String c (join sep (h :: t)).
Proof. destruct t; reflexivity. Qed.

Lemma join_split (body : string) : join (str1 NL) (split NL body) = body.
Proof.
  induction body as [|c body IH]; [reflexivity|]. cbn [split].
  destruct (Ascii.eqb c NL) eqn:Hc.
  - apply Ascii.eqb_eq in Hc. subst c.
    destruct (split NL body) as [|h t] eqn:E.
    + now apply split_nonempty in E.
    + change (join (str1 NL) ("" :: h :: t))
        with (String NL (join (str1 NL) (h :: t))).
      now rewrite IH.
  - destruct (split NL body) as [|h t] eqn:E.
    + now apply split_nonempty in E.
    + now rewrite join_cons_char, IH.
Qed.

(** ** The format selector *)

Section Selector.
Context {F : Type} (py : PyRuntime F) (config : TOONConfig).

Lemma marker_line_one_line :
  contains NL marker_line = false /\ startswith marker_line marker = true.
Proof. split; reflexivity. Qed.

Lemma marked_response (first_line rest : string) :
  startswith first_line marker = true ->
  startswith (strip (first_line ++ rest)) marker = true.
Proof.
  intros H. apply prefix_split in H. destruct H as [r ->].
  rewrite append_assoc. destruct (strip_marker (r ++ rest)) as [r' ->].
  apply prefix_app_self.
Qed.

(** The selector and the parser on a response whose first line carries
    the marker: when the selector chooses TOON the output is the marker
    line, a newline and the encoding, so its first line starts with the
    marker; when it does not, the output is what the JSON encoder gives,
    which starts with no marker as no JSON text starts with a slash.  A
    response whose first line starts with the marker is read by the
    TOON decoder, from the second line on; a response that does not
    start with the marker, surrounding white space apart, never reaches
    the TOON decoder. *)
Lemma marker_decides_dispatch :
  (forall data context,
      _should_use_toon data context = true ->
      format_for_droid py config data context
      = marker_line ++ String NL (encode py config data)
      /\ parse_droid_response py (format_for_droid py config data context)
         = ViaTOON (decode py (encode py config data)))
  /\ (forall data context,
        _should_use_toon data context = false ->
        format_for_droid py config data context = json_encode py data
        /\ ((forall v, startswith (json_encode py v) "/" = false) ->
            startswith (format_for_droid py config data context) marker
            = false))
  /\ (forall first_line body,
        startswith first_line marker = true ->
        contains NL first_line = false ->
        parse_droid_response py (first_line ++ String NL body)
        = ViaTOON (decode py body)
        /\ parse_droid_response py first_line = ViaTOON (decode py ""))
  /\ (forall response,
        startswith (strip response) marker = false ->
        parse_droid_response py response
        = ViaJSON (match json_loads py response with
                   | Some v => v
                   | None => Str response
                   end)).
Proof.
  assert (Hin : forall first_line body,
        startswith first_line marker = true ->
        contains NL first_line = false ->
        parse_droid_response py (first_line ++ String NL body)
        = ViaTOON (decode py body)).
  { intros first_line body Hm Hnl. unfold parse_droid_response.
    rewrite (marked_response _ _ Hm), (split_first_line _ _ Hnl).
    cbn [tl]. now rewrite join_split. }
  split; [|split; [|split]].
  - intros data context Hsel. unfold format_for_droid. rewrite Hsel.
    split; [reflexivity|]. unfold _format_toon. apply Hin; reflexivity.
  - intros data context Hsel. unfold format_for_droid. rewrite Hsel.
    split; [reflexivity|]. intros Hjson. unfold _format_json.
    specialize (Hjson data). unfold startswith, marker in *.
    destruct (json_encode py data) as [|c r]; [reflexivity|].
    rewrite prefix_cons in Hjson |- *. rewrite prefix_nil in Hjson.
    rewrite andb_true_r in Hjson. now rewrite Hjson.
  - intros first_line body Hm Hnl. split; [now apply Hin|].
    unfold parse_droid_response.
    rewrite <- (append_nil_r first_line) at 1.
    rewrite (marked_response _ _ Hm), (split_one_line _ Hnl).
    reflexivity.
  - intros response Hno. unfold parse_droid_response. rewrite Hno.
    now destruct (json_loads py response).
Qed.

(** C9: the parser looks for the marker in the stripped response and
    then drops the first line of the response as it came.  When the
    marker line is the first line it is dropped and the rest is decoded:
    the table under [items] comes back.  After a leading newline the
    test still finds the marker, but the line dropped is the empty one:
    the marker line is decoded with the rest, the text is read as
    key/value lines, and the table comes back as one string under the
    text of its header. *)
Theorem marker_line_kept_after_newline :
  (forall body,
      parse_droid_response py (marker_line ++ String NL body)
      = ViaTOON (decode py body))
  /\ (forall body,
        parse_droid_response py (String NL (marker_line ++ String NL body))
        = ViaTOON (decode py (marker_line ++ String NL body)))
  /\ parse_droid_response py (marker_line ++ String NL keyed_text)
     = ViaTOON (Ok (Object [("items", Array two_users)]))
  /\ parse_droid_response py (String NL (marker_line ++ String NL keyed_text))
     = ViaTOON (Ok (Object [("items[2]{id,name}", Str "1,Alice 2,Bob")])).
Proof.
  assert (Hfirst : forall body,
      parse_droid_response py (marker_line ++ String NL body)
      = ViaTOON (decode py body)).
  { intros body. unfold parse_droid_response.
    rewrite (marked_response marker_line (String NL body) eq_refl).
    rewrite (split_first_line marker_line body eq_refl).
    cbn [tl]. now rewrite join_split. }
  assert (Hafter : forall body,
      parse_droid_response py (String NL (marker_line ++ String NL body))
      = ViaTOON (decode py (marker_line ++ String NL body))).
  { intros body. unfold parse_droid_response.
    replace (startswith
               (strip (String NL (marker_line ++ String NL body))) marker)
      with true.
    - change (String NL (marker_line ++ String NL body))
        with ("" ++ String NL (marker_line ++ String NL body)).
      rewrite (split_first_line "" _ eq_refl).
      cbn [tl]. now rewrite join_split.
    - symmetry.
      pose proof (marked_response marker_line (String NL body) eq_refl)
        as Hm.
      unfold strip in *. cbn [rstrip].
      destruct (rstrip (marker_line ++ String NL body)) as [|c r];
        [discriminate Hm | exact Hm]. }
  split; [exact Hfirst|]. split; [exact Hafter|]. split.
  - rewrite Hfirst. reflexivity.
  - rewrite Hafter. reflexivity.
Qed.

End Selector.

(** ** Closed examples *)

(** C4, as amended, at the string [a,b] and at the float written
    [-2.5]. *)
Lemma scalar_text_parses_back_witness :
  compact_strings default_config = false
  /\ plain_scalar (@Str string "a,b")
  /\ decimal_float py_literal (Float "-2.5")
  /\ (_parse_value py_literal [encode py_literal default_config (Str "a,b")]
      = Ok (Str "a,b")
      /\ _parse_value py_literal
           [_encode_simple_value py_literal default_config (Str "a,b")]
         = Ok (Str "a,b"))
  /\ (_parse_value py_literal
        [encode py_literal default_config (Float "-2.5")]
      = Ok (Float "-2.5")
      /\ _parse_value py_literal
           [_encode_simple_value py_literal default_config (Float "-2.5")]
         = Ok (Float "-2.5")).
Proof.
  assert (Hfloat : decimal_float py_literal (Float "-2.5")).
  { split; [reflexivity|]. exists "-", "2", "5".
    split; [reflexivity|]. split; [now right|]. split; reflexivity. }
  split; [reflexivity|]. split; [reflexivity|]. split; [exact Hfloat|].
  split.
  - apply (scalar_text_parses_back py_literal default_config (Str "a,b")
             eq_refl).
    left. reflexivity.
  - apply (scalar_text_parses_back py_literal default_config (Float "-2.5")
             eq_refl).
    right. exact Hfloat.
Defined.

(** C4 as stated fails at the null value: its text decodes to the empty
    Object. *)
Lemma null_not_decoded_back :
  decode py_literal (encode py_literal default_config Null) = Ok (Object [])
  /\ decode py_literal (encode py_literal default_config Null) <> Ok Null.
Proof. split; [reflexivity | discriminate]. Qed.

(** C2 as stated fails at the empty text, on which [decode] returns. *)
Lemma empty_text_decodes :
  decode py_literal "" = Ok (Object [])
  /\ ~ (exists e, decode py_literal "" = Raise e).
Proof. split; [reflexivity | intros [e H]; discriminate]. Qed.

(** C2, as amended, at the empty text, at the bare header and at the
    field [Alice]. *)
Lemma decode_falls_back_witness :
  decode py_literal "" = Ok (Object [])
  /\ decode py_literal bare_text
     = _decode_key_value py_literal
         ["[2]{id,name}:"; "  1,Alice"; "  2,Bob"]
  /\ _convert_value py_literal "Alice" = Ok (Str "Alice").
Proof.
  destruct (decode_falls_back py_literal) as (Hempty & Hfall & Hfield).
  split; [exact Hempty|]. split.
  - apply (Hfall bare_text); reflexivity.
  - apply (Hfield "Alice"); (discriminate || reflexivity).
Defined.



(** C6 as stated fails at the Object whose only value is the empty
    Array. *)
Lemma empty_array_is_tabular :
  @_is_tabular string [("rows", Array [])] = true.
Proof. reflexivity. Qed.

(** C6, as amended, at a wrapped array. *)
Lemma is_tabular_single_array_witness :
  @_is_tabular string [("items", Array two_users)] = true.
Proof.
  apply (proj1 (is_tabular_single_array py_literal default_config _)).
  exists "items", two_users. reflexivity.
Defined.



(** The selector and the parser at a wrapped array sent as a tool result,
    which is written as TOON (with the repaired header line) and read
    back, at the null value, which goes to JSON, and at a response that
    is no JSON text. *)
Lemma marker_decides_dispatch_witness :
  format_for_droid py_literal default_config
    (Object [("items", Array two_users)]) "tool_result"
  = marker_line ++ String NL keyed_text
  /\ parse_droid_response py_literal
       (format_for_droid py_literal default_config
          (Object [("items", Array two_users)]) "tool_result")
     = ViaTOON (Ok (Object [("items", Array two_users)]))
  /\ startswith (format_for_droid py_literal default_config Null "prompt")
       marker = false
  /\ parse_droid_response py_literal "hello" = ViaJSON (Str "hello").
Proof.
  destruct (marker_decides_dispatch py_literal default_config)
    as (Hout & Hjson & _ & Hin).
  destruct (Hout (Object [("items", Array two_users)]) "tool_result" eq_refl)
    as (Hfmt & Hparse).
  destruct (Hjson Null "prompt" eq_refl) as (_ & Hno).
  split; [exact Hfmt|]. split; [rewrite Hparse; reflexivity|].
  split; [apply Hno; reflexivity|].
  apply (Hin "hello"). reflexivity.
Defined.

(** C10 at a key/value line. *)
Lemma decode_returns_object_witness :
  decode py_literal "a: 1" = Ok (Object [("a", Int 1)])
  /\ exists entries, @Object string [("a", Int 1)] = Object entries.
Proof.
  split; [reflexivity|].
  apply (decode_returns_object py_literal "a: 1"). reflexivity.
Defined.

(** * Further properties *)

(** ** More on strings *)

Lemma append_nonempty (a b : string) : b <> "" -> a ++ b <> "".
Proof. destruct a; cbn; [auto | discriminate]. Qed.

Lemma ends_space_app (a b : string) :
  b <> "" -> ends_space (a ++ b) = ends_space b.
Proof.
  intros Hb. induction a as [|x a IH]; [reflexivity|].
  cbn [append ends_space]. destruct (a ++ b) eqn:E.
  - now apply append_nonempty in E.
  - exact IH.
Qed.

Lemma lstrip_id (s : string) : starts_space s = false -> lstrip s = s.
Proof. destruct s as [|c s]; cbn; [reflexivity|]. now intros ->. Qed.

Lemma rstrip_id (s : string) : ends_space s = false -> rstrip s = s.
Proof.
  induction s as [|c s IH]; [reflexivity|]. cbn [ends_space rstrip].
  destruct s as [|d s].
  - cbn. now intros ->.
  - intros H. rewrite (IH H). reflexivity.
Qed.

Lemma strip_tight (s : string) : tight s = true -> strip s = s.
Proof.
  unfold tight, strip. intros H.
  apply andb_true_iff in H. destruct H as [H He].
  apply andb_true_iff in H. destruct H as [_ Hs].
  apply negb_true_iff in He, Hs.
  now rewrite (rstrip_id s He), (lstrip_id s Hs).
Qed.

Lemma no_space_tight (s : string) :
  s <> "" -> no_space s = true -> tight s = true.
Proof.
  intros Hne Hns. unfold tight.
  assert (He : ends_space s = false).
  { clear Hne. induction s as [|c s IH]; [reflexivity|].
    cbn in Hns. apply andb_true_iff in Hns. destruct Hns as [Hc Hs].
    cbn [ends_space]. destruct s; [now apply negb_true_iff in Hc | now apply IH]. }
  destruct s as [|c s]; [contradiction|].
  cbn in Hns. apply andb_true_iff in Hns. destruct Hns as [Hc _].
  cbn [is_empty starts_space negb andb]. now rewrite Hc, He.
Qed.

(** ** Splitting and joining *)

Lemma split_app_sep (c : ascii) (line rest : string) :
  contains c line = false ->
  split c (line ++ String c rest) = line :: split c rest.
Proof.
  induction line as [|x line IH]; cbn [append contains split]; intros H.
  - now rewrite Ascii.eqb_refl.
  - apply orb_false_iff in H. destruct H as [Hx Hl].
    rewrite Hx, (IH Hl). reflexivity.
Qed.

Lemma split_no_sep (c : ascii) (line : string) :
  contains c line = false -> split c line = [line].
Proof.
  induction line as [|x line IH]; cbn [contains split]; intros H;
    [reflexivity|].
  apply orb_false_iff in H. destruct H as [Hx Hl].
  rewrite Hx, (IH Hl). reflexivity.
Qed.

Lemma join_cons2 (sep x y : string) (l : list string) :
  join sep (x :: y :: l) = x ++ sep ++ join sep (y :: l).
Proof. reflexivity. Qed.

Lemma split_join (c : ascii) (lines : list string) :
  lines <> [] ->
  Forall (fun l => contains c l = false) lines ->
  split c (join (str1 c) lines) = lines.
Proof.
  intros Hne Hall. induction Hall as [|x l Hx Hl IH]; [contradiction|].
  destruct l as [|y l].
  - cbn [join String.concat]. now apply split_no_sep.
  - rewrite join_cons2. unfold str1 at 1. cbn [append].
    rewrite (split_app_sep c x _ Hx), IH; [reflexivity | discriminate].
Qed.

(** ** The row parser *)

Lemma _parse_csv_line_scan (line : string) :
  _parse_csv_line line = csv_scan line [] "" false.
Proof. reflexivity. Qed.

Lemma csv_reads_plain (t : string) :
  contains DQ t = false -> contains ","%char t = false -> csv_reads t t.
Proof.
  intros Hq Hc rest values. induction t as [|x t IH]; intros current.
  - cbn. now rewrite append_nil_r.
  - cbn in Hq, Hc. apply orb_false_iff in Hq, Hc.
    destruct Hq as [Hxq Hq], Hc as [Hxc Hc].
    cbn [append csv_scan]. rewrite Hxq, Hxc, (IH Hq Hc).
    now rewrite append_assoc.
Qed.

Lemma csv_scan_inside (s rest : string) (values : list string)
  (current : string) :
  contains DQ s = false ->
  csv_scan (s ++ String DQ rest) values current true
  = csv_scan rest values (current ++ s) false.
Proof.
  intros Hq. revert current. induction s as [|x s IH]; intros current.
  - cbn. now rewrite append_nil_r.
  - cbn in Hq. apply orb_false_iff in Hq. destruct Hq as [Hxq Hq].
    cbn [append csv_scan]. rewrite Hxq, (IH Hq). now rewrite append_assoc.
Qed.

Lemma csv_reads_quoted (s : string) :
  contains DQ s = false -> csv_reads (quoted s) s.
Proof.
  intros Hq rest values current. unfold quoted.
  cbn [append]. rewrite append_assoc. cbn [str1 append csv_scan].
  now apply csv_scan_inside.
Qed.

Lemma csv_scan_join (texts raws : list string) :
  Forall2 csv_reads texts raws ->
  texts <> [] ->
  forall values,
    csv_scan (join "," texts) values "" false = (values ++ raws)%list.
Proof.
  intros Hall. induction Hall as [|t r ts rs Hread Hrest IH];
    [contradiction|].
  intros _ values. destruct ts as [|t' ts].
  - inversion Hrest; subst. cbn [join String.concat].
    rewrite <- (append_nil_r t), Hread. reflexivity.
  - rewrite join_cons2, Hread. cbn [append csv_scan].
    rewrite IH by discriminate. now rewrite <- app_assoc.
Qed.

(** X1: on a line without a double quote the row parser is the split on
    commas. *)
Theorem parse_csv_line_without_quotes (line : string) :
  contains DQ line = false ->
  _parse_csv_line line = split ","%char line.
Proof.
  intros Hq. rewrite _parse_csv_line_scan.
  assert (H : forall values current,
             csv_scan line values current false
             = (values ++ match split ","%char line with
                          | h :: t => String.append current h :: t
                          | [] => []
                          end)%list).
  { induction line as [|x line IH]; intros values current.
    - cbn. now rewrite append_nil_r.
    - cbn in Hq. apply orb_false_iff in Hq. destruct Hq as [Hxq Hq].
      cbn [csv_scan split]. rewrite Hxq.
      destruct (Ascii.eqb x ","%char).
      + rewrite (IH Hq). rewrite append_nil_r.
        destruct (split ","%char line) as [|h t] eqn:E.
        * now apply split_nonempty in E.
        * cbn [append]. now rewrite <- app_assoc.
      + rewrite (IH Hq).
        destruct (split ","%char line) as [|h t] eqn:E.
        * now apply split_nonempty in E.
        * now rewrite append_assoc. }
  rewrite H. cbn [app]. now destruct (split ","%char line).
Qed.

Lemma parse_csv_line_without_quotes_witness :
  contains DQ "1,Alice,,x" = false
  /\ _parse_csv_line "1,Alice,,x" = ["1"; "Alice"; ""; "x"].
Proof.
  split; [reflexivity|].
  rewrite (parse_csv_line_without_quotes "1,Alice,,x"); reflexivity.
Defined.

Lemma escape_plain (s : string) :
  contains DQ s = false -> contains NL s = false -> escape s = s.
Proof.
  induction s as [|x s IH]; [reflexivity|]. cbn [contains].
  intros Hq Hn. apply orb_false_iff in Hq, Hn.
  destruct Hq as [Hxq Hq], Hn as [Hxn Hn].
  rewrite escape_cons, (IH Hq Hn). unfold escape_char.
  now rewrite Hxq, Hxn.
Qed.

Section Rows.
Context {F : Type} (py : PyRuntime F).

Lemma tabular_field_reads (s : string) :
  contains DQ s = false -> csv_reads (tabular_field py (Str s)) s.
Proof.
  intros Hq. cbn [tabular_field].
  destruct (contains ","%char s) eqn:Hc; cbn [orb].
  - now apply csv_reads_quoted.
  - destruct (contains " "%char s);
      [now apply csv_reads_quoted | now apply csv_reads_plain].
Qed.

Lemma uniform_field_reads (s : string) :
  contains DQ s = false -> contains NL s = false ->
  csv_reads (uniform_field py (Str s)) s.
Proof.
  intros Hq Hn. cbn [uniform_field]. rewrite Hn, orb_false_r.
  destruct (contains ","%char s) eqn:Hc.
  - rewrite (escape_plain s Hq Hn). now apply csv_reads_quoted.
  - cbn [py_str]. now apply csv_reads_plain.
Qed.

(** X2: a row of strings without double quote is read back field by
    field from the text that the keyed table writes for it, the commas and
    spaces of a wrapped field included; so it is from the text that the
    bare table writes, when the strings hold no newline either. *)
Theorem string_row_read_back (fields : list string) :
  fields <> [] ->
  Forall (fun s => contains DQ s = false) fields ->
  _parse_csv_line
    (join "," (map (fun s => tabular_field py (Str s)) fields)) = fields
  /\ (Forall (fun s => contains NL s = false) fields ->
      _parse_csv_line
        (join "," (map (fun s => uniform_field py (Str s)) fields))
      = fields).
Proof.
  intros Hne Hq. split; [|intros Hn]; rewrite _parse_csv_line_scan.
  - apply (csv_scan_join _ fields); [|destruct fields; [contradiction | discriminate]].
    clear Hne. induction Hq as [|s l Hs Hl IH]; constructor;
      [now apply tabular_field_reads | exact IH].
  - apply (csv_scan_join _ fields); [|destruct fields; [contradiction | discriminate]].
    clear Hne. induction Hq as [|s l Hs Hl IH]; [constructor|].
    inversion Hn; subst. constructor;
      [now apply uniform_field_reads | now apply IH].
Qed.

End Rows.

Lemma string_row_read_back_witness :
  _parse_csv_line
    (join "," (map (fun s => tabular_field py_literal (Str s))
                 ["Doe, Jane"; "a b"; "x"]))
  = ["Doe, Jane"; "a b"; "x"].
Proof.
  assert (Hne : ["Doe, Jane"; "a b"; "x"] <> []) by discriminate.
  assert (Hq : Forall (fun s => contains DQ s = false)
                 ["Doe, Jane"; "a b"; "x"]) by (repeat constructor).
  exact (proj1 (string_row_read_back py_literal _ Hne Hq)).
Defined.

(** ** The header pattern *)

Lemma first_some_app {A B : Type} (f : A -> option B) (l1 l2 : list A) :
  HeaderPattern.first_some f (l1 ++ l2)
  = match HeaderPattern.first_some f l1 with
    | Some b => Some b
    | None => HeaderPattern.first_some f l2
    end.
Proof.
  induction l1 as [|x l1 IH]; cbn; [reflexivity|].
  destruct (f x); [reflexivity | exact IH].
Qed.

Lemma first_some_map {A A' B : Type} (g : A -> A') (f : A' -> option B)
  (l : list A) :
  HeaderPattern.first_some f (map g l)
  = HeaderPattern.first_some (fun x => f (g x)) l.
Proof.
  induction l as [|x l IH]; cbn; [reflexivity|].
  destruct (f (g x)); [reflexivity | exact IH].
Qed.

Lemma first_some_ext {A B : Type} (f g : A -> option B) (l : list A) :
  (forall x, f x = g x) ->
  HeaderPattern.first_some f l = HeaderPattern.first_some g l.
Proof.
  intros H. induction l as [|x l IH]; cbn; [reflexivity|].
  now rewrite H, IH.
Qed.

Lemma greedy_from_nil {B : Type} (rest : string -> option B) (s : string) :
  HeaderPattern.greedy rest s = greedy_from rest "" s.
Proof. reflexivity. Qed.

Lemma greedy_from_cons {B : Type} (rest : string -> option B)
  (pre : string) (c : ascii) (s : string) :
  greedy_from rest pre (String c s)
  = match greedy_from rest (pre ++ str1 c) s with
    | Some b => Some b
    | None =>
        if HeaderPattern.dot_plus pre
        then option_map (pair pre) (rest (String c s))
        else None
    end.
Proof.
  unfold greedy_from. cbn [HeaderPattern.splits].
  rewrite first_some_app, first_some_map. cbn [fst snd].
  rewrite (first_some_ext _
             (fun pt : string * string =>
                if HeaderPattern.dot_plus ((pre ++ str1 c) ++ fst pt)
                then option_map (pair ((pre ++ str1 c) ++ fst pt))
                       (rest (snd pt))
                else None)).
  - destruct (HeaderPattern.first_some _ (HeaderPattern.splits s));
      [reflexivity|].
    cbn [HeaderPattern.first_some fst snd]. rewrite append_nil_r.
    now destruct (HeaderPattern.dot_plus pre), (rest (String c s)).
  - intros [p t]. cbn [fst snd]. now rewrite append_assoc.
Qed.

Lemma greedy_from_empty {B : Type} (rest : string -> option B)
  (pre : string) :
  greedy_from rest pre ""
  = if HeaderPattern.dot_plus pre
    then option_map (pair pre) (rest "")
    else None.
Proof.
  unfold greedy_from. cbn. rewrite append_nil_r.
  now destruct (HeaderPattern.dot_plus pre), (rest "").
Qed.

(** When what follows accepts no proper end of [t], only the cut before
    [t] is left. *)
Lemma greedy_from_last {B : Type} (rest : string -> option B) (t : string) :
  (forall q t', q <> "" -> t = q ++ t' -> rest t' = None) ->
  forall pre,
    greedy_from rest pre t
    = if HeaderPattern.dot_plus pre
      then option_map (pair pre) (rest t)
      else None.
Proof.
  induction t as [|c t IH]; intros Hno pre.
  - apply greedy_from_empty.
  - rewrite greedy_from_cons, IH.
    + rewrite (Hno (str1 c) t) by (discriminate || reflexivity).
      now destruct (HeaderPattern.dot_plus (pre ++ str1 c)).
    + intros q t' Hq ->. apply (Hno (String c q) t'); [discriminate|].
      reflexivity.
Qed.

Lemma greedy_from_found {B : Type} (rest : string -> option B)
  (t : string) (b : B) :
  (forall q t', q <> "" -> t = q ++ t' -> rest t' = None) ->
  rest t = Some b ->
  forall p pre,
    HeaderPattern.dot_plus (pre ++ p) = true ->
    greedy_from rest pre (p ++ t) = Some (pre ++ p, b).
Proof.
  intros Hno Hb. induction p as [|c p IH]; intros pre Hdot.
  - cbn [append]. rewrite append_nil_r in *.
    now rewrite (greedy_from_last rest t Hno), Hdot, Hb.
  - cbn [append]. rewrite greedy_from_cons.
    replace (pre ++ String c p) with ((pre ++ str1 c) ++ p) in *
      by now rewrite append_assoc.
    now rewrite (IH _ Hdot).
Qed.

Lemma suffix_contains (c : ascii) (t q t' : string) :
  t = q ++ t' -> contains c t = false -> contains c t' = false.
Proof.
  intros -> H. rewrite contains_app in H.
  now apply orb_false_iff in H.
Qed.

Lemma count_columns_needs_bracket (t : string) :
  contains "["%char t = false -> HeaderPattern.count_columns t = None.
Proof.
  destruct t as [|c t]; [reflexivity|]. cbn [contains].
  intros H. apply orb_false_iff in H. destruct H as [Hc _].
  unfold HeaderPattern.count_columns.
  destruct c as [[] [] [] [] [] [] [] []]; try reflexivity. discriminate.
Qed.

Lemma close_colon_ends (q t' : string) :
  q <> "" -> "}:" = q ++ t' -> HeaderPattern.close_colon t' = None.
Proof.
  intros Hq H. destruct q as [|a [|b [|c q]]]; try contradiction;
    cbn in H; inversion H; subst; reflexivity.
Qed.

Lemma count_columns_tail (count cols : string) :
  count <> "" ->
  all_chars isdecimal_char count = true ->
  HeaderPattern.dot_plus cols = true ->
  HeaderPattern.count_columns (header_tail count cols) = Some cols.
Proof.
  intros Hne Hd Hdot. unfold header_tail, HeaderPattern.count_columns.
  cbn [append]. rewrite (span_decimal_stop count _ Hd) by reflexivity.
  destruct count as [|c count]; [contradiction|]. cbn [is_empty].
  rewrite greedy_from_nil.
  rewrite (greedy_from_found HeaderPattern.close_colon "}:" tt
             close_colon_ends eq_refl cols "" Hdot).
  reflexivity.
Qed.

Lemma header_tail_ends (count cols q t' : string) :
  all_chars isdecimal_char count = true ->
  contains "["%char cols = false ->
  q <> "" -> header_tail count cols = q ++ t' ->
  HeaderPattern.count_columns t' = None.
Proof.
  intros Hd Hc Hq H. apply count_columns_needs_bracket.
  destruct q as [|a q]; [contradiction|].
  unfold header_tail in H. cbn [append] in H. injection H as _ H.
  apply (suffix_contains _ _ _ _ H).
  rewrite contains_app.
  rewrite (all_chars_contains isdecimal_char "["%char count Hd)
    by reflexivity.
  cbn [orb append contains]. rewrite contains_app, Hc. reflexivity.
Qed.

Lemma header_matches (key count cols : string) :
  HeaderPattern.dot_plus key = true ->
  count <> "" ->
  all_chars isdecimal_char count = true ->
  HeaderPattern.dot_plus cols = true ->
  contains "["%char cols = false ->
  HeaderPattern.match_header (key ++ header_tail count cols)
  = Some (key, cols).
Proof.
  intros Hkey Hne Hd Hcols Hc. unfold HeaderPattern.match_header.
  rewrite greedy_from_nil.
  apply (greedy_from_found HeaderPattern.count_columns
           (header_tail count cols) cols).
  - intros q t' Hq H. now apply (header_tail_ends count cols q t').
  - now apply count_columns_tail.
  - exact Hkey.
Qed.

Lemma header_detected (key count cols : string) :
  _is_tabular_format (key ++ header_tail count cols) = true.
Proof.
  unfold _is_tabular_format, header_tail.
  replace (key ++ "[" ++ count ++ "]{" ++ cols ++ "}:")
    with ((key ++ "[" ++ count ++ "]{" ++ cols ++ "}") ++ str1 ":"%char)
    by (now rewrite !append_assoc).
  rewrite endswith_char_app, andb_true_r.
  rewrite !append_assoc, !contains_app.
  cbn -[contains]. cbn [contains]. cbn [Ascii.eqb Bool.eqb orb].
  now rewrite !orb_true_r.
Qed.

(** X3: a line made of a key, a count and a column list is detected as a
    tabular header and matched with this key and this column list, when
    no column holds an opening bracket; the key may hold any character but
    a newline, and the count any digits. *)
Theorem match_header_keyed (key count cols : string) :
  HeaderPattern.dot_plus key = true ->
  count <> "" ->
  all_chars isdecimal_char count = true ->
  HeaderPattern.dot_plus cols = true ->
  contains "["%char cols = false ->
  _is_tabular_format (key ++ header_tail count cols) = true
  /\ HeaderPattern.match_header (key ++ header_tail count cols)
     = Some (key, cols).
Proof.
  intros Hkey Hne Hd Hcols Hc. split.
  - apply header_detected.
  - now apply header_matches.
Qed.

Lemma match_header_keyed_witness :
  _is_tabular_format "users[12]{id,name}:" = true
  /\ HeaderPattern.match_header "users[12]{id,name}:"
     = Some ("users", "id,name").
Proof.
  apply (match_header_keyed "users" "12" "id,name");
    (discriminate || reflexivity).
Defined.

Lemma header_unmatched (count cols : string) :
  all_chars isdecimal_char count = true ->
  contains "["%char cols = false ->
  HeaderPattern.match_header (header_tail count cols) = None.
Proof.
  intros Hd Hc. unfold HeaderPattern.match_header.
  rewrite greedy_from_nil.
  rewrite (greedy_from_last HeaderPattern.count_columns
             (header_tail count cols)).
  - reflexivity.
  - intros q t' Hq H. now apply (header_tail_ends count cols q t').
Qed.

(** X4: a header without a key is detected as tabular and never matched
    by the header pattern, when no column holds an opening bracket; the
    tabular path then hands the lines to the key/value parser, whatever
    the interpreter. *)
Theorem match_header_bare (count cols : string) :
  all_chars isdecimal_char count = true ->
  contains "["%char cols = false ->
  _is_tabular_format (header_tail count cols) = true
  /\ HeaderPattern.match_header (header_tail count cols) = None
  /\ forall (F : Type) (py : PyRuntime F) (rows : list string),
       _decode_tabular py (header_tail count cols :: rows)
       = _decode_key_value py (header_tail count cols :: rows).
Proof.
  intros Hd Hc. split; [apply (header_detected "")|].
  pose proof (header_unmatched count cols Hd Hc) as Hno.
  split; [exact Hno|].
  intros F py rows. unfold _decode_tabular. now rewrite Hno.
Qed.

Lemma match_header_bare_witness :
  _is_tabular_format "[3]{id,name,role}:" = true
  /\ HeaderPattern.match_header "[3]{id,name,role}:" = None.
Proof.
  destruct (match_header_bare "3" "id,name,role" eq_refl eq_refl)
    as (H1 & H2 & _).
  split; [exact H1 | exact H2].
Defined.

(** ** Dictionaries built from columns *)

Section Columns.
Context {V : Type}.

Lemma keys_combine (columns : list string) (vals : list V) :
  length vals = length columns -> keys (combine columns vals) = columns.
Proof.
  revert vals. induction columns as [|c cs IH]; intros [|v vs] H;
    try discriminate; [reflexivity|].
  cbn. f_equal. apply IH. now injection H.
Qed.

Lemma dict_get_other (k c : string) (v d : V) (l : list (string * V)) :
  c <> k -> dict_get k d ((c, v) :: l) = dict_get k d l.
Proof.
  intros H. cbn. now rewrite (proj2 (String.eqb_neq c k) H).
Qed.

Lemma dict_get_combine (d : V) (columns : list string) (vals : list V) :
  NoDup columns -> length vals = length columns ->
  map (fun col => dict_get col d (combine columns vals)) columns = vals.
Proof.
  intros Hnd. revert vals.
  induction Hnd as [|c cs Hc Hnd IH]; intros [|v vs] H; try discriminate;
    [reflexivity|].
  cbn [combine map]. f_equal.
  - cbn. now rewrite String.eqb_refl.
  - transitivity (map (fun col => dict_get col d (combine cs vs)) cs).
    + apply map_ext_in. intros k Hk. apply dict_get_other.
      intros ->. contradiction.
    + apply IH. now injection H.
Qed.

Lemma dict_set_fresh (k : string) (v : V) (l : list (string * V)) :
  ~ In k (keys l) -> dict_set k v l = (l ++ [(k, v)])%list.
Proof.
  induction l as [|[c x] l IH]; cbn; intros H; [reflexivity|].
  destruct (String.eqb_spec c k) as [->|_]; [tauto|].
  f_equal. apply IH. tauto.
Qed.

Lemma dict_of_from (pairs acc : list (string * V)) :
  NoDup (keys acc ++ keys pairs) ->
  fold_left (fun d kv => dict_set (fst kv) (snd kv) d) pairs acc
  = (acc ++ pairs)%list.
Proof.
  revert acc. induction pairs as [|[k v] pairs IH]; intros acc H; cbn.
  - now rewrite app_nil_r.
  - cbn in H. rewrite dict_set_fresh.
    + rewrite IH; [now rewrite <- app_assoc|].
      unfold keys in *. rewrite map_app, <- app_assoc. exact H.
    + apply NoDup_remove_2 in H. intros Hin. apply H.
      apply in_or_app. now left.
Qed.

Lemma dict_of_combine (columns : list string) (vals : list V) :
  NoDup columns -> length vals = length columns ->
  dict_of (combine columns vals) = combine columns vals.
Proof.
  intros Hnd Hlen. unfold dict_of. rewrite dict_of_from; [reflexivity|].
  cbn [keys map app]. fold (keys (combine columns vals)).
  now rewrite keys_combine.
Qed.

End Columns.

(** ** The text of a field *)

Lemma decimal_not_space (c : ascii) :
  isdecimal_char c = true -> negb (isspace_char c) = true.
Proof.
  destruct c as [[] [] [] [] [] [] [] []]; intros H; try reflexivity;
    discriminate H.
Qed.

Lemma lower_char_comma (x : ascii) :
  Ascii.eqb (lower_char x) ","%char = Ascii.eqb x ","%char.
Proof. destruct x as [[] [] [] [] [] [] [] []]; reflexivity. Qed.

Lemma lower_char_blank (x : ascii) :
  Ascii.eqb (lower_char x) " "%char = Ascii.eqb x " "%char.
Proof. destruct x as [[] [] [] [] [] [] [] []]; reflexivity. Qed.

Lemma contains_lower (c : ascii) (s : string) :
  (forall x, Ascii.eqb (lower_char x) c = Ascii.eqb x c) ->
  contains c (lower s) = contains c s.
Proof.
  intros H. unfold lower. induction s as [|x s IH]; cbn; [reflexivity|].
  now rewrite H, IH.
Qed.

Lemma contains_subst_other (c a : ascii) (s : string) :
  Ascii.eqb c a = false ->
  contains c (subst_char a "" s) = contains c s.
Proof.
  intros Hca. induction s as [|x s IH]; cbn [subst_char contains];
    [reflexivity|].
  rewrite contains_app, IH. destruct (Ascii.eqb_spec x a) as [->|Hxa].
  - cbn. now rewrite Ascii.eqb_sym, Hca.
  - cbn. now rewrite orb_false_r.
Qed.

Section Fields.
Context {F : Type} (py : PyRuntime F).

(** A text with a comma or a space in it is no keyword and no number. *)
Lemma separator_text_is_string (c : ascii) (s : string) :
  c = ","%char \/ c = " "%char ->
  contains c s = true ->
  _convert_value py s = Ok (Str s).
Proof.
  intros Hc Hs.
  assert (Hlow : contains c (lower s) = true).
  { rewrite contains_lower; [exact Hs|].
    destruct Hc as [-> | ->]; [apply lower_char_comma | apply lower_char_blank]. }
  assert (Hkw : forall kw, contains c kw = false ->
                           String.eqb (lower s) kw = false).
  { intros kw Hk. apply String.eqb_neq. intros E. rewrite E in Hlow.
    congruence. }
  assert (Hdig : forall t, contains c t = true -> isdigit t = false).
  { intros t Ht. unfold isdigit.
    destruct (all_chars isdigit_char t) eqn:E; [|apply andb_false_r].
    rewrite (all_chars_contains isdigit_char c t E) in Ht; [discriminate|].
    destruct Hc as [-> | ->]; reflexivity. }
  unfold _convert_value, convert_keyword.
  rewrite !Hkw by (destruct Hc as [-> | ->]; reflexivity).
  unfold convert_number. rewrite (Hdig s Hs), Hdig; [reflexivity|].
  change "-" with (str1 "-"%char). change "." with (str1 "."%char).
  rewrite !replace_single.
  rewrite !contains_subst_other by (destruct Hc as [-> | ->]; reflexivity).
  exact Hs.
Qed.

Lemma convert_int_text (n : Z) :
  (0 <= n)%Z -> _convert_value py (str_int n) = Ok (Int n).
Proof.
  intros Hn. destruct (int_text_parses n Hn) as (Hdec & Hdig & Hint).
  unfold _convert_value, convert_keyword.
  rewrite !(decimal_not_keyword _ _ Hdec) by reflexivity.
  unfold convert_number. now rewrite Hdig, Hint.
Qed.

Lemma tight_quoted (s : string) : tight (quoted s) = true.
Proof.
  unfold tight, quoted. cbn [append is_empty starts_space negb andb].
  change (String DQ (s ++ str1 DQ)) with (String DQ s ++ str1 DQ).
  now rewrite ends_space_app by discriminate.
Qed.

(** What the row parser and the conversion make of the text written for
    a field of the table. *)
Lemma table_field_text (v : Value F) :
  table_field py v ->
  tight (tabular_field py v) = true
  /\ contains NL (tabular_field py v) = false
  /\ exists raw,
       csv_reads (tabular_field py v) raw
       /\ _convert_value py raw = Ok v.
Proof.
  destruct v as [|b|n|x|s|o|a]; cbn [table_field]; try contradiction.
  - intros _. destruct b; (split; [reflexivity|]); (split; [reflexivity|]).
    + exists "True". split; [now apply csv_reads_plain | reflexivity].
    + exists "False". split; [now apply csv_reads_plain | reflexivity].
  - intros Hn. cbn [tabular_field py_str].
    destruct (int_text_parses n Hn) as (Hdec & Hdig & _).
    assert (Hne : str_int n <> "").
    { intros E. rewrite E in Hdig. discriminate. }
    split; [|split].
    + apply no_space_tight; [exact Hne|].
      apply (all_chars_impl isdecimal_char); [apply decimal_not_space | exact Hdec].
    + now apply (all_chars_contains isdecimal_char).
    + exists (str_int n). split; [|now apply convert_int_text].
      apply csv_reads_plain; now apply (all_chars_contains isdecimal_char).
  - intros (Hq & Hnl & Hcase). cbn [tabular_field].
    destruct (contains ","%char s || contains " "%char s) eqn:Hsep.
    + split; [apply tight_quoted|]. split.
      * unfold quoted. cbn [append contains].
        rewrite contains_app, Hnl. reflexivity.
      * exists s. split; [now apply csv_reads_quoted|].
        apply orb_true_iff in Hsep. destruct Hsep as [H|H].
        -- apply (separator_text_is_string ","%char); auto.
        -- apply (separator_text_is_string " "%char); auto.
    + destruct Hcase as [H|(Hne & Hns & Hconv)]; [discriminate|].
      apply orb_false_iff in Hsep. destruct Hsep as [Hc _].
      split; [now apply no_space_tight|]. split; [exact Hnl|].
      exists s. split; [now apply csv_reads_plain | exact Hconv].
Qed.

End Fields.

(** ** Joined texts *)

Lemma join_contains (c : ascii) (sep : string) (l : list string) :
  contains c sep = false ->
  Forall (fun t => contains c t = false) l ->
  contains c (join sep l) = false.
Proof.
  intros Hsep Hall. induction Hall as [|x l Hx Hl IH]; [reflexivity|].
  destruct l as [|y l]; [exact Hx|].
  rewrite join_cons2, !contains_app, Hx, Hsep. exact IH.
Qed.

Lemma tight_parts (s : string) :
  tight s = true -> s <> "" /\ starts_space s = false /\ ends_space s = false.
Proof.
  unfold tight. intros H.
  apply andb_true_iff in H. destruct H as [H He].
  apply andb_true_iff in H. destruct H as [Hn Hs].
  apply negb_true_iff in He, Hs.
  repeat split; auto. intros ->. discriminate.
Qed.

Lemma tight_of_parts (s : string) :
  s <> "" -> starts_space s = false -> ends_space s = false ->
  tight s = true.
Proof.
  intros Hn Hs He. unfold tight. rewrite Hs, He.
  now destruct s.
Qed.

Lemma starts_space_app (a b : string) :
  a <> "" -> starts_space (a ++ b) = starts_space a.
Proof. destruct a; [contradiction | reflexivity]. Qed.

Lemma join_tight (sep : string) (l : list string) :
  l <> [] ->
  Forall (fun t => tight t = true) l ->
  tight (join sep l) = true.
Proof.
  intros Hne Hall. induction Hall as [|x l Hx Hl IH]; [contradiction|].
  destruct (tight_parts x Hx) as (Hxn & Hxs & Hxe).
  destruct l as [|y l]; [exact Hx|].
  destruct (tight_parts _ (IH ltac:(discriminate))) as (Hjn & Hjs & Hje).
  rewrite join_cons2. apply tight_of_parts.
  - intros E. destruct x; [contradiction | discriminate].
  - now rewrite starts_space_app.
  - rewrite ends_space_app by now apply append_nonempty.
    now rewrite ends_space_app.
Qed.

(** ** The rows of a table *)

Section Table.
Context {F : Type} (py : PyRuntime F) (config : TOONConfig).

Lemma row_raws (vals : list (Value F)) :
  Forall (table_field py) vals ->
  exists raws,
    Forall2 csv_reads (map (tabular_field py) vals) raws
    /\ Forall2 (fun raw v => _convert_value py raw = Ok v) raws vals.
Proof.
  intros Hall. induction Hall as [|v vals Hv Hvals (raws & Hr & Hc)].
  - exists []. split; constructor.
  - destruct (table_field_text py v Hv) as (_ & _ & raw & Hread & Hconv).
    exists (raw :: raws). split; constructor; assumption.
Qed.

Lemma convert_fields_combine (columns raws : list string)
  (vals : list (Value F)) :
  Forall2 (fun raw v => _convert_value py raw = Ok v) raws vals ->
  convert_fields py (combine columns raws) = Ok (combine columns vals).
Proof.
  intros Hall. revert columns.
  induction Hall as [|raw v raws vals Hconv Hall IH]; intros [|c cs];
    try reflexivity.
  cbn [combine convert_fields]. rewrite Hconv. cbn [bind].
  now rewrite IH.
Qed.

Lemma row_texts (vals : list (Value F)) :
  Forall (table_field py) vals ->
  Forall (fun t => tight t = true) (map (tabular_field py) vals)
  /\ Forall (fun t => contains NL t = false) (map (tabular_field py) vals).
Proof.
  intros Hall. induction Hall as [|v vals Hv Hvals [IHt IHn]].
  - split; constructor.
  - destruct (table_field_text py v Hv) as (Ht & Hn & _).
    split; constructor; assumption.
Qed.

(** What the decoder makes of the line written for a row. *)
Lemma row_line_facts (columns : list string) (vals : list (Value F)) :
  NoDup columns -> columns <> [] ->
  length vals = length columns ->
  Forall (table_field py) vals ->
  contains NL (row_line py vals) = false
  /\ tight (join "," (map (tabular_field py) vals)) = true
  /\ strip (row_line py vals) = join "," (map (tabular_field py) vals)
  /\ convert_fields py
       (dict_of (combine columns
                   (_parse_csv_line
                      (join "," (map (tabular_field py) vals)))))
     = Ok (combine columns vals).
Proof.
  intros Hnd Hcols Hlen Hall.
  destruct (row_texts vals Hall) as [Htight Hnl].
  assert (Hne : map (tabular_field py) vals <> []).
  { destruct vals; [|discriminate]. destruct columns; [contradiction|].
    discriminate. }
  pose proof (join_tight "," _ Hne Htight) as Hrow.
  destruct (tight_parts _ Hrow) as (Hrn & Hrs & Hre).
  split; [|split; [exact Hrow|split]].
  - unfold row_line. rewrite contains_app.
    rewrite (join_contains NL "," _ eq_refl Hnl). reflexivity.
  - unfold row_line, strip. rewrite rstrip_id.
    + cbn [append lstrip]. change (isspace_char " ") with true.
      cbn iota. now apply lstrip_id.
    + now rewrite ends_space_app.
  - destruct (row_raws vals Hall) as (raws & Hread & Hconv).
    rewrite _parse_csv_line_scan, (csv_scan_join _ raws Hread Hne).
    cbn [app]. rewrite dict_of_combine.
    + now apply convert_fields_combine.
    + exact Hnd.
    + rewrite <- Hlen. apply Forall2_length in Hconv. exact Hconv.
Qed.

Lemma decode_rows_table (columns : list string)
  (table : list (list (Value F))) :
  NoDup columns -> columns <> [] ->
  Forall (fun vals => length vals = length columns
                      /\ Forall (table_field py) vals) table ->
  decode_rows py columns (map (row_line py) table)
  = Ok (table_rows columns table).
Proof.
  intros Hnd Hcols Hall.
  induction Hall as [|vals table [Hlen Hvals] Hall IH]; [reflexivity|].
  destruct (row_line_facts columns vals Hnd Hcols Hlen Hvals)
    as (_ & Htight & Hstrip & Hconv).
  cbn [map decode_rows]. rewrite Hstrip.
  destruct (tight_parts _ Htight) as (Hne & _ & _).
  destruct (join "," (map (tabular_field py) vals)) as [|c r] eqn:E;
    [contradiction|].
  cbn [is_empty]. rewrite Hconv. cbn [bind]. rewrite IH. reflexivity.
Qed.

End Table.

(** ** The keyed table, written and read *)

Lemma join_ends (sep : string) (l : list string) :
  l <> [] ->
  Forall (fun t => t <> "" /\ ends_space t = false) l ->
  join sep l <> "" /\ ends_space (join sep l) = false.
Proof.
  intros Hne Hall. induction Hall as [|x l [Hxn Hxe] Hl IH]; [contradiction|].
  destruct l as [|y l]; [now split|].
  destruct (IH ltac:(discriminate)) as [Hjn Hje].
  rewrite join_cons2. split.
  - destruct x; [contradiction | discriminate].
  - rewrite ends_space_app by now apply append_nonempty.
    now rewrite ends_space_app.
Qed.

Lemma column_ok_parts (col : string) :
  column_ok col = true ->
  tight col = true /\ contains NL col = false
  /\ contains ","%char col = false /\ contains "["%char col = false.
Proof.
  unfold column_ok. intros H.
  apply andb_true_iff in H. destruct H as [H H4].
  apply andb_true_iff in H. destruct H as [H H3].
  apply andb_true_iff in H. destruct H as [H1 H2].
  apply negb_true_iff in H2, H3, H4. auto.
Qed.

Lemma columns_facts (columns : list string) :
  columns <> [] ->
  Forall (fun c => column_ok c = true) columns ->
  HeaderPattern.dot_plus (join "," columns) = true
  /\ contains "["%char (join "," columns) = false
  /\ map strip (split ","%char (join "," columns)) = columns.
Proof.
  intros Hne Hall.
  assert (H : Forall (fun c => tight c = true) columns
              /\ Forall (fun c => contains NL c = false) columns
              /\ Forall (fun c => contains ","%char c = false) columns
              /\ Forall (fun c => contains "["%char c = false) columns).
  { clear Hne. induction Hall as [|c l Hc Hl (I1 & I2 & I3 & I4)].
    - repeat split; constructor.
    - destruct (column_ok_parts c Hc) as (H1 & H2 & H3 & H4).
      repeat split; constructor; assumption. }
  destruct H as (Ht & Hn & Hc & Hb).
  destruct (tight_parts _ (join_tight "," columns Hne Ht)) as (Hjn & _ & _).
  split; [|split].
  - unfold HeaderPattern.dot_plus.
    rewrite (join_contains NL "," columns eq_refl Hn).
    now destruct (join "," columns).
  - now apply join_contains.
  - change "," with (str1 ","%char) at 1. rewrite (split_join _ _ Hne Hc).
    clear Hne Hall Hn Hc Hb Hjn.
    induction Ht as [|c l Hc Hl IH]; [reflexivity|].
    cbn [map]. now rewrite (strip_tight c Hc), IH.
Qed.

Section RoundTrip.
Context {F : Type} (py : PyRuntime F) (config : TOONConfig).

Lemma rows_written (columns : list string) (table : list (list (Value F))) :
  NoDup columns ->
  Forall (fun vals => length vals = length columns) table ->
  flat_map
    (fun item =>
       match item with
       | Object o =>
           ["  " ++ join ","
              (map (fun col => tabular_field py (dict_get col (Str "") o))
                 columns)]
       | _ => []
       end)
    (table_rows columns table)
  = map (row_line py) table.
Proof.
  intros Hnd Hall. induction Hall as [|vals table Hlen Hall IH];
    [reflexivity|].
  cbn [table_rows map flat_map app]. fold (table_rows columns table).
  rewrite IH. f_equal. unfold row_line. do 2 f_equal.
  rewrite <- (map_map (fun col => dict_get col (Str "") (combine columns vals))
                (tabular_field py)).
  now rewrite (dict_get_combine (Str "") columns vals Hnd Hlen).
Qed.

(** The text written for a table under a key. *)
Lemma encode_table (key : string) (columns : list string)
  (table : list (list (Value F))) :
  NoDup columns -> table <> [] ->
  Forall (fun vals => length vals = length columns) table ->
  encode py config (Object [(key, Array (table_rows columns table))])
  = join (str1 NL)
      ((key ++ header_tail (str_int (Z.of_nat (length table)))
                 (join "," columns))
       :: map (row_line py) table).
Proof.
  intros Hnd Hne Hall.
  pose proof (rows_written columns table Hnd Hall) as Hrows.
  destruct table as [|vals table]; [contradiction|].
  inversion Hall as [|? ? Hlen Hrest]; subst.
  cbn [encode]. unfold _encode_object. cbn [is_nil].
  change (_is_tabular [(key, Array (table_rows columns (vals :: table)))])
    with true. cbn iota.
  unfold _encode_tabular_object.
  cbn [table_rows map find_array].
  fold (table_rows columns table).
  rewrite (keys_combine columns vals Hlen).
  change (Object (combine columns vals) :: table_rows columns table)
    with (table_rows columns (vals :: table)).
  rewrite Hrows. unfold table_rows. rewrite length_map.
  unfold header_tail. cbn [map]. rewrite join_cons2.
  now rewrite !append_assoc.
Qed.

Lemma row_lines_shape (columns : list string)
  (table : list (list (Value F))) :
  NoDup columns -> columns <> [] ->
  Forall (fun vals => length vals = length columns
                      /\ Forall (table_field py) vals) table ->
  Forall (fun l => l <> "" /\ ends_space l = false
                   /\ contains NL l = false)
    (map (row_line py) table).
Proof.
  intros Hnd Hcols Hall. induction Hall as [|vals t [Hlen Hv] Hall IH];
    [constructor|].
  destruct (row_line_facts py columns vals Hnd Hcols Hlen Hv)
    as (Hnl & Ht & _ & _).
  destruct (tight_parts _ Ht) as (Hn & _ & He).
  constructor; [|exact IH]. unfold row_line in *.
  split; [discriminate|]. split; [|exact Hnl].
  now rewrite ends_space_app.
Qed.

(** X5: a table under a key, written with the repaired header line of
    [_encode_tabular_object], is read back as it was written.  There is
    at least one column and at least one row; the key and the column
    names are not empty and neither begin nor end with white space; the
    key holds no newline, a column name no newline, comma or opening
    bracket; the columns are distinct; every row has one value for every
    column, and the values are integers from zero up, Booleans, or
    strings without quote and newline that are wrapped or that the
    decoder leaves as strings. *)
Theorem keyed_table_round_trip (key : string) (columns : list string)
  (table : list (list (Value F))) :
  tight key = true -> contains NL key = false ->
  columns <> [] -> NoDup columns ->
  Forall (fun c => column_ok c = true) columns ->
  table <> [] ->
  Forall (fun vals => length vals = length columns
                      /\ Forall (table_field py) vals) table ->
  decode py
    (encode py config (Object [(key, Array (table_rows columns table))]))
  = Ok (Object [(key, Array (table_rows columns table))]).
Proof.
  intros Hkey Hknl Hcols Hnd Hcok Htab Hall.
  assert (Hlens : Forall (fun vals => length vals = length columns) table).
  { eapply Forall_impl; [|exact Hall]. now intros vals [H _]. }
  rewrite (encode_table key columns table Hnd Htab Hlens).
  set (count := str_int (Z.of_nat (length table))).
  set (cols := join "," columns).
  set (header := key ++ header_tail count cols).
  destruct (columns_facts columns Hcols Hcok) as (Hdot & Hbr & Hsplit).
  fold cols in Hdot, Hbr.
  destruct (int_text_parses (Z.of_nat (length table)) (Nat2Z.is_nonneg _))
    as (Hdec & Hdig & _). fold count in Hdec, Hdig.
  assert (Hcne : count <> "").
  { intros E. rewrite E in Hdig. discriminate. }
  destruct (tight_parts key Hkey) as (Hkn & Hks & Hke).
  assert (Hkdot : HeaderPattern.dot_plus key = true).
  { unfold HeaderPattern.dot_plus. rewrite Hknl. now destruct key. }
  pose proof (row_lines_shape columns table Hnd Hcols Hall) as Hrow.
  assert (Hhead : header <> "" /\ ends_space header = false
                  /\ contains NL header = false).
  { unfold header, header_tail. split; [|split].
    - destruct key; [contradiction | discriminate].
    - replace (key ++ "[" ++ count ++ "]{" ++ cols ++ "}:")
        with ((key ++ "[" ++ count ++ "]{" ++ cols ++ "}") ++ ":")
        by (now rewrite !append_assoc).
      now rewrite ends_space_app.
    - rewrite !contains_app, Hknl.
      rewrite (all_chars_contains isdecimal_char NL count Hdec)
        by reflexivity.
      unfold HeaderPattern.dot_plus in Hdot.
      apply andb_true_iff in Hdot. destruct Hdot as [_ Hcnl].
      apply negb_true_iff in Hcnl. now rewrite Hcnl. }
  set (lines := header :: map (row_line py) table).
  assert (Hlines : Forall (fun l => l <> "" /\ ends_space l = false) lines
                   /\ Forall (fun l => contains NL l = false) lines).
  { split; constructor; try tauto.
    - eapply Forall_impl; [|exact Hrow]. cbn. tauto.
    - eapply Forall_impl; [|exact Hrow]. cbn. tauto. }
  destruct Hlines as [Hends Hnls].
  destruct (join_ends (str1 NL) lines ltac:(discriminate) Hends)
    as [Htn Hte].
  assert (Hstrip : strip (join (str1 NL) lines) = join (str1 NL) lines).
  { unfold strip. rewrite (rstrip_id _ Hte). apply lstrip_id.
    unfold lines. destruct (map (row_line py) table) as [|l ls].
    - cbn [join String.concat]. unfold header.
      now rewrite starts_space_app.
    - rewrite join_cons2. unfold header.
      now rewrite append_assoc, starts_space_app. }
  unfold decode. rewrite Hstrip.
  rewrite (split_join NL lines ltac:(discriminate) Hnls).
  unfold lines at 1. unfold header at 1.
  rewrite header_detected. unfold lines, _decode_tabular, header.
  rewrite (header_matches key count cols Hkdot Hcne Hdec Hdot Hbr).
  unfold cols. rewrite Hsplit.
  rewrite (decode_rows_table py columns table Hnd Hcols Hall).
  cbn [bind]. now rewrite (strip_tight key Hkey).
Qed.

End RoundTrip.

Lemma keyed_table_round_trip_witness :
  decode py_literal
    (encode py_literal default_config
       (Object [("team members",
                 Array (table_rows ["id"; "name"; "active"]
                          [[Int 1; Str "Doe, Jane"; Bool true];
                           [Int 2; Str "Bob"; Bool false]]))]))
  = Ok (Object [("team members",
                 Array [Object [("id", Int 1); ("name", Str "Doe, Jane");
                                ("active", Bool true)];
                        Object [("id", Int 2); ("name", Str "Bob");
                                ("active", Bool false)]])]).
Proof.
  apply (keyed_table_round_trip py_literal default_config "team members"
           ["id"; "name"; "active"]
           [[Int 1; Str "Doe, Jane"; Bool true];
            [Int 2; Str "Bob"; Bool false]]);
    try reflexivity; try discriminate.
  - repeat constructor; cbn; intuition discriminate.
  - repeat constructor.
  - apply Forall_cons; [|apply Forall_cons; [|apply Forall_nil]];
      (split; [reflexivity|]);
      repeat (apply Forall_cons || apply Forall_nil);
      cbn; try lia; try exact I.
    split; [reflexivity|]. split; [reflexivity|].
    right. repeat split; (discriminate || reflexivity).
Defined.

(** ** What the decoder builds *)

Section Shapes.
Context {F : Type} (py : PyRuntime F).

Lemma convert_keyword_scalar (value : string) (v : Value F) :
  convert_keyword py value = Ok v -> is_scalar v = true.
Proof.
  unfold convert_keyword, convert_number.
  repeat match goal with
         | |- context [if ?b then _ else _] => destruct b
         | |- context [match ?o with Some _ => _ | None => _ end] =>
             destruct o
         end;
    intros H; inversion H; reflexivity.
Qed.

Lemma _parse_value_scalar (value_list : list string) (v : Value F) :
  _parse_value py value_list = Ok v -> is_scalar v = true.
Proof.
  unfold _parse_value. destruct value_list as [|value [|w l]].
  - intros [= <-]. reflexivity.
  - destruct (startswith value (str1 DQ) && endswith_char value DQ).
    + intros [= <-]. reflexivity.
    + apply convert_keyword_scalar.
  - intros [= <-]. reflexivity.
Qed.

Lemma dict_set_values (P : Value F -> Prop) (k : string) (v : Value F)
  (d : list (string * Value F)) :
  P v -> Forall P (values d) -> Forall P (values (dict_set k v d)).
Proof.
  intros Hv. induction d as [|[c x] d IH]; cbn; intros H.
  - now constructor.
  - inversion H; subst. destruct (String.eqb c k); cbn; constructor; auto.
Qed.

Lemma kv_save_scalars (st : KVState) (res : list (string * Value F)) :
  Forall (fun x => is_scalar x = true) (values (result st)) ->
  kv_save py st = Ok res ->
  Forall (fun x => is_scalar x = true) (values res).
Proof.
  intros Hst. unfold kv_save. destruct (current_key st) as [k|].
  - destruct (_parse_value py (current_value st)) as [v|e] eqn:E; cbn;
      [|discriminate].
    intros [= <-]. apply dict_set_values; [|exact Hst].
    now apply _parse_value_scalar in E.
  - now intros [= <-].
Qed.

Lemma kv_step_scalars (st st' : KVState) (line : string) :
  Forall (fun x => is_scalar x = true) (values (result st)) ->
  kv_step py st line = Ok st' ->
  Forall (fun x => is_scalar x = true) (values (result st')).
Proof.
  intros Hst. unfold kv_step.
  destruct (is_empty (rstrip line)).
  - destruct (in_multiline st); intros [= <-]; exact Hst.
  - destruct (contains ":"%char (rstrip line) && _ && _).
    + destruct (kv_save py st) as [res|e] eqn:E; cbn; [|discriminate].
      pose proof (kv_save_scalars st res Hst E) as Hres.
      destruct (split_once ":"%char (rstrip line)) as [key_part rest].
      destruct (negb (is_empty (strip rest))); intros [= <-]; exact Hres.
    + intros [= <-]. exact Hst.
Qed.

Lemma kv_loop_scalars (lines : list string) (st st' : KVState) :
  Forall (fun x => is_scalar x = true) (values (result st)) ->
  kv_loop py st lines = Ok st' ->
  Forall (fun x => is_scalar x = true) (values (result st')).
Proof.
  revert st. induction lines as [|line lines IH]; cbn; intros st Hst.
  - now intros [= <-].
  - destruct (kv_step py st line) as [st1|e] eqn:E; cbn; [|discriminate].
    apply IH. now apply (kv_step_scalars st st1 line).
Qed.

Lemma _decode_key_value_scalars (lines : list string) (v : Value F) :
  _decode_key_value py lines = Ok v ->
  exists entries,
    v = Object entries
    /\ Forall (fun x => is_scalar x = true) (values entries).
Proof.
  unfold _decode_key_value.
  destruct (kv_loop py kv_init lines) as [st|e] eqn:E; cbn; [|discriminate].
  destruct (kv_save py st) as [res|e] eqn:E2; cbn; [|discriminate].
  intros [= <-]. exists res. split; [reflexivity|].
  apply (kv_save_scalars st res); [|exact E2].
  apply (kv_loop_scalars lines kv_init st); [constructor | exact E].
Qed.

Lemma convert_fields_scalars (obj : list (string * string))
  (fields : list (string * Value F)) :
  convert_fields py obj = Ok fields ->
  keys fields = keys obj
  /\ Forall (fun x => is_scalar x = true) (values fields).
Proof.
  revert fields. induction obj as [|[k t] obj IH]; cbn; intros fields.
  - intros [= <-]. split; [reflexivity | constructor].
  - destruct (_convert_value py t) as [v|e] eqn:E; cbn; [|discriminate].
    destruct (convert_fields py obj) as [rest|e]; cbn; [|discriminate].
    intros [= <-]. destruct (IH rest eq_refl) as [Hk Hv].
    split; [cbn; now f_equal|]. cbn. constructor; [|exact Hv].
    now apply convert_keyword_scalar in E.
Qed.

Lemma dict_set_keys_incl {V : Type} (k : string) (v : V)
  (d : list (string * V)) (l : list string) :
  In k l -> incl (keys d) l -> incl (keys (dict_set k v d)) l.
Proof.
  intros Hk. induction d as [|[c x] d IH]; cbn; intros H.
  - intros y [<-|[]]. exact Hk.
  - destruct (String.eqb c k); cbn.
    + intros y [<-|Hy]; [exact Hk | apply H; now right].
    + intros y [<-|Hy]; [apply H; now left|].
      apply IH; [|exact Hy]. intros z Hz. apply H. now right.
Qed.

Lemma dict_set_keys_nodup {V : Type} (k : string) (v : V)
  (d : list (string * V)) :
  NoDup (keys d) -> NoDup (keys (dict_set k v d)).
Proof.
  induction d as [|[c x] d IH]; cbn; intros H.
  - constructor; [tauto | constructor].
  - inversion H as [|? ? Hc Hd]; subst.
    destruct (String.eqb_spec c k) as [->|Hne]; cbn.
    + now constructor.
    + constructor; [|now apply IH].
      intros Hin. apply Hc.
      clear -Hin Hne. induction d as [|[c' x'] d IH]; cbn in *.
      * destruct Hin as [->|[]]. contradiction.
      * destruct (String.eqb_spec c' k) as [->|Hne']; cbn in *.
        -- destruct Hin as [->|Hin]; [contradiction | now right].
        -- destruct Hin as [->|Hin]; [now left | right; now apply IH].
Qed.

Lemma dict_of_keys {V : Type} (pairs : list (string * V)) :
  NoDup (keys (dict_of pairs)) /\ incl (keys (dict_of pairs)) (keys pairs).
Proof.
  unfold dict_of.
  assert (H : forall acc,
             NoDup (keys acc) ->
             NoDup (keys (fold_left
                            (fun d kv => dict_set (fst kv) (snd kv) d)
                            pairs acc))
             /\ incl (keys (fold_left
                              (fun d kv => dict_set (fst kv) (snd kv) d)
                              pairs acc))
                  (keys acc ++ keys pairs)).
  { induction pairs as [|[k v] pairs IH]; intros acc Hacc; cbn.
    - split; [exact Hacc|]. rewrite app_nil_r. apply incl_refl.
    - destruct (IH (dict_set k v acc) (dict_set_keys_nodup k v acc Hacc))
        as [Hn Hi].
      split; [exact Hn|]. intros y Hy. apply Hi in Hy.
      apply in_app_or in Hy. destruct Hy as [Hy|Hy].
      + apply (dict_set_keys_incl k v acc (keys acc ++ k :: keys pairs));
          [apply in_or_app; right; now left | | exact Hy].
        intros z Hz. apply in_or_app. now left.
      + apply in_or_app. right. now right. }
  destruct (H [] (NoDup_nil _)) as [Hn Hi]. split; [exact Hn|].
  exact Hi.
Qed.

Lemma keys_combine_incl {V : Type} (columns : list string) (vals : list V) :
  incl (keys (combine columns vals)) columns.
Proof.
  revert vals. induction columns as [|c cs IH]; intros [|v vs]; cbn;
    intros y Hy; try contradiction.
  destruct Hy as [<-|Hy]; [now left | right; now apply (IH vs)].
Qed.

(** The rows of the tabular path. *)
Lemma decode_rows_shape (columns lines : list string)
  (data : list (Value F)) :
  decode_rows py columns lines = Ok data ->
  Forall (fun row =>
            exists fields,
              row = Object fields
              /\ Forall (fun x => is_scalar x = true) (values fields)
              /\ NoDup (keys fields)
              /\ incl (keys fields) columns)
    data.
Proof.
  revert data. induction lines as [|line lines IH]; cbn; intros data.
  - intros [= <-]. constructor.
  - destruct (is_empty (strip line)); [apply IH|].
    destruct (convert_fields py _) as [obj|e] eqn:E; cbn; [|discriminate].
    destruct (decode_rows py columns lines) as [rest|e]; cbn;
      [|discriminate].
    intros [= <-]. constructor; [|now apply IH].
    exists obj. destruct (convert_fields_scalars _ _ E) as [Hk Hv].
    destruct (dict_of_keys (combine columns (_parse_csv_line (strip line))))
      as [Hn Hi].
    split; [reflexivity|]. split; [exact Hv|]. rewrite Hk.
    split; [exact Hn|].
    intros y Hy. apply Hi in Hy. now apply keys_combine_incl in Hy.
Qed.

(** X6: whatever [decode] returns is an Object whose values are scalars,
    or Arrays of Objects whose values are scalars: the decoder builds no
    deeper structure, and on the key/value path no structure at all under
    a key. *)
Theorem decode_builds_flat_values (toon_str : string) (v : Value F) :
  decode py toon_str = Ok v ->
  exists entries, v = Object entries /\ Forall flat_value (values entries).
Proof.
  assert (Hkv : forall lines,
             _decode_key_value py lines = Ok v ->
             exists entries,
               v = Object entries /\ Forall flat_value (values entries)).
  { intros lines H. apply _decode_key_value_scalars in H.
    destruct H as (entries & -> & Hs). exists entries.
    split; [reflexivity|].
    eapply Forall_impl; [|exact Hs]. intros x Hx. now left. }
  unfold decode.
  destruct (split NL (strip toon_str)) as [|first_line rest] eqn:E.
  - now apply split_nonempty in E.
  - destruct (_is_tabular_format first_line); [|apply Hkv].
    unfold _decode_tabular.
    destruct (HeaderPattern.match_header first_line) as [[key cols]|];
      [|apply Hkv].
    destruct (decode_rows py _ rest) as [data|e] eqn:D; cbn; [|discriminate].
    intros [= <-]. eexists. split; [reflexivity|].
    cbn. constructor; [|constructor]. right. exists data.
    split; [reflexivity|]. apply decode_rows_shape in D.
    eapply Forall_impl; [|exact D].
    intros row (fields & -> & Hs & _). now exists fields.
Qed.

(** X7: every row Object of the tabular path has distinct keys, all of
    them column names of the header, and scalar values; a row never has
    more entries than there are columns. *)
Theorem tabular_rows_fit_columns (toon_str header : string)
  (rows : list string) (key columns_str : string) (data : list (Value F)) :
  split NL (strip toon_str) = header :: rows ->
  _is_tabular_format header = true ->
  HeaderPattern.match_header header = Some (key, columns_str) ->
  decode py toon_str = Ok (Object [(strip key, Array data)]) ->
  Forall (fun row =>
            exists fields,
              row = Object fields
              /\ Forall (fun x => is_scalar x = true) (values fields)
              /\ NoDup (keys fields)
              /\ incl (keys fields)
                   (map strip (split ","%char columns_str))
              /\ (length fields
                  <= length (split ","%char columns_str))%nat)
    data.
Proof.
  intros Hsplit Htab Hmatch. unfold decode. rewrite Hsplit, Htab.
  unfold _decode_tabular. rewrite Hmatch.
  destruct (decode_rows py _ rows) as [d|e] eqn:D; cbn; [|discriminate].
  intros [= <-]. apply decode_rows_shape in D.
  eapply Forall_impl; [|exact D].
  intros row (fields & -> & Hs & Hn & Hi). exists fields.
  repeat split; auto.
  pose proof (NoDup_incl_length Hn Hi) as Hlen.
  unfold keys in Hlen. now rewrite !length_map in Hlen.
Qed.

End Shapes.

Lemma decode_builds_flat_values_witness :
  decode py_literal keyed_text = Ok (Object [("items", Array two_users)])
  /\ exists entries,
       Object [("items", Array two_users)] = Object entries
       /\ Forall (@flat_value string) (values entries).
Proof.
  split; [reflexivity|].
  apply (decode_builds_flat_values py_literal keyed_text). reflexivity.
Defined.

Lemma tabular_rows_fit_columns_witness :
  Forall (fun row =>
            exists fields,
              row = Object fields
              /\ Forall (fun x => is_scalar x = true) (values fields)
              /\ NoDup (keys fields)
              /\ incl (keys fields) ["id"; "name"]
              /\ (length fields <= 2)%nat)
    (@two_users string).
Proof.
  apply (tabular_rows_fit_columns py_literal keyed_text
           "items[2]{id,name}:" ["  1,Alice"; "  2,Bob"]
           "items" "id,name" two_users); reflexivity.
Defined.

(** ** Rows that are skipped, counts that are not read *)

Section Tolerance.
Context {F : Type} (py : PyRuntime F).

Lemma decode_rows_skip (columns before after : list string)
  (line : string) :
  is_empty (strip line) = true ->
  decode_rows py columns (before ++ line :: after)
  = decode_rows py columns (before ++ after).
Proof.
  intros Hblank. induction before as [|l before IH]; cbn [app decode_rows].
  - now rewrite Hblank.
  - now rewrite IH.
Qed.

(** X8: under a header that the pattern matches, a line of white space
    among the rows changes nothing of what the tabular path returns. *)
Theorem blank_row_is_skipped (header key columns_str line : string)
  (before after : list string) :
  HeaderPattern.match_header header = Some (key, columns_str) ->
  is_empty (strip line) = true ->
  _decode_tabular py (header :: before ++ line :: after)
  = _decode_tabular py (header :: before ++ after).
Proof.
  intros Hmatch Hblank. unfold _decode_tabular. rewrite Hmatch.
  now rewrite (decode_rows_skip _ before after line Hblank).
Qed.

(** X9: the count between the brackets of a header with a key is not
    used: with any other decimal digits in its place the tabular path
    returns the same.  The key and the column list are not empty and
    hold no newline, the column list holds no opening bracket, and both
    counts are runs of decimal digits that are not empty. *)
Theorem header_count_is_not_read (key count count' cols : string)
  (rows : list string) :
  HeaderPattern.dot_plus key = true ->
  HeaderPattern.dot_plus cols = true ->
  contains "["%char cols = false ->
  count <> "" -> all_chars isdecimal_char count = true ->
  count' <> "" -> all_chars isdecimal_char count' = true ->
  _decode_tabular py ((key ++ header_tail count cols) :: rows)
  = _decode_tabular py ((key ++ header_tail count' cols) :: rows).
Proof.
  intros Hkey Hcols Hbr Hn Hd Hn' Hd'. unfold _decode_tabular.
  rewrite (header_matches key count cols Hkey Hn Hd Hcols Hbr).
  now rewrite (header_matches key count' cols Hkey Hn' Hd' Hcols Hbr).
Qed.

End Tolerance.

Lemma blank_row_is_skipped_witness :
  _decode_tabular py_literal
    ["items[2]{id,name}:"; "  1,Alice"; "   "; "  2,Bob"]
  = _decode_tabular py_literal ["items[2]{id,name}:"; "  1,Alice"; "  2,Bob"].
Proof.
  apply (blank_row_is_skipped py_literal "items[2]{id,name}:" "items"
           "id,name" "   " ["  1,Alice"] ["  2,Bob"]); reflexivity.
Defined.

Lemma header_count_is_not_read_witness :
  _decode_tabular py_literal ["items[2]{id,name}:"; "  1,Alice"; "  2,Bob"]
  = _decode_tabular py_literal ["items[70]{id,name}:"; "  1,Alice"; "  2,Bob"].
Proof.
  apply (header_count_is_not_read py_literal "items" "2" "70" "id,name");
    (reflexivity || discriminate).
Defined.

(** ** Key/value lines, written and read *)

Lemma endswith_char_last (x : string) (c d : ascii) :
  endswith_char (x ++ str1 c) d = Ascii.eqb c d.
Proof.
  induction x as [|a x IH]; [reflexivity|]. cbn [append endswith_char].
  destruct (x ++ str1 c) eqn:E; [now destruct x | exact IH].
Qed.

Lemma endswith_char_app_r (a b : string) (c : ascii) :
  b <> "" -> endswith_char (a ++ b) c = endswith_char b c.
Proof.
  intros Hb. induction a as [|x a IH]; [reflexivity|].
  cbn [append endswith_char]. destruct (a ++ b) eqn:E.
  - now apply append_nonempty in E.
  - exact IH.
Qed.

Lemma all_chars_endswith (p : ascii -> bool) (c : ascii) (s : string) :
  all_chars p s = true -> p c = false -> endswith_char s c = false.
Proof.
  intros Hall Hc. induction s as [|x s IH]; [reflexivity|].
  cbn in Hall. apply andb_true_iff in Hall. destruct Hall as [Hx Hs].
  cbn [endswith_char]. destruct s as [|y s].
  - destruct (Ascii.eqb_spec x c); [congruence | reflexivity].
  - now apply IH.
Qed.

Lemma escape_no_newline (s : string) : contains NL (escape s) = false.
Proof.
  induction s as [|c s IH]; [reflexivity|].
  rewrite escape_cons, contains_app, IH, orb_false_r.
  unfold escape_char. destruct (Ascii.eqb c DQ) eqn:Hq.
  - reflexivity.
  - destruct (Ascii.eqb c NL) eqn:Hn; [reflexivity|].
    cbn. now rewrite Hn.
Qed.

Lemma split_once_key (k rest : string) :
  contains ":"%char k = false ->
  split_once ":"%char (k ++ String ":"%char rest) = (k, rest).
Proof.
  induction k as [|x k IH]; cbn [append contains split_once]; intros H.
  - reflexivity.
  - apply orb_false_iff in H. destruct H as [Hx Hk].
    now rewrite Hx, (IH Hk).
Qed.

Lemma startswith_space_false (line p : string) :
  line <> "" -> starts_space line = false -> starts_space p = true ->
  startswith line p = false.
Proof.
  unfold startswith. destruct line as [|x line]; [contradiction|].
  destruct p as [|c p]; [discriminate|]. cbn [starts_space].
  intros _ Hx Hc. rewrite prefix_cons.
  destruct (Ascii.eqb_spec c x) as [->|]; [congruence | reflexivity].
Qed.

Lemma key_ok_parts (k : string) :
  key_ok k = true ->
  tight k = true /\ contains NL k = false /\ contains ":"%char k = false.
Proof.
  unfold key_ok. intros H.
  apply andb_true_iff in H. destruct H as [H H3].
  apply andb_true_iff in H. destruct H as [H1 H2].
  apply negb_true_iff in H2, H3. auto.
Qed.

Lemma text_ok_parts (t : string) :
  text_ok t = true ->
  tight t = true /\ contains NL t = false
  /\ endswith_char t ":"%char = false.
Proof.
  unfold text_ok. intros H.
  apply andb_true_iff in H. destruct H as [H H3].
  apply andb_true_iff in H. destruct H as [H1 H2].
  apply negb_true_iff in H2, H3. auto.
Qed.

(** What the loop needs to know of a written line. *)
Lemma kv_line_facts (k t : string) :
  key_ok k = true -> text_ok t = true ->
  let line := k ++ ": " ++ t in
  rstrip line = line
  /\ is_empty line = false
  /\ contains ":"%char line = true
  /\ startswith line "  " = false
  /\ startswith line (str1 TAB) = false
  /\ split_once ":"%char line = (k, String " " t)
  /\ strip (String " " t) = t
  /\ starts_space line = false
  /\ ends_space line = false
  /\ contains NL line = false
  /\ endswith_char line ":"%char = false.
Proof.
  intros Hk Ht line.
  destruct (key_ok_parts k Hk) as (Hkt & Hkn & Hkc).
  destruct (text_ok_parts t Ht) as (Htt & Htn & Htc).
  destruct (tight_parts k Hkt) as (Hk0 & Hks & _).
  destruct (tight_parts t Htt) as (Ht0 & Hts & Hte).
  assert (Hne : line <> "").
  { unfold line. destruct k; [contradiction | discriminate]. }
  assert (Hss : starts_space line = false).
  { unfold line. now rewrite starts_space_app. }
  assert (Hes : ends_space line = false).
  { unfold line. rewrite ends_space_app by discriminate.
    now rewrite (ends_space_app ": " t). }
  repeat split.
  - now apply rstrip_id.
  - destruct line; [contradiction | reflexivity].
  - unfold line. rewrite contains_app. cbn [append contains].
    rewrite Ascii.eqb_refl. cbn [orb]. apply orb_true_r.
  - now apply startswith_space_false.
  - now apply startswith_space_false.
  - unfold line. cbn [append]. now apply split_once_key.
  - unfold strip. rewrite rstrip_id.
    + cbn. now apply lstrip_id.
    + change (String " " t) with (" " ++ t). now rewrite ends_space_app.
  - exact Hss.
  - exact Hes.
  - unfold line. rewrite !contains_app, Hkn, Htn. reflexivity.
  - unfold line. rewrite endswith_char_app_r by discriminate.
    now rewrite (endswith_char_app_r ": " t).
Qed.

Section KeyValue.
Context {F : Type} (py : PyRuntime F) (txt : Value F -> string).

(** One turn of the key/value loop on a written line. *)
Lemma kv_step_line (st : KVState) (kv : string * Value F) :
  entry_ok py txt kv ->
  kv_step py st (kv_line txt kv)
  = (res <- kv_save py st ;;
     Ok {| result := res;
           current_key := Some (fst kv);
           current_value := [txt (snd kv)];
           in_multiline := false |}).
Proof.
  intros (Hk & Ht & _). destruct kv as [k v]. cbn [fst snd] in *.
  destruct (kv_line_facts k (txt v) Hk Ht)
    as (H1 & H2 & H3 & H4 & H5 & H6 & H7 & _).
  destruct (key_ok_parts k Hk) as (Hkt & _ & _).
  destruct (text_ok_parts _ Ht) as (Htt & _ & _).
  destruct (tight_parts _ Htt) as (Ht0 & _ & _).
  unfold kv_step, kv_line. cbn [fst snd]. cbv zeta.
  rewrite H1, H2, H3, H4, H5. cbn [negb andb]. rewrite H6, H7.
  rewrite (strip_tight k Hkt).
  destruct (txt v); [contradiction | reflexivity].
Qed.

(** The loop from a state that holds the entries [done] and has just read
    the line of [kv]. *)
Lemma kv_loop_lines (rest done : list (string * Value F))
  (kv : string * Value F) :
  Forall (entry_ok py txt) (kv :: rest) ->
  NoDup (keys (done ++ kv :: rest)) ->
  (st <- kv_loop py
           {| result := done;
              current_key := Some (fst kv);
              current_value := [txt (snd kv)];
              in_multiline := false |}
           (map (kv_line txt) rest) ;;
   kv_save py st)
  = Ok (done ++ kv :: rest)%list.
Proof.
  revert done kv. induction rest as [|kv' rest IH]; intros done kv Hall Hnd.
  - inversion Hall as [|? ? (_ & _ & Hparse) _]; subst.
    cbn [map kv_loop bind]. unfold kv_save.
    cbn [current_key current_value result]. rewrite Hparse. cbn [bind].
    destruct kv as [k v]. cbn [fst snd]. rewrite dict_set_fresh; [reflexivity|].
    unfold keys in Hnd. rewrite map_app in Hnd. cbn in Hnd.
    apply NoDup_remove_2 in Hnd. rewrite app_nil_r in Hnd. exact Hnd.
  - inversion Hall as [|? ? Hkv Hrest]; subst.
    inversion Hrest as [|? ? Hkv' _]; subst.
    destruct Hkv as (_ & _ & Hparse).
    cbn [map kv_loop]. rewrite (kv_step_line _ kv' Hkv').
    unfold kv_save at 1. cbn [current_key current_value result].
    rewrite Hparse. cbn [bind].
    destruct kv as [k v]. cbn [fst snd].
    assert (Hfresh : ~ In k (keys done)).
    { unfold keys in Hnd. rewrite map_app in Hnd. cbn in Hnd.
      apply NoDup_remove_2 in Hnd. intros Hin. apply Hnd.
      apply in_or_app. now left. }
    rewrite (dict_set_fresh k v done Hfresh).
    rewrite (IH (done ++ [(k, v)])%list kv' Hrest).
    + now rewrite <- app_assoc.
    + now rewrite <- app_assoc.
Qed.

(** The text made of the lines of the entries decodes to the entries. *)
Lemma decode_kv_lines (entries : list (string * Value F)) :
  entries <> [] ->
  NoDup (keys entries) ->
  Forall (entry_ok py txt) entries ->
  decode py (join (str1 NL) (map (kv_line txt) entries))
  = Ok (Object entries).
Proof.
  intros Hne Hnd Hall.
  assert (Hlines : Forall (fun l => (l <> "" /\ ends_space l = false)
                                    /\ contains NL l = false)
                     (map (kv_line txt) entries)).
  { clear Hne Hnd. induction Hall as [|[k v] l (Hk & Ht & _) Hl IH];
      [constructor|].
    cbn [map]. constructor; [|exact IH]. cbn [fst snd] in *.
    destruct (kv_line_facts k (txt v) Hk Ht)
      as (_ & H2 & _ & _ & _ & _ & _ & _ & H9 & H10 & _).
    unfold kv_line. cbn [fst snd]. repeat split; auto.
    intros E. rewrite E in H2. discriminate. }
  destruct entries as [|[k v] rest]; [contradiction|].
  inversion Hall as [|? ? Hkv Hrest]; subst.
  pose proof Hkv as (Hk & Ht & Hparse). cbn [fst snd] in Hk, Ht, Hparse.
  destruct (kv_line_facts k (txt v) Hk Ht)
    as (_ & _ & _ & _ & _ & _ & _ & H8 & _ & _ & H11).
  set (lines := map (kv_line txt) ((k, v) :: rest)) in *.
  assert (Hends : Forall (fun l => l <> "" /\ ends_space l = false) lines).
  { eapply Forall_impl; [|exact Hlines]. cbn. tauto. }
  assert (Hnls : Forall (fun l => contains NL l = false) lines).
  { eapply Forall_impl; [|exact Hlines]. cbn. tauto. }
  destruct (join_ends (str1 NL) lines ltac:(discriminate) Hends)
    as [_ Hte].
  assert (Hstrip : strip (join (str1 NL) lines) = join (str1 NL) lines).
  { unfold strip. rewrite (rstrip_id _ Hte). apply lstrip_id.
    unfold lines. cbn [map]. destruct (map (kv_line txt) rest) as [|l ls].
    - exact H8.
    - rewrite join_cons2. unfold kv_line at 1. cbn [fst snd].
      rewrite starts_space_app; [exact H8|].
      intros E. destruct k; discriminate E. }
  unfold decode. rewrite Hstrip.
  rewrite (split_join NL lines ltac:(discriminate) Hnls).
  unfold lines at 1. cbn [map]. unfold kv_line at 1. cbn [fst snd].
  unfold _is_tabular_format. rewrite H11, andb_false_r.
  unfold _decode_key_value, lines. cbn [map kv_loop].
  rewrite (kv_step_line kv_init (k, v) Hkv).
  change (kv_save py kv_init) with (Ok (@nil (string * Value F))).
  cbn [bind fst snd].
  pose proof (kv_loop_lines rest [] (k, v) Hall Hnd) as Hloop.
  cbn [fst snd app] in Hloop.
  destruct (kv_loop py _ (map (kv_line txt) rest)) as [st|e];
    cbn [bind] in Hloop |- *; [|discriminate].
  now rewrite Hloop.
Qed.

End KeyValue.

(** ** Flat Objects and arrays of scalars *)

Lemma int_text_ok (n : Z) :
  (0 <= n)%Z ->
  text_ok (str_int n) = true /\ key_ok (str_int n) = true.
Proof.
  intros Hn. destruct (int_text_parses n Hn) as (Hdec & Hdig & _).
  assert (Hne : str_int n <> "").
  { intros E. rewrite E in Hdig. discriminate. }
  assert (Ht : tight (str_int n) = true).
  { apply no_space_tight; [exact Hne|].
    apply (all_chars_impl isdecimal_char);
      [apply decimal_not_space | exact Hdec]. }
  unfold text_ok, key_ok. rewrite Ht.
  rewrite (all_chars_contains isdecimal_char NL _ Hdec) by reflexivity.
  rewrite (all_chars_contains isdecimal_char ":"%char _ Hdec) by reflexivity.
  rewrite (all_chars_endswith isdecimal_char ":"%char _ Hdec) by reflexivity.
  split; reflexivity.
Qed.

Lemma quoted_text_ok (s : string) : text_ok (quoted (escape s)) = true.
Proof.
  unfold text_ok. rewrite tight_quoted. unfold quoted.
  rewrite endswith_char_last.
  cbn [append contains]. rewrite contains_app, escape_no_newline.
  reflexivity.
Qed.

Lemma str_int_inj (n m : Z) :
  (0 <= n)%Z -> (0 <= m)%Z -> str_int n = str_int m -> n = m.
Proof.
  intros Hn Hm E.
  destruct (int_text_parses n Hn) as (_ & _ & Hin).
  destruct (int_text_parses m Hm) as (_ & _ & Him).
  rewrite E in Hin. congruence.
Qed.

Lemma NoDup_map_injective {A B : Type} (f : A -> B) (l : list A) :
  (forall x y, f x = f y -> x = y) -> NoDup l -> NoDup (map f l).
Proof.
  intros Hinj Hnd. induction Hnd as [|x l Hx Hnd IH]; cbn; constructor;
    [|exact IH].
  intros Hin. apply in_map_iff in Hin. destruct Hin as (y & Hy & Hin).
  apply Hinj in Hy. now subst.
Qed.

Section Flat.
Context {F : Type} (py : PyRuntime F) (config : TOONConfig).
Hypothesis quoting : compact_strings config = false.

Lemma nested_value_entry (k : string) (v : Value F) :
  key_ok k = true -> plain_scalar v ->
  entry_ok py (_encode_simple_value py config) (k, v).
Proof.
  intros Hk Hv. split; [exact Hk|]. cbn [fst snd].
  destruct v as [|[|]|n|x|s|o|a]; cbn in Hv; try contradiction.
  - split; reflexivity.
  - split; reflexivity.
  - split; reflexivity.
  - cbn [_encode_simple_value py_str]. split;
      [now apply int_text_ok | now apply parse_int_text].
  - cbn [_encode_simple_value]. unfold _encode_string.
    rewrite quoting. cbn [andb].
    split; [apply quoted_text_ok | now apply parse_quoted].
Qed.

Lemma top_value_entry (k : string) (v : Value F) :
  key_ok k = true -> plain_scalar v ->
  entry_ok py (encode py config) (k, v).
Proof.
  intros Hk Hv. split; [exact Hk|]. cbn [fst snd].
  destruct v as [|[|]|n|x|s|o|a]; cbn in Hv; try contradiction.
  - split; reflexivity.
  - split; reflexivity.
  - split; reflexivity.
  - cbn [encode py_str]. split;
      [now apply int_text_ok | now apply parse_int_text].
  - cbn [encode]. unfold _encode_string. rewrite quoting. cbn [andb].
    split; [apply quoted_text_ok | now apply parse_quoted].
Qed.

Lemma encode_flat_object (entries : list (string * Value F)) :
  entries <> [] ->
  Forall (fun kv => plain_scalar (snd kv)) entries ->
  encode py config (Object entries)
  = join (str1 NL) (map (kv_line (_encode_simple_value py config)) entries).
Proof.
  intros Hne Hall. cbn [encode]. unfold _encode_object.
  destruct entries as [|[k v] rest]; [contradiction|]. cbn [is_nil].
  assert (Htab : _is_tabular ((k, v) :: rest) = false).
  { inversion Hall as [|? ? Hv _]; subst. cbn [snd] in Hv.
    unfold _is_tabular. cbn [values map snd].
    destruct v; cbn in Hv; try contradiction; now destruct rest. }
  rewrite Htab. unfold _encode_simple_object. f_equal.
  apply map_ext_in. intros [k' v'] Hin.
  rewrite Forall_forall in Hall. specialize (Hall _ Hin). cbn [snd] in Hall.
  unfold kv_line. cbn [fst snd].
  destruct v'; cbn in Hall; try contradiction; reflexivity.
Qed.

(** X10: an Object whose values are scalars is read back as it was
    written, by an encoder that quotes its strings.  The keys are distinct,
    not empty, without newline and colon, and neither begin nor end with
    white space; the values are the null value, Booleans, integers from
    zero up and strings in which no backslash stands before the letter
    n. *)
Theorem flat_object_round_trip (entries : list (string * Value F)) :
  NoDup (keys entries) ->
  Forall (fun kv => key_ok (fst kv) = true /\ plain_scalar (snd kv))
    entries ->
  decode py (encode py config (Object entries)) = Ok (Object entries).
Proof.
  intros Hnd Hall. destruct entries as [|kv rest] eqn:E; [reflexivity|].
  rewrite <- E in *. assert (Hne : entries <> []) by (rewrite E; discriminate).
  clear E. rewrite encode_flat_object.
  - apply decode_kv_lines; [exact Hne | exact Hnd |].
    eapply Forall_impl; [|exact Hall].
    intros [k v] [Hk Hv]. now apply nested_value_entry.
  - exact Hne.
  - eapply Forall_impl; [|exact Hall]. now intros kv' [_ H].
Qed.

Lemma indexed_lines_entries (arr : list (Value F)) (start : nat) :
  map_enumerate
    (fun i item => str_int (Z.of_nat i) ++ ": " ++ encode py config item)
    start arr
  = map (kv_line (encode py config)) (indexed_entries start arr).
Proof.
  revert start. induction arr as [|v arr IH]; intros start; [reflexivity|].
  cbn [map_enumerate indexed_entries map]. now rewrite IH.
Qed.

Lemma indexed_entries_keys (arr : list (Value F)) (start : nat) :
  keys (indexed_entries start arr)
  = map (fun i => str_int (Z.of_nat i)) (seq start (length arr)).
Proof.
  revert start. induction arr as [|v arr IH]; intros start; [reflexivity|].
  cbn [indexed_entries map_enumerate keys map length seq fst].
  f_equal. apply IH.
Qed.

Lemma indexed_entries_ok (arr : list (Value F)) (start : nat) :
  Forall plain_scalar arr ->
  Forall (entry_ok py (encode py config)) (indexed_entries start arr).
Proof.
  intros Hall. revert start.
  induction Hall as [|v arr Hv Hall IH]; intros start; [constructor|].
  cbn [indexed_entries map_enumerate]. constructor; [|apply IH].
  apply top_value_entry; [|exact Hv].
  apply int_text_ok. apply Nat2Z.is_nonneg.
Qed.

(** X11: a non-empty array of scalars is not read back as an array: it
    is written as indexed lines, and what [decode] returns for them is the
    Object that maps every index, in decimal, to the element. *)
Theorem scalar_array_read_as_object (arr : list (Value F)) :
  arr <> [] ->
  Forall plain_scalar arr ->
  decode py (encode py config (Array arr))
  = Ok (Object (indexed_entries 0 arr)).
Proof.
  intros Hne Hall. cbn [encode]. unfold _encode_array.
  destruct arr as [|v arr]; [contradiction|]. cbn [is_nil].
  assert (Hun : _is_uniform_array (v :: arr) = false).
  { unfold _is_uniform_array. destruct (length (v :: arr) <=? 1)%nat;
      [reflexivity|].
    inversion Hall as [|? ? Hv _]; subst.
    destruct v; cbn in Hv; try contradiction; reflexivity. }
  rewrite Hun, indexed_lines_entries.
  apply decode_kv_lines.
  - discriminate.
  - rewrite indexed_entries_keys.
    apply NoDup_map_injective; [|apply seq_NoDup].
    intros i j Hij. apply str_int_inj in Hij; try apply Nat2Z.is_nonneg.
    now apply Nat2Z.inj.
  - now apply indexed_entries_ok.
Qed.

End Flat.

Lemma flat_object_round_trip_witness :
  decode py_literal
    (encode py_literal default_config
       (Object [("name", Str "Doe: Jane"); ("age", Int 41);
                ("admin", Bool false); ("note", Null)]))
  = Ok (Object [("name", Str "Doe: Jane"); ("age", Int 41);
                ("admin", Bool false); ("note", Null)]).
Proof.
  apply (flat_object_round_trip py_literal default_config eq_refl).
  - repeat constructor; cbn; intuition discriminate.
  - repeat constructor; cbn; lia.
Defined.

Lemma scalar_array_read_as_object_witness :
  decode py_literal
    (encode py_literal default_config (Array [Int 7; Str "a"; Bool true]))
  = Ok (Object [("0", Int 7); ("1", Str "a"); ("2", Bool true)]).
Proof.
  apply (scalar_array_read_as_object py_literal default_config eq_refl
           [Int 7; Str "a"; Bool true]).
  - discriminate.
  - repeat constructor; cbn; lia.
Defined.

(** ** More on the selector *)

Lemma rstrip_app_tight (p r : string) :
  p <> "" -> ends_space p = false -> rstrip (p ++ r) = p ++ rstrip r.
Proof.
  induction p as [|c p IH]; [contradiction|]. intros _ He.
  destruct p as [|d p].
  - cbn [ends_space] in He. cbn [append rstrip].
    destruct (rstrip r); [now rewrite He | reflexivity].
  - cbn [ends_space] in He. specialize (IH ltac:(discriminate) He).
    change (rstrip (String c (String d p) ++ r))
      with (match rstrip (String d p ++ r) with
            | EmptyString => if isspace_char c then EmptyString else str1 c
            | r' => String c r'
            end).
    rewrite IH. reflexivity.
Qed.

Lemma strip_keeps_prefix (p r : string) :
  tight p = true -> exists r', strip (p ++ r) = p ++ r'.
Proof.
  intros Ht. destruct (tight_parts p Ht) as (Hn & Hs & He).
  exists (rstrip r). unfold strip. rewrite (rstrip_app_tight p r Hn He).
  apply lstrip_id. now rewrite starts_space_app.
Qed.

Section SelectorMore.
Context {F : Type} (py : PyRuntime F) (config : TOONConfig).

Lemma first_long_list_found (vals : list (Value F)) (value : Value F) :
  first_long_list vals = Some value ->
  exists l, value = Array l /\ (2 < length l)%nat /\ In value vals.
Proof.
  induction vals as [|v vals IH]; cbn [first_long_list]; [discriminate|].
  assert (Hnext : first_long_list vals = Some value ->
                  exists l, value = Array l /\ (2 < length l)%nat
                            /\ In value (v :: vals)).
  { intros H. destruct (IH H) as (l' & Hv & Hl & Hin).
    exists l'. repeat split; auto. now right. }
  destruct v as [| | | | | |l]; try exact Hnext.
  destruct (2 <? length l)%nat eqn:E; [|exact Hnext].
  intros H. injection H as H. subst value.
  exists l. apply Nat.ltb_lt in E. repeat split; auto. now left.
Qed.

(** X12: TOON is chosen for a tool result whenever it is chosen in any
    other context; and in a context other than a tool result it is never
    chosen for a value that is not an Object. *)
Theorem tool_result_is_the_widest_context (data : Value F)
  (context : string) :
  (_should_use_toon data context = true ->
   _should_use_toon data "tool_result" = true)
  /\ (context <> "tool_result" -> is_dict data = false ->
      format_for_droid py config data context = json_encode py data).
Proof.
  split.
  - unfold _should_use_toon. cbn [String.eqb]. change ("tool_result" =? "tool_result")%string with true.
    destruct (String.eqb context "tool_result"); [auto|].
    destruct data as [| | | | |entries|]; try discriminate.
    destruct (first_long_list (values entries)) as [value|] eqn:E;
      [|discriminate].
    intros _. apply first_long_list_found in E.
    destruct E as (l & -> & Hl & Hin).
    cbn [_is_toon_suitable]. apply Nat.ltb_lt.
    induction (values entries) as [|v vals IH]; [contradiction|].
    destruct Hin as [->|Hin].
    + cbn [filter]. replace (1 <? length l)%nat with true
        by (symmetry; apply Nat.ltb_lt; lia).
      cbn. lia.
    + cbn [filter]. specialize (IH Hin).
      destruct v; try exact IH.
      destruct (1 <? length items)%nat; [cbn; lia | exact IH].
  - intros Hctx Hnd. unfold format_for_droid, _should_use_toon.
    rewrite (proj2 (String.eqb_neq _ _) Hctx).
    destruct data; try reflexivity. discriminate.
Qed.

Lemma tool_line_not_marker (tool_name rest : string) :
  startswith (strip ("// Tool: " ++ tool_name ++ rest)) marker = false.
Proof.
  change ("// Tool: " ++ tool_name ++ rest)
    with ("// Tool:" ++ (" " ++ tool_name ++ rest)).
  destruct (strip_keeps_prefix "// Tool:" (" " ++ tool_name ++ rest) eq_refl)
    as [r' ->].
  reflexivity.
Qed.

(** X13: when TOON is chosen for a tool result, [optimize_tool_result]
    puts a tool line before the marker line, and [parse_droid_response]
    then does not give this text to the TOON decoder: it goes to the JSON
    branch.  When TOON is not chosen the text is the JSON text. *)
Theorem optimized_result_is_not_decoded (tool_name : string)
  (result_data : Value F) :
  (_should_use_toon result_data "tool_result" = true ->
   optimize_tool_result py config tool_name result_data
   = "// Tool: " ++ tool_name ++ " | Format: TOON"
       ++ String NL (marker_line ++ String NL (encode py config result_data))
   /\ parse_droid_response py
        (optimize_tool_result py config tool_name result_data)
      = ViaJSON
          (match json_loads py
                   (optimize_tool_result py config tool_name result_data)
           with
           | Some v => v
           | None =>
               Str (optimize_tool_result py config tool_name result_data)
           end))
  /\ (_should_use_toon result_data "tool_result" = false ->
      optimize_tool_result py config tool_name result_data
      = json_encode py result_data).
Proof.
  split; intros Hsel; unfold optimize_tool_result, format_for_droid;
    rewrite Hsel.
  - split; [reflexivity|]. unfold parse_droid_response.
    rewrite tool_line_not_marker.
    now destruct (json_loads py _).
  - reflexivity.
Qed.

End SelectorMore.

Lemma tool_result_is_the_widest_context_witness :
  _should_use_toon (@Object string [("rows", Array (two_users ++ two_users))])
    "prompt" = true
  /\ _should_use_toon
       (@Object string [("rows", Array (two_users ++ two_users))])
       "tool_result" = true
  /\ format_for_droid py_literal default_config (Array two_users) "prompt"
     = json_encode py_literal (Array two_users).
Proof.
  destruct (tool_result_is_the_widest_context py_literal default_config
              (Object [("rows", Array (two_users ++ two_users))]) "prompt")
    as [Hwide _].
  destruct (tool_result_is_the_widest_context py_literal default_config
              (Array two_users) "prompt") as [_ Hjson].
  split; [reflexivity|]. split; [apply Hwide; reflexivity|].
  apply Hjson; [discriminate | reflexivity].
Defined.

Lemma optimized_result_is_not_decoded_witness :
  _should_use_toon (@Array string two_users) "tool_result" = true
  /\ parse_droid_response py_literal
       (optimize_tool_result py_literal default_config "list_users"
          (Array two_users))
     = ViaJSON
         (Str ("// Tool: list_users | Format: TOON"
                 ++ String NL (marker_line ++ String NL bare_text))).
Proof.
  split; [reflexivity|].
  destruct (optimized_result_is_not_decoded py_literal default_config
              "list_users" (Array two_users)) as [Hsel _].
  destruct (Hsel eq_refl) as [_ Hparse]. rewrite Hparse. reflexivity.
Defined.

(** ** When the conversion fails *)

Lemma all_chars_subst (p : ascii -> bool) (a : ascii) (s : string) :
  all_chars p (subst_char a "" s) = true ->
  all_chars (fun c => p c || Ascii.eqb c a) s = true.
Proof.
  induction s as [|x s IH]; [reflexivity|]. cbn [subst_char all_chars].
  rewrite all_chars_app. intros H. apply andb_true_iff in H.
  destruct H as [Hx Hs]. rewrite (IH Hs), andb_true_r.
  destruct (Ascii.eqb x a); [apply orb_true_r|].
  cbn in Hx. rewrite andb_true_r in Hx. now rewrite Hx.
Qed.

Lemma subst_nonempty (a : ascii) (s : string) :
  subst_char a "" s <> "" -> s <> "".
Proof. intros H ->. now apply H. Qed.

Section Failures.
Context {F : Type} (py : PyRuntime F).

(** X14: the conversion of a field text fails only on a text that is not
    empty and is made of digit characters, dots and dashes; so does the
    reading of the value of a key/value line.  Every other text is
    converted. *)
Theorem conversion_fails_on_number_like_text_only (value : string)
  (e : PyExn) :
  _convert_value py value = Raise e \/ _parse_value py [value] = Raise e ->
  value <> ""
  /\ all_chars (fun c => isdigit_char c || Ascii.eqb c "-"%char
                         || Ascii.eqb c "."%char) value = true.
Proof.
  intros H.
  assert (Hk : convert_keyword py value = Raise e).
  { destruct H as [H|H]; [exact H|]. unfold _parse_value in H.
    destruct (startswith value (str1 DQ) && endswith_char value DQ);
      [discriminate | exact H]. }
  clear H. unfold convert_keyword in Hk.
  destruct (String.eqb (lower value) "null"); [discriminate|].
  destruct (String.eqb (lower value) "true"); [discriminate|].
  destruct (String.eqb (lower value) "false"); [discriminate|].
  unfold convert_number in Hk.
  destruct (isdigit value) eqn:Hd.
  - unfold isdigit in Hd. apply andb_true_iff in Hd.
    destruct Hd as [Hne Hall]. apply negb_true_iff in Hne.
    split; [intros ->; discriminate|].
    apply (all_chars_impl isdigit_char); [|exact Hall].
    intros c Hc. now rewrite Hc.
  - destruct (isdigit (replace "-" "" (replace "." "" value))) eqn:Hs;
      [|discriminate].
    change "-" with (str1 "-"%char) in Hs.
    change "." with (str1 "."%char) in Hs.
    rewrite !replace_single in Hs.
    unfold isdigit in Hs. apply andb_true_iff in Hs.
    destruct Hs as [Hne Hall]. apply negb_true_iff in Hne.
    split.
    + apply (subst_nonempty "."%char), (subst_nonempty "-"%char).
      intros E. rewrite E in Hne. discriminate.
    + apply all_chars_subst in Hall. apply all_chars_subst. exact Hall.
Qed.

End Failures.

Lemma conversion_fails_on_number_like_text_only_witness :
  _convert_value py_literal "1-2" = Raise ValueError
  /\ all_chars (fun c => isdigit_char c || Ascii.eqb c "-"%char
                         || Ascii.eqb c "."%char) "1-2" = true.
Proof.
  split; [reflexivity|].
  exact (proj2 (conversion_fails_on_number_like_text_only py_literal "1-2"
                  ValueError (or_introl eq_refl))).
Defined.

(** ** Strings on one line *)

(** X15: the text written for a string never holds a newline, with
    either setting of [compact_strings]; with the setting off it is the
    escaped string between two double quotes. *)
Theorem encoded_string_is_one_line (config : TOONConfig) (value : string) :
  contains NL (_encode_string config value) = false
  /\ (compact_strings config = false ->
      _encode_string config value = quoted (escape value)).
Proof.
  split.
  - unfold _encode_string.
    destruct (compact_strings config); cbn [andb].
    + destruct (existsb (fun c => contains c value)
                  [","%char; NL; ":"%char; " "%char]) eqn:E; cbn [negb].
      * unfold quoted. cbn [append contains].
        now rewrite contains_app, escape_no_newline.
      * cbn [existsb] in E. apply orb_false_iff in E. destruct E as [_ E].
        apply orb_false_iff in E. now destruct E as [E _].
    + unfold quoted. cbn [append contains].
      now rewrite contains_app, escape_no_newline.
  - intros H. unfold _encode_string. now rewrite H.
Qed.

Lemma encoded_string_is_one_line_witness :
  compact_strings default_config = false
  /\ _encode_string default_config comma_newline
     = quoted ("a,b" ++ String BSL "nc").
Proof.
  split; [reflexivity|].
  rewrite (proj2 (encoded_string_is_one_line default_config comma_newline)
             eq_refl).
  reflexivity.
Defined.

(** ** The bare table, written and read *)

Section BareTable.
Context {F : Type} (py : PyRuntime F) (config : TOONConfig).

Lemma uniform_cell_text (v : Value F) :
  uniform_cell v ->
  tight (uniform_field py v) = true
  /\ contains NL (uniform_field py v) = false.
Proof.
  destruct v as [|[|]|n|x|s|o|a]; cbn [uniform_cell]; try contradiction.
  - intros _. split; reflexivity.
  - intros _. split; reflexivity.
  - intros _. split; reflexivity.
  - intros Hn. cbn [uniform_field py_str].
    destruct (int_text_ok n Hn) as [Ht _].
    destruct (text_ok_parts _ Ht) as (H1 & H2 & _). now split.
  - intros H. cbn [uniform_field].
    destruct (contains ","%char s || contains NL s) eqn:E.
    + split; [apply tight_quoted|]. unfold quoted.
      cbn [append contains]. now rewrite contains_app, escape_no_newline.
    + destruct H as [H|H]; [discriminate|]. cbn [py_str].
      apply orb_false_iff in E. now destruct E.
Qed.

Lemma uniform_row_facts (vals : list (Value F)) :
  vals <> [] -> Forall uniform_cell vals ->
  tight (uniform_row py vals) = true
  /\ contains NL (uniform_row py vals) = false.
Proof.
  intros Hne Hall. unfold uniform_row.
  assert (H : Forall (fun t => tight t = true) (map (uniform_field py) vals)
              /\ Forall (fun t => contains NL t = false)
                   (map (uniform_field py) vals)).
  { clear Hne. induction Hall as [|v l Hv Hl [I1 I2]].
    - split; constructor.
    - destruct (uniform_cell_text v Hv). split; constructor; assumption. }
  destruct H as [Ht Hn]. split.
  - apply join_tight; [|exact Ht]. destruct vals; [contradiction | discriminate].
  - now apply join_contains.
Qed.

(** A line that begins with two spaces is added, without them, to the
    value being read. *)
Lemma kv_step_continuation (st : KVState) (row : string) :
  tight row = true ->
  kv_step py st ("  " ++ row)
  = Ok {| result := result st;
          current_key := current_key st;
          current_value := (current_value st ++ [row])%list;
          in_multiline := in_multiline st |}.
Proof.
  intros Ht. destruct (tight_parts row Ht) as (Hn & Hs & He).
  unfold kv_step. cbv zeta.
  rewrite rstrip_id by now rewrite ends_space_app.
  cbn [append is_empty].
  change (String " " (String " " row)) with ("  " ++ row).
  unfold startswith at 1. rewrite prefix_app_self.
  cbn [negb andb]. rewrite andb_false_r. cbn [andb].
  cbn [append lstrip]. change (isspace_char " ") with true. cbn iota.
  now rewrite (lstrip_id row Hs).
Qed.

Lemma kv_loop_continuations (rows : list string) (st : KVState) :
  Forall (fun row => tight row = true) rows ->
  kv_loop py st (map (String.append "  ") rows)
  = Ok {| result := result st;
          current_key := current_key st;
          current_value := (current_value st ++ rows)%list;
          in_multiline := in_multiline st |}.
Proof.
  intros Hall. revert st. induction Hall as [|row rows Ht Hall IH]; intros st.
  - cbn. rewrite app_nil_r. now destruct st.
  - cbn [map kv_loop]. rewrite (kv_step_continuation st row Ht).
    cbn [bind]. rewrite IH. cbn [result current_key current_value in_multiline].
    now rewrite <- app_assoc.
Qed.

Lemma same_key_set_refl (l : list string) : same_key_set l l = true.
Proof.
  unfold same_key_set, subset_keys. rewrite andb_diag.
  apply forallb_forall. intros k Hk. apply existsb_exists.
  exists k. split; [exact Hk | apply String.eqb_refl].
Qed.

Lemma table_is_uniform (columns : list string)
  (table : list (list (Value F))) :
  (2 <= length table)%nat ->
  Forall (fun vals => length vals = length columns) table ->
  _is_uniform_array (table_rows columns table) = true.
Proof.
  intros Hlen Hall. unfold _is_uniform_array, table_rows.
  rewrite length_map.
  replace (length table <=? 1)%nat with false
    by (symmetry; apply Nat.leb_gt; lia).
  destruct table as [|vals table]; [cbn in Hlen; lia|].
  inversion Hall as [|? ? Hv Hrest]; subst. cbn [map].
  apply forallb_forall. intros item Hin. apply in_map_iff in Hin.
  destruct Hin as (vals' & <- & Hin').
  rewrite Forall_forall in Hrest.
  rewrite (keys_combine columns vals' (Hrest _ Hin')).
  rewrite (keys_combine columns vals Hv). apply same_key_set_refl.
Qed.

Lemma encode_bare_table (columns : list string)
  (table : list (list (Value F))) :
  NoDup columns -> (2 <= length table)%nat ->
  Forall (fun vals => length vals = length columns) table ->
  encode py config (Array (table_rows columns table))
  = join (str1 NL)
      (header_tail (str_int (Z.of_nat (length table))) (join "," columns)
       :: map (String.append "  ") (map (uniform_row py) table)).
Proof.
  intros Hnd Hlen Hall. cbn [encode]. unfold _encode_array.
  rewrite (table_is_uniform columns table Hlen Hall).
  destruct table as [|vals table]; [cbn in Hlen; lia|].
  inversion Hall as [|? ? Hv Hrest]; subst.
  cbn [table_rows map is_nil]. fold (table_rows columns table).
  unfold _encode_uniform_array.
  rewrite (keys_combine columns vals Hv).
  change (Object (combine columns vals) :: table_rows columns table)
    with (table_rows columns (vals :: table)).
  assert (Hrows :
    map (fun item =>
           "  " ++ join ","
             (map (fun col =>
                     uniform_field py
                       (dict_get col (Str "")
                          match item with Object o => o | _ => [] end))
                columns))
      (table_rows columns (vals :: table))
    = map (String.append "  ") (map (uniform_row py) (vals :: table))).
  { unfold table_rows. rewrite !map_map. apply map_ext_in.
    intros vals' Hin. f_equal. unfold uniform_row. f_equal.
    rewrite Forall_forall in Hall.
    rewrite <- (map_map (fun col => dict_get col (Str "") (combine columns vals'))
                  (uniform_field py)).
    now rewrite (dict_get_combine (Str "") columns vals' Hnd (Hall _ Hin)). }
  rewrite Hrows. unfold table_rows at 1. rewrite length_map.
  unfold header_tail. cbn [map]. rewrite join_cons2.
  now rewrite !append_assoc.
Qed.

Lemma uniform_rows_facts (columns : list string)
  (table : list (list (Value F))) :
  columns <> [] ->
  Forall (fun vals => length vals = length columns
                      /\ Forall uniform_cell vals) table ->
  Forall (fun r => tight r = true) (map (uniform_row py) table)
  /\ Forall (fun r => contains NL r = false) (map (uniform_row py) table).
Proof.
  intros Hcols Hall.
  induction Hall as [|vals t [Hl Hv] Hall IH]; [split; constructor|].
  assert (Hne : vals <> []).
  { destruct vals; [|discriminate]. destruct columns; [contradiction|].
    discriminate. }
  destruct (uniform_row_facts vals Hne Hv). destruct IH.
  split; constructor; assumption.
Qed.

(** X16: a uniform array is not read back.  For an array of two or more
    row Objects with the same distinct columns, one column at least,
    [encode] writes a bare header and the rows, and [decode] returns an
    Object with one key, the header without its colon, mapped to one
    string: the rows joined by a space.  The columns hold no newline,
    colon or opening bracket; every row has one value for every column,
    and the values are the null value, Booleans, integers from zero up,
    and strings that are wrapped (they hold a comma or a newline) or
    that are not empty and neither begin nor end with white space. *)
Theorem uniform_array_read_as_text (columns : list string)
  (table : list (list (Value F))) :
  columns <> [] -> NoDup columns ->
  Forall (fun c => contains NL c = false /\ contains ":"%char c = false
                   /\ contains "["%char c = false) columns ->
  (2 <= length table)%nat ->
  Forall (fun vals => length vals = length columns
                      /\ Forall uniform_cell vals) table ->
  decode py (encode py config (Array (table_rows columns table)))
  = Ok (Object
          [(bare_key (str_int (Z.of_nat (length table))) (join "," columns),
            Str (join " " (map (uniform_row py) table)))]).
Proof.
  intros Hcols Hnd Hcok Hlen Hall.
  assert (Hlens : Forall (fun vals => length vals = length columns) table).
  { eapply Forall_impl; [|exact Hall]. now intros vals [H _]. }
  rewrite (encode_bare_table columns table Hnd Hlen Hlens).
  set (count := str_int (Z.of_nat (length table))).
  set (cols := join "," columns).
  destruct (int_text_parses (Z.of_nat (length table)) (Nat2Z.is_nonneg _))
    as (Hdec & _ & _). fold count in Hdec.
  assert (Hc : contains NL cols = false /\ contains ":"%char cols = false
               /\ contains "["%char cols = false).
  { unfold cols. repeat split; apply join_contains; try reflexivity;
      (eapply Forall_impl; [|exact Hcok]); cbn; tauto. }
  destruct Hc as (Hcn & Hcc & Hcb).
  set (rows := map (uniform_row py) table).
  assert (Hrows : Forall (fun r => tight r = true) rows
                  /\ Forall (fun r => contains NL r = false) rows)
    by (apply (uniform_rows_facts columns table Hcols Hall)).
  destruct Hrows as [Hrt Hrn].
  set (header := header_tail count cols).
  set (lines := header :: map (String.append "  ") rows).
  assert (Hhead_eq : header = bare_key count cols ++ ":").
  { unfold header, header_tail, bare_key. now rewrite !append_assoc. }
  assert (Hkey : contains ":"%char (bare_key count cols) = false
                 /\ contains NL (bare_key count cols) = false).
  { unfold bare_key. cbn [append contains]. rewrite !contains_app.
    rewrite (all_chars_contains isdecimal_char ":"%char count Hdec)
      by reflexivity.
    rewrite (all_chars_contains isdecimal_char NL count Hdec) by reflexivity.
    cbn [append contains]. rewrite !contains_app, Hcc, Hcn.
    split; reflexivity. }
  destruct Hkey as [Hkc Hkn].
  assert (Hkt : tight (bare_key count cols) = true).
  { apply tight_of_parts; [discriminate | reflexivity |].
    unfold bare_key.
    replace ("[" ++ count ++ "]{" ++ cols ++ "}")
      with (("[" ++ count ++ "]{" ++ cols) ++ "}")
      by (now rewrite !append_assoc).
    now rewrite ends_space_app. }
  assert (Hlines : Forall (fun l => l <> "" /\ ends_space l = false) lines
                   /\ Forall (fun l => contains NL l = false) lines).
  { unfold lines. split; constructor.
    - rewrite Hhead_eq. split; [discriminate|]. now rewrite ends_space_app.
    - clear -Hrt. induction Hrt as [|r l Hr Hl IH]; [constructor|].
      cbn [map]. constructor; [|exact IH].
      destruct (tight_parts r Hr) as (Hn & _ & He).
      split; [discriminate|]. now rewrite ends_space_app.
    - rewrite Hhead_eq, contains_app, Hkn. reflexivity.
    - clear -Hrn. induction Hrn as [|r l Hr Hl IH]; [constructor|].
      cbn [map]. constructor; [|exact IH].
      rewrite contains_app, Hr. reflexivity. }
  destruct Hlines as [Hends Hnls].
  destruct (join_ends (str1 NL) lines ltac:(discriminate) Hends)
    as [_ Hte].
  assert (Hstrip : strip (join (str1 NL) lines) = join (str1 NL) lines).
  { unfold strip. rewrite (rstrip_id _ Hte). apply lstrip_id.
    unfold lines. destruct (map (String.append "  ") rows);
      reflexivity. }
  unfold decode. rewrite Hstrip.
  rewrite (split_join NL lines ltac:(discriminate) Hnls).
  unfold lines at 1. unfold header at 1.
  pose proof (header_detected "" count cols) as Hdet.
  cbn [append] in Hdet. rewrite Hdet.
  unfold _decode_tabular, lines, header.
  rewrite (header_unmatched count cols Hdec Hcb).
  unfold _decode_key_value. cbn [kv_loop].
  fold header. rewrite Hhead_eq.
  (* the header line opens the key *)
  assert (Hfirst :
    kv_step py kv_init (bare_key count cols ++ ":")
    = Ok {| result := [];
            current_key := Some (bare_key count cols);
            current_value := [];
            in_multiline := true |}).
  { unfold kv_step. cbv zeta.
    rewrite rstrip_id by now rewrite ends_space_app.
    assert (Hne : bare_key count cols ++ ":" <> "") by discriminate.
    destruct (bare_key count cols ++ ":") as [|c0 r0] eqn:E;
      [contradiction|].
    cbn [is_empty]. rewrite <- E.
    rewrite contains_app. cbn [contains]. rewrite Ascii.eqb_refl.
    cbn [orb]. rewrite orb_true_r.
    assert (Hs1 : startswith (bare_key count cols ++ ":") "  " = false)
      by reflexivity.
    assert (Hs2 : startswith (bare_key count cols ++ ":") (str1 TAB) = false)
      by reflexivity.
    rewrite Hs1, Hs2. cbn [negb andb].
    change (bare_key count cols ++ ":")
      with (bare_key count cols ++ String ":" "").
    rewrite (split_once_key _ "" Hkc).
    change (kv_save py kv_init) with (Ok (@nil (string * Value F))).
    cbn [bind]. change (strip "") with "". cbn [is_empty negb].
    now rewrite (strip_tight _ Hkt). }
  rewrite Hfirst. cbn [bind].
  rewrite (kv_loop_continuations rows _ Hrt). cbn [bind].
  unfold kv_save. cbn [current_key current_value result app].
  unfold rows in *. unfold _parse_value.
  destruct table as [|v1 [|v2 table]]; cbn in Hlen; try lia.
  reflexivity.
Qed.

End BareTable.

Lemma uniform_array_read_as_text_witness :
  decode py_literal
    (encode py_literal default_config
       (Array (table_rows ["id"; "name"]
                 [[Int 1; Str "Doe, Jane"]; [Int 2; Str "Bob"];
                  [Int 3; Null]])))
  = Ok (Object
          [("[3]{id,name}",
            Str ("1," ++ quoted "Doe, Jane" ++ " 2,Bob 3,null"))]).
Proof.
  apply (uniform_array_read_as_text py_literal default_config
           ["id"; "name"]
           [[Int 1; Str "Doe, Jane"]; [Int 2; Str "Bob"]; [Int 3; Null]]).
  - discriminate.
  - repeat constructor; cbn; intuition discriminate.
  - repeat constructor.
  - cbn. lia.
  - repeat (apply Forall_cons || apply Forall_nil || split);
      cbn; try lia; try exact I; auto.
Defined.

(** ** An Object under a key *)

Lemma join_prepend (sep x y : string) (l : list string) :
  x ++ join sep (y :: l) = join sep ((x ++ y) :: l).
Proof.
  destruct l as [|z l]; [reflexivity|].
  rewrite !join_cons2. now rewrite append_assoc.
Qed.

Lemma spaces_facts (n : nat) (row : string) :
  tight row = true ->
  lstrip (spaces n ++ row) = row
  /\ ends_space (spaces n ++ row) = false
  /\ contains NL (spaces n ++ row) = contains NL row.
Proof.
  intros Ht. destruct (tight_parts row Ht) as (Hn & Hs & He).
  split; [|split].
  - induction n as [|n IH]; cbn [spaces append lstrip];
      [now apply lstrip_id|].
    change (isspace_char " ") with true. cbn iota. exact IH.
  - now rewrite ends_space_app.
  - induction n as [|n IH]; [reflexivity|].
    cbn [spaces append contains]. rewrite IH. reflexivity.
Qed.

Section Nested.
Context {F : Type} (py : PyRuntime F) (config : TOONConfig).
Context (txt : Value F -> string).

(** A line made of a key and a colon opens the key. *)
Lemma kv_step_open_key (st : KVState) (k : string) :
  key_ok k = true ->
  kv_step py st (k ++ ":")
  = (res <- kv_save py st ;;
     Ok {| result := res;
           current_key := Some k;
           current_value := [];
           in_multiline := true |}).
Proof.
  intros Hk. destruct (key_ok_parts k Hk) as (Hkt & Hkn & Hkc).
  destruct (tight_parts k Hkt) as (Hk0 & Hks & Hke).
  unfold kv_step. cbv zeta.
  rewrite rstrip_id by now rewrite ends_space_app.
  assert (Hne : k ++ ":" <> "") by (destruct k; discriminate).
  assert (Hss : starts_space (k ++ ":") = false)
    by now rewrite starts_space_app.
  rewrite (startswith_space_false _ "  " Hne Hss eq_refl).
  rewrite (startswith_space_false _ (str1 TAB) Hne Hss eq_refl).
  rewrite contains_app. cbn [contains]. rewrite Ascii.eqb_refl.
  cbn [orb]. rewrite orb_true_r. cbn [negb andb].
  change (k ++ ":") with (k ++ String ":" "") at 2.
  rewrite (split_once_key k "" Hkc).
  change (strip "") with "". cbn [is_empty negb].
  rewrite (strip_tight k Hkt).
  destruct (k ++ ":"); [contradiction | reflexivity].
Qed.

(** An indented line is added, without its indentation, to the value
    being read. *)
Lemma kv_step_indented (st : KVState) (n : nat) (row : string) :
  (2 <= n)%nat -> tight row = true ->
  kv_step py st (spaces n ++ row)
  = Ok {| result := result st;
          current_key := current_key st;
          current_value := (current_value st ++ [row])%list;
          in_multiline := in_multiline st |}.
Proof.
  intros Hn Ht. destruct (spaces_facts n row Ht) as (Hl & He & _).
  unfold kv_step. cbv zeta. rewrite (rstrip_id _ He), Hl.
  destruct n as [|[|n]]; try lia.
  cbn [spaces append is_empty].
  change (String " " (String " " (spaces n ++ row)))
    with ("  " ++ (spaces n ++ row)).
  unfold startswith at 1. rewrite prefix_app_self.
  cbn [negb andb]. now rewrite andb_false_r.
Qed.

(** The loop from a state that is reading the value of [k0], over the
    lines of entries. *)
Lemma kv_loop_from (rest done : list (string * Value F)) (k0 : string)
  (cur : list string) (v0 : Value F) (m : bool) :
  _parse_value py cur = Ok v0 ->
  Forall (entry_ok py txt) rest ->
  NoDup (keys (done ++ (k0, v0) :: rest)) ->
  (st <- kv_loop py
           {| result := done;
              current_key := Some k0;
              current_value := cur;
              in_multiline := m |}
           (map (kv_line txt) rest) ;;
   kv_save py st)
  = Ok (done ++ (k0, v0) :: rest)%list.
Proof.
  revert done k0 cur v0 m.
  induction rest as [|kv rest IH]; intros done k0 cur v0 m Hparse Hall Hnd.
  - cbn [map kv_loop bind]. unfold kv_save.
    cbn [current_key current_value result]. rewrite Hparse. cbn [bind].
    rewrite dict_set_fresh; [reflexivity|].
    unfold keys in Hnd. rewrite map_app in Hnd. cbn in Hnd.
    apply NoDup_remove_2 in Hnd. rewrite app_nil_r in Hnd. exact Hnd.
  - inversion Hall as [|? ? Hkv Hrest]; subst.
    pose proof Hkv as (_ & _ & Hparse').
    cbn [map kv_loop]. rewrite (kv_step_line py txt _ kv Hkv).
    unfold kv_save at 1. cbn [current_key current_value result].
    rewrite Hparse. cbn [bind].
    assert (Hfresh : ~ In k0 (keys done)).
    { unfold keys in Hnd. rewrite map_app in Hnd. cbn in Hnd.
      apply NoDup_remove_2 in Hnd. intros Hin. apply Hnd.
      apply in_or_app. now left. }
    rewrite (dict_set_fresh k0 v0 done Hfresh).
    destruct kv as [k v]. cbn [fst snd] in *.
    rewrite (IH (done ++ [(k0, v0)])%list k [txt v] v false Hparse' Hrest).
    + now rewrite <- app_assoc.
    + now rewrite <- app_assoc.
Qed.

End Nested.

Section NestedObject.
Context {F : Type} (py : PyRuntime F) (config : TOONConfig).
Hypothesis quoting : compact_strings config = false.
Hypothesis indented : (2 <= indent_size config)%Z.
Hypothesis nesting : (0 < max_nesting_depth config)%Z.

(** X17: an Object under a key is not read back as an Object.  For an
    Object with one key mapped to a non-empty Object whose values are the
    null value, Booleans, integers from zero up or strings in which no
    backslash stands before the letter n, [encode] indents only the first
    line of the inner Object, and [decode] returns an Object in which the
    outer key is mapped to that first line, as a string, and the other
    inner entries stand beside it.  Every key is not empty, holds no
    newline and no colon and neither begins nor ends with white space;
    the outer key holds no opening bracket, the first inner key does not
    begin with a double quote, and the outer key and the other inner
    keys are distinct.  The encoder quotes its strings, indents by two
    or more and allows nesting. *)
Theorem nested_object_is_flattened (k k1 : string) (v1 : Value F)
  (rest : list (string * Value F)) :
  key_ok k = true -> contains "["%char k = false ->
  startswith k1 (str1 DQ) = false ->
  Forall (fun kv => key_ok (fst kv) = true /\ plain_scalar (snd kv))
    ((k1, v1) :: rest) ->
  NoDup (k :: keys rest) ->
  decode py (encode py config (Object [(k, Object ((k1, v1) :: rest))]))
  = Ok (Object
          ((k, Str (kv_line (_encode_simple_value py config) (k1, v1)))
           :: rest)).
Proof.
  intros Hk Hkb Hq1 Hall Hnd.
  set (txt := _encode_simple_value py config).
  set (inner := (k1, v1) :: rest).
  assert (Hentries : Forall (entry_ok py txt) inner).
  { eapply Forall_impl; [|exact Hall].
    intros [k' v'] [Hk' Hv']. now apply nested_value_entry. }
  assert (Hscal : Forall (fun kv => plain_scalar (snd kv)) inner).
  { eapply Forall_impl; [|exact Hall]. now intros kv [_ H]. }
  (* the text *)
  set (n := Z.to_nat (indent_size config)).
  assert (Hn : (2 <= n)%nat) by (unfold n; lia).
  assert (Henc : encode py config (Object [(k, Object inner)])
                 = join (str1 NL)
                     ((k ++ ":") :: (spaces n ++ kv_line txt (k1, v1))
                        :: map (kv_line txt) rest)).
  { cbn [encode]. unfold _encode_object. cbn [is_nil].
    change (_is_tabular [(k, Object inner)]) with false. cbn iota.
    unfold _encode_simple_object. cbn [map]. unfold inner at 1.
    cbn [is_nil negb andb].
    replace (0 <? max_nesting_depth config)%Z with true
      by (symmetry; apply Z.ltb_lt; exact nesting).
    fold inner. fold n.
    rewrite (encode_flat_object py config inner
               ltac:(discriminate) Hscal).
    fold txt. unfold inner. cbn [map].
    rewrite join_prepend, join_cons2.
    change (join (str1 NL) [?x]) with x.
    now rewrite !append_assoc. }
  rewrite Henc.
  inversion Hentries as [|? ? Hkv1 Hrest]; subst.
  pose proof Hkv1 as (Hk1 & Ht1 & _). cbn [fst snd] in Hk1, Ht1.
  destruct (kv_line_facts k1 (txt v1) Hk1 Ht1)
    as (_ & L2 & _ & _ & _ & _ & _ & L8 & L9 & L10 & _).
  set (L1 := kv_line txt (k1, v1)) in *.
  change (k1 ++ ": " ++ txt v1) with L1 in L2, L8, L9, L10.
  assert (HL1 : tight L1 = true).
  { apply tight_of_parts; auto. intros E. rewrite E in L2. discriminate. }
  destruct (key_ok_parts k Hk) as (Hkt & Hkn & Hkc).
  destruct (tight_parts k Hkt) as (Hk0 & Hks & Hke).
  destruct (spaces_facts n L1 HL1) as (_ & Hse & Hsn).
  set (lines := (k ++ ":") :: (spaces n ++ L1) :: map (kv_line txt) rest).
  assert (Hlines : Forall (fun l => l <> "" /\ ends_space l = false) lines
                   /\ Forall (fun l => contains NL l = false) lines).
  { assert (Hr : Forall (fun l => (l <> "" /\ ends_space l = false)
                                  /\ contains NL l = false)
                   (map (kv_line txt) rest)).
    { clear -Hrest. induction Hrest as [|[k' v'] l (Hk' & Ht' & _) Hl IH];
        [constructor|].
      cbn [map]. constructor; [|exact IH]. cbn [fst snd] in *.
      destruct (kv_line_facts k' (txt v') Hk' Ht')
        as (_ & H2 & _ & _ & _ & _ & _ & _ & H9 & H10 & _).
      unfold kv_line. cbn [fst snd]. repeat split; auto.
      intros E. rewrite E in H2. discriminate. }
    unfold lines. split.
    - constructor; [|constructor].
      + split; [destruct k; discriminate|]. now rewrite ends_space_app.
      + split; [|exact Hse].
        apply append_nonempty. intros E. rewrite E in L2. discriminate.
      + eapply Forall_impl; [|exact Hr]. cbn. tauto.
    - constructor; [|constructor].
      + now rewrite contains_app, Hkn.
      + now rewrite Hsn.
      + eapply Forall_impl; [|exact Hr]. cbn. tauto. }
  destruct Hlines as [Hends Hnls].
  destruct (join_ends (str1 NL) lines ltac:(discriminate) Hends)
    as [_ Hte].
  assert (Hstrip : strip (join (str1 NL) lines) = join (str1 NL) lines).
  { unfold strip. rewrite (rstrip_id _ Hte). apply lstrip_id.
    unfold lines. rewrite join_cons2, append_assoc.
    now rewrite starts_space_app. }
  unfold decode. rewrite Hstrip.
  rewrite (split_join NL lines ltac:(discriminate) Hnls).
  unfold lines at 1.
  assert (Hnt : _is_tabular_format (k ++ ":") = false).
  { unfold _is_tabular_format. rewrite contains_app, Hkb. reflexivity. }
  rewrite Hnt. unfold _decode_key_value, lines. cbn [kv_loop].
  rewrite (kv_step_open_key py kv_init k Hk).
  change (kv_save py kv_init) with (Ok (@nil (string * Value F))).
  cbn [bind]. rewrite (kv_step_indented py _ n L1 Hn HL1).
  cbn [bind result current_key current_value in_multiline app].
  assert (Hparse : _parse_value py [L1] = Ok (Str L1)).
  { unfold _parse_value.
    replace (startswith L1 (str1 DQ)) with false.
    - cbn [andb]. apply (separator_text_is_string py " "%char); [now right|].
      unfold L1, kv_line. cbn [fst snd]. rewrite contains_app.
      cbn [append contains]. rewrite Ascii.eqb_refl. cbn [orb].
      now rewrite !orb_true_r.
    - symmetry. unfold L1, kv_line, startswith, str1 in *. cbn [fst snd].
      destruct (tight_parts k1 (proj1 (key_ok_parts k1 Hk1))) as (Hk10 & _).
      destruct k1 as [|c r]; [contradiction|]. cbn [append].
      rewrite prefix_cons in Hq1 |- *. now rewrite prefix_nil in *. }
  pose proof (kv_loop_from py txt rest [] k [L1] (Str L1) true Hparse
                Hrest Hnd) as Hloop.
  cbn [app] in Hloop.
  destruct (kv_loop py _ (map (kv_line txt) rest)) as [st|e];
    cbn [bind] in Hloop |- *; [|discriminate].
  now rewrite Hloop.
Qed.

End NestedObject.

Lemma nested_object_is_flattened_witness :
  decode py_literal
    (encode py_literal default_config
       (Object [("a", Object [("b", Int 1); ("c", Int 2)])]))
  = Ok (Object [("a", Str "b: 1"); ("c", Int 2)]).
Proof.
  apply (nested_object_is_flattened py_literal default_config
           eq_refl ltac:(discriminate) eq_refl "a" "b" (Int 1) [("c", Int 2)]);
    try reflexivity.
  - repeat constructor; cbn; lia.
  - repeat constructor; cbn; intuition discriminate.
Defined.
